(** * Main.js: the multi-proxy session and heartbeat client

    A shallow embedding of [src/Main.js].  The script reads a token file and
    a proxy file, opens one session per proxy line and then sends a ping on
    a fixed timer for every session it obtained.

    JavaScript values are modelled by [JsVal]; the asynchronous functions of
    the script ([connect], [getSession], [sendPing], [main]) are programs of
    the free monad [Prog], whose operations are the calls the script makes
    to its platform (clock, random bytes, console, logger, HTTP client,
    file reader, timers, signals).  The event loop of Node is the function
    [step] on [World]: a turn runs a program up to its next [await] of a
    request, and the outcome of the request, the firing of a timer and
    SIGINT are events that start the next turns, in any order.

    A string of the script is modelled by its UTF-8 encoding, one [ascii]
    per byte (the lines of the two files are decoded from UTF-8 by Node).

    What is left out: the text of the console lines (kept by call site,
    with the values interpolated), numbers that are not integers, and the
    time the synchronous code of a turn takes ([Date.now()] is the same
    all through a turn).  The library functions [url.parse] and
    [SocksProxyAgent] are parameters of the development (class
    [Platform]). *)

From Stdlib Require Import ZArith List String Ascii Bool Lia Permutation.
From Stdlib Require Import Init.Byte DecimalString.
Import ListNotations.
Open Scope string_scope.
Open Scope Z_scope.

Set Implicit Arguments.
Set Warnings "-register-all".

(** ** JavaScript values *)

(** The values the script handles: the payload of a JSON response, the
    fields of the objects it builds, and the SOCKS agent object.  An
    object lists its properties, each name once, in insertion order.
    Numbers are the integers, negative zero, the two infinities and NaN
    (no other number reaches the script's own arithmetic). *)
Inductive JsVal : Type :=
| JUndefined
| JNull
| JBool (b : bool)
| JNum (z : Z)
| JNegZero
| JInfinity (negative : bool)
| JNaN
| JStr (s : string)
| JObj (fields : list (string * JsVal))
| JSocksAgent (uri : string).

(** ToBoolean. *)
Definition truthy (v : JsVal) : bool :=
  match v with
  | JUndefined | JNull | JNaN | JNegZero => false
  | JBool b => b
  | JNum z => negb (z =? 0)
  | JInfinity _ => true
  | JStr s => negb (String.eqb s "")
  | JObj _ | JSocksAgent _ => true
  end.

(** An [Error] object; the script only ever reads [error.message]. *)
Record Error : Type := mkError { message : string }.

(** The outcome of evaluating an expression or a call: a value, or a
    thrown error. *)
Inductive Result (A : Type) : Type :=
| Returned (a : A)
| Thrown (e : Error).
Arguments Returned {A} a.
Arguments Thrown {A} e.

Fixpoint lookup_field (name : string) (fields : list (string * JsVal)) : JsVal :=
  match fields with
  | [] => JUndefined
  | (k, v) :: rest => if String.eqb k name then v else lookup_field name rest
  end.

(** Property read [v.name], for the property names the script reads
    ([data], [uid], [name], [browser_id], [host]): a TypeError on
    [undefined] and [null], the field of an object, and [undefined] on the
    primitives, which have none of these properties. *)
Definition get_prop (v : JsVal) (name : string) : Result JsVal :=
  match v with
  | JUndefined =>
      Thrown (mkError ("Cannot read properties of undefined (reading '" ++ name ++ "')"))
  | JNull =>
      Thrown (mkError ("Cannot read properties of null (reading '" ++ name ++ "')"))
  | JObj fields => Returned (lookup_field name fields)
  | _ => Returned JUndefined
  end.

(** ** Strings: trim, parseInt, hex *)

(** The white space and line terminators of [String.prototype.trim] that
    are ASCII: tab, line feed, vertical tab, form feed, carriage return,
    space. *)
Definition is_space (c : ascii) : bool :=
  let n := nat_of_ascii c in
  ((9 <=? n) && (n <=? 13))%nat || (n =? 32)%nat.

(** The one that takes two bytes: U+00A0 (C2 A0). *)
Definition is_space2 (c1 c2 : ascii) : bool :=
  ((nat_of_ascii c1 =? 194) && (nat_of_ascii c2 =? 160))%nat.

(** Those that take three bytes: U+1680 (E1 9A 80), U+2000 to U+200A
    (E2 80 80 to E2 80 8A), U+2028, U+2029 and U+202F (E2 80 A8, A9, AF),
    U+205F (E2 81 9F), U+3000 (E3 80 80) and U+FEFF (EF BB BF). *)
Definition is_space3 (c1 c2 c3 : ascii) : bool :=
  let n1 := nat_of_ascii c1 in
  let n2 := nat_of_ascii c2 in
  let n3 := nat_of_ascii c3 in
  ((n1 =? 225) && (n2 =? 154) && (n3 =? 128)
   || (n1 =? 226) && (n2 =? 128)
      && ((128 <=? n3) && (n3 <=? 138) || (n3 =? 168) || (n3 =? 169) || (n3 =? 175))
   || (n1 =? 226) && (n2 =? 129) && (n3 =? 159)
   || (n1 =? 227) && (n2 =? 128) && (n3 =? 128)
   || (n1 =? 239) && (n2 =? 187) && (n3 =? 191))%nat.

(** The string without the white-space character it starts with, if it
    starts with one. *)
Definition strip_space (s : string) : option string :=
  match s with
  | String c1 rest1 =>
      if is_space c1 then Some rest1
      else
        match rest1 with
        | String c2 rest2 =>
            if is_space2 c1 c2 then Some rest2
            else
              match rest2 with
              | String c3 rest3 => if is_space3 c1 c2 c3 then Some rest3 else None
              | EmptyString => None
              end
        | EmptyString => None
        end
  | EmptyString => None
  end.

Fixpoint trimStart (s : string) : string :=
  match s with
  | String c1 rest1 =>
      if is_space c1 then trimStart rest1
      else
        match rest1 with
        | String c2 rest2 =>
            if is_space2 c1 c2 then trimStart rest2
            else
              match rest2 with
              | String c3 rest3 => if is_space3 c1 c2 c3 then trimStart rest3 else s
              | EmptyString => s
              end
        | EmptyString => s
        end
  | EmptyString => EmptyString
  end.

(** The string holds white space only. *)
Definition is_blank (s : string) : bool :=
  match trimStart s with
  | EmptyString => true
  | String _ _ => false
  end.

(** [trimEnd] drops the trailing white space: the string is cut where
    what follows is white space only. *)
Fixpoint trimEnd (s : string) : string :=
  match s with
  | EmptyString => EmptyString
  | String c rest => if is_blank s then EmptyString else String c (trimEnd rest)
  end.

Definition trim (s : string) : string := trimEnd (trimStart s).

Definition digit_value (c : ascii) : option Z :=
  let n := nat_of_ascii c in
  if ((48 <=? n) && (n <=? 57))%nat then Some (Z.of_nat n - 48) else None.

(** The value of the longest prefix of decimal digits, with the number of
    digits read. *)
Fixpoint read_digits (acc : Z) (count : nat) (s : string) : Z * nat :=
  match s with
  | String c rest =>
      match digit_value c with
      | Some d => read_digits (10 * acc + d) (S count) rest
      | None => (acc, count)
      end
  | EmptyString => (acc, count)
  end.

(** The double nearest to the integer [n], 0 <= n, ties to the even
    significand of 53 bits; [None] stands for Infinity.  Every integer
    below 2^53 is a double. *)
Definition round_to_double (n : Z) : option Z :=
  if n <? 2 ^ 53 then Some n
  else
    let e := Z.log2 n - 52 in
    let q := Z.shiftr n e in
    let r := n - Z.shiftl q e in
    let half := Z.shiftl 1 (e - 1) in
    let q' := if (half <? r) || ((half =? r) && Z.odd q) then q + 1 else q in
    let v := Z.shiftl q' e in
    if 2 ^ 1024 <=? v then None else Some v.

(** The Number value of the integer with sign [neg] and magnitude [v]. *)
Definition number_of_integer (neg : bool) (v : Z) : JsVal :=
  match round_to_double v with
  | None => JInfinity neg
  | Some d =>
      if neg then (if d =? 0 then JNegZero else JNum (- d)) else JNum d
  end.

(** [parseInt(s, 10)]: leading white space is skipped, a sign is read, then
    the longest prefix of digits; NaN when there is no digit, and otherwise
    the Number value of the integer read. *)
Definition parseInt_string (s : string) : JsVal :=
  let s1 := trimStart s in
  let '(neg, s2) :=
    match s1 with
    | String "-" rest => (true, rest)
    | String "+" rest => (false, rest)
    | _ => (false, s1)
    end in
  match read_digits 0 0%nat s2 with
  | (_, O) => JNaN
  | (v, _) => number_of_integer neg v
  end.

(** [parseInt(x, 10)] where [x] is a string or [null]: the argument is
    first converted to a string, and ["null"] has no digit. *)
Definition parseInt (x : option string) : JsVal :=
  match x with
  | Some s => parseInt_string s
  | None => parseInt_string "null"
  end.

Definition hex_digit (n : N) : ascii :=
  match n with
  | 0%N => "0" | 1%N => "1" | 2%N => "2" | 3%N => "3"
  | 4%N => "4" | 5%N => "5" | 6%N => "6" | 7%N => "7"
  | 8%N => "8" | 9%N => "9" | 10%N => "a" | 11%N => "b"
  | 12%N => "c" | 13%N => "d" | 14%N => "e" | _ => "f"
  end%char.

(** [buffer.toString('hex')]: two lower-case hexadecimal digits per byte. *)
Fixpoint toString_hex (buffer : list byte) : string :=
  match buffer with
  | [] => EmptyString
  | b :: rest =>
      let n := Byte.to_N b in
      String (hex_digit (n / 16)) (String (hex_digit (n mod 16)) (toString_hex rest))
  end.

(** ** The platform: url.parse and SocksProxyAgent *)

(** The three fields of the object returned by [url.parse] that the script
    reads; each is a string or [null]. *)
Record Url : Type := mkUrl {
  protocol : option string;
  hostname : option string;
  port : option string
}.

(** The two library calls of [buildProxyConfig].  Both are functions of
    the proxy string; both may throw. *)
Class Platform : Type := {
  url_parse : string -> Result Url;
  new_SocksProxyAgent : string -> Result JsVal
}.

Definition of_nullable (x : option string) : JsVal :=
  match x with
  | Some s => JStr s
  | None => JNull
  end.

Definition protocol_is (u : Url) (p : string) : bool :=
  match protocol u with
  | Some q => String.eqb q p
  | None => false
  end.

(** [ProxyChecker.buildProxyConfig(proxy)]. *)
Definition buildProxyConfig `{Platform} (proxy : string) : Result JsVal :=
  match url_parse proxy with
  | Thrown e => Thrown e
  | Returned proxyUrl =>
      if protocol_is proxyUrl "http:" then
        Returned (JObj [("host", of_nullable (hostname proxyUrl));
                        ("port", parseInt (port proxyUrl));
                        ("protocol", JStr "http")])
      else if protocol_is proxyUrl "socks5:" then
        new_SocksProxyAgent proxy
      else
        Returned JNull
  end.

(** ** Objects of the script *)

(** [class Config]. *)
Record Config : Type := mkConfig {
  baseURL : string;
  ipCheckURL : string;
  pingURL : string;
  retryInterval : Z;
  sessionURL : string
}.

Definition new_Config : Config := {|
  baseURL := "https://nodepay.org";
  ipCheckURL := "https://ipinfo.io/json";
  pingURL := "http://13.215.134.222/api/network/ping";
  retryInterval := 30000;
  sessionURL := "http://api.nodepay.ai/api/auth/session"
|}.

(** [class Bot]: the fields other than the configuration (the logger and
    the proxy checker) carry no data. *)
Record Bot : Type := mkBot { config : Config }.

Definition new_Bot (c : Config) : Bot := {| config := c |}.

(** The arguments of one [axios.post(url, data, config)]: [httpAgent] is
    [None] when the script does not set the property. *)
Record Request : Type := mkRequest {
  req_url : string;
  req_data : JsVal;
  req_headers : list (string * string);
  req_httpAgent : option JsVal
}.

(** How the promise of [axios.post] settles: with a response object, or
    rejected with an error. *)
Inductive HttpOutcome : Type :=
| Resolved (response : JsVal)
| Rejected (e : Error).

(** One call of [logger.info] or [logger.error]. *)
Record LogRecord : Type := mkLog {
  level : string;
  log_message : string;
  meta : list (string * JsVal)
}.

(** One call of [console.log], by call site, with the values that are
    interpolated into the line (colours and pictographs are left out). *)
Inductive ConsoleLine : Type :=
| LineHeader
| LineNoTokens
| LineNoProxies
| LineConnected (uid : JsVal)
| LineRejected (msg : string)
| LinePingSendError (msg : string)
| LinePingSent (uid : JsVal)
| LineProxyUsed (proxyInfo : string) (pingDuration : Z) (score : string)
| LineErrorWithProxy (msg : string)
| LineTaskError (msg : string)
| LineShuttingDown
| LineMainError (msg : string).

(** The variables captured by the callback that [connect] passes to
    [setInterval]. *)
Record Job : Type := mkJob {
  job_bot : Bot;
  job_accountInfo : JsVal;
  job_token : string;
  job_userAgent : string;
  job_proxy : string
}.

(** The two SIGINT listeners of the script: the one [connect] installs for
    its timer, and the one [main] installs at its end. *)
Inductive Handler : Type :=
| ClearTimer (interval : nat)
| ShutDown.

(** ** Programs *)

(** A program is a tree of platform calls.  [AxiosPost] is the only call
    whose answer arrives in a later turn of the event loop ([await]);
    [Call p k] starts the asynchronous function [p] without awaiting it
    and goes on with [k]; [PromiseAll] awaits all the functions started
    so. *)
Inductive Prog (A : Type) : Type :=
| Ret (a : A)
| Throw (e : Error)
| DateNow (k : Z -> Prog A)
| RandomBytes (size : nat) (k : list byte -> Prog A)
| ConsoleLog (line : ConsoleLine) (k : Prog A)
| LoggerLog (r : LogRecord) (k : Prog A)
| AxiosPost (req : Request) (k : HttpOutcome -> Prog A)
| ReadStream (filename : string) (k : option (list string) -> Prog A)
| SetInterval (job : Job) (delay : Z) (k : nat -> Prog A)
| ClearInterval (interval : nat) (k : Prog A)
| ProcessOnSigint (h : Handler) (k : Prog A)
| ProcessExit (code : Z)
| Call (p : Prog unit) (k : Prog A)
| PromiseAll (k : Prog A).

Arguments Ret {A} a.
Arguments Throw {A} e.
Arguments DateNow {A} k.
Arguments RandomBytes {A} size k.
Arguments ConsoleLog {A} line k.
Arguments LoggerLog {A} r k.
Arguments AxiosPost {A} req k.
Arguments ReadStream {A} filename k.
Arguments SetInterval {A} job delay k.
Arguments ClearInterval {A} interval k.
Arguments ProcessOnSigint {A} h k.
Arguments ProcessExit {A} code.
Arguments Call {A} p k.
Arguments PromiseAll {A} k.

Fixpoint bind {A B : Type} (p : Prog A) (f : A -> Prog B) : Prog B :=
  match p with
  | Ret a => f a
  | Throw e => Throw e
  | DateNow k => DateNow (fun t => bind (k t) f)
  | RandomBytes n k => RandomBytes n (fun b => bind (k b) f)
  | ConsoleLog l k => ConsoleLog l (bind k f)
  | LoggerLog r k => LoggerLog r (bind k f)
  | AxiosPost req k => AxiosPost req (fun o => bind (k o) f)
  | ReadStream fn k => ReadStream fn (fun ls => bind (k ls) f)
  | SetInterval j d k => SetInterval j d (fun i => bind (k i) f)
  | ClearInterval i k => ClearInterval i (bind k f)
  | ProcessOnSigint h k => ProcessOnSigint h (bind k f)
  | ProcessExit c => ProcessExit c
  | Call p k => Call p (bind k f)
  | PromiseAll k => PromiseAll (bind k f)
  end.

(** [try { p } catch (error) { h error }]. *)
Fixpoint try_catch {A : Type} (p : Prog A) (h : Error -> Prog A) : Prog A :=
  match p with
  | Ret a => Ret a
  | Throw e => h e
  | DateNow k => DateNow (fun t => try_catch (k t) h)
  | RandomBytes n k => RandomBytes n (fun b => try_catch (k b) h)
  | ConsoleLog l k => ConsoleLog l (try_catch k h)
  | LoggerLog r k => LoggerLog r (try_catch k h)
  | AxiosPost req k => AxiosPost req (fun o => try_catch (k o) h)
  | ReadStream fn k => ReadStream fn (fun ls => try_catch (k ls) h)
  | SetInterval j d k => SetInterval j d (fun i => try_catch (k i) h)
  | ClearInterval i k => ClearInterval i (try_catch k h)
  | ProcessOnSigint sh k => ProcessOnSigint sh (try_catch k h)
  | ProcessExit c => ProcessExit c
  | Call p k => Call p (try_catch k h)
  | PromiseAll k => PromiseAll (try_catch k h)
  end.

Declare Scope prog_scope.
Delimit Scope prog_scope with prog.
Notation "x <- p ;; q" := (bind p (fun x => q))
  (at level 61, p at next level, right associativity) : prog_scope.
Notation "p ;; q" := (bind p (fun _ => q))
  (at level 61, right associativity) : prog_scope.
Open Scope prog_scope.

(** A synchronous expression that may throw. *)
Definition eval {A : Type} (r : Result A) : Prog A :=
  match r with
  | Returned a => Ret a
  | Thrown e => Throw e
  end.

Definition Date_now : Prog Z := DateNow (fun t => Ret t).
Definition crypto_randomBytes (size : nat) : Prog (list byte) :=
  RandomBytes size (fun b => Ret b).
Definition console_log (line : ConsoleLine) : Prog unit := ConsoleLog line (Ret tt).
Definition logger_info (msg : string) (m : list (string * JsVal)) : Prog unit :=
  LoggerLog (mkLog "info" msg m) (Ret tt).
Definition logger_error (msg : string) (m : list (string * JsVal)) : Prog unit :=
  LoggerLog (mkLog "error" msg m) (Ret tt).
Definition setInterval (job : Job) (delay : Z) : Prog nat :=
  SetInterval job delay (fun i => Ret i).
Definition clearInterval (interval : nat) : Prog unit := ClearInterval interval (Ret tt).
Definition process_on_SIGINT (h : Handler) : Prog unit := ProcessOnSigint h (Ret tt).

(** [await axios.post(url, data, config)]. *)
Definition axios_post (req : Request) : Prog JsVal :=
  AxiosPost req (fun o =>
    match o with
    | Resolved response => Ret response
    | Rejected e => Throw e
    end).

(** [a || b], where evaluating [b] may have effects. *)
Definition or_else (a : JsVal) (b : Prog JsVal) : Prog JsVal :=
  if truthy a then Ret a else b.

(** ** The script *)

Section Script.
Context `{Platform}.

(** The request headers built by [getSession] and [sendPing]. *)
Definition headers (token userAgent : string) : list (string * string) :=
  [("Authorization", "Bearer " ++ token);
   ("Content-Type", "application/json");
   ("User-Agent", userAgent);
   ("Accept", "application/json")].

(** [if (proxy) { config.httpAgent = this.proxyCheck.buildProxyConfig(proxy); }]:
    the value of [config.httpAgent] afterwards. *)
Definition httpAgent_for (proxy : string) : Prog (option JsVal) :=
  if truthy (JStr proxy) then
    agent <- eval (buildProxyConfig proxy) ;;
    Ret (Some agent)
  else Ret None.

(** [Bot.getSession(token, userAgent, proxy)]. *)
Definition getSession (this : Bot) (token userAgent proxy : string) : Prog JsVal :=
  try_catch
    (httpAgent <- httpAgent_for proxy ;;
     response <- axios_post {| req_url := sessionURL (config this);
                               req_data := JObj [];
                               req_headers := headers token userAgent;
                               req_httpAgent := httpAgent |} ;;
     data <- eval (get_prop response "data") ;;
     eval (get_prop data "data"))
    (fun error => Throw (mkError "Session request failed")).

Definition userAgent : string := "Mozilla/5.0 ... Safari/537.3".

(** [Bot.connect(token, proxy)]. *)
Definition connect (this : Bot) (token proxy : string) : Prog unit :=
  try_catch
    (accountInfo <- getSession this token userAgent proxy ;;
     uid <- eval (get_prop accountInfo "uid") ;;
     console_log (LineConnected uid) ;;
     uid' <- eval (get_prop accountInfo "uid") ;;
     name <- eval (get_prop accountInfo "name") ;;
     logger_info "Session information"
       [("uid", uid'); ("name", name); ("useProxy", JBool (truthy (JStr proxy)))] ;;
     interval <- setInterval (mkJob this accountInfo token userAgent proxy)
                             (retryInterval (config this)) ;;
     process_on_SIGINT (ClearTimer interval))
    (fun error =>
       console_log (LineRejected (message error)) ;;
       logger_error "Rejected" [("error", JStr (message error)); ("proxy", JStr proxy)]).

(** The conversion of a value inside a template literal, for the values
    that reach one. *)
Definition template (v : JsVal) : string :=
  match v with
  | JUndefined => "undefined"
  | JNull => "null"
  | JStr s => s
  | JBool true => "true"
  | JBool false => "false"
  | JNaN => "NaN"
  | JNum z => NilZero.string_of_int (Z.to_int z)
  | JNegZero => "0"
  | JInfinity false => "Infinity"
  | JInfinity true => "-Infinity"
  | JObj _ | JSocksAgent _ => "[object Object]"
  end.

Definition score_of (pingDuration : Z) : string :=
  if pingDuration <? 5000 then "✅ Good" else "✔️ Slow".

(** [Bot.sendPing(accountInfo, token, userAgent, proxy)]. *)
Definition sendPing (this : Bot) (accountInfo : JsVal) (token userAgent proxy : string)
  : Prog unit :=
  uid0 <- eval (get_prop accountInfo "uid") ;;
  uid <- or_else uid0
           (buffer <- crypto_randomBytes 8 ;; Ret (JStr (toString_hex buffer))) ;;
  browser_id0 <- eval (get_prop accountInfo "browser_id") ;;
  browserId <- or_else browser_id0
                 (buffer <- crypto_randomBytes 8 ;; Ret (JStr (toString_hex buffer))) ;;
  now <- Date_now ;;
  let pingData := JObj [("id", uid);
                        ("browser_id", browserId);
                        ("timestamp", JNum (now / 1000));
                        ("version", JStr "2.2.7")] in
  startTime <- Date_now ;;
  try_catch
    (httpAgent <- httpAgent_for proxy ;;
     axios_post {| req_url := pingURL (config this);
                   req_data := pingData;
                   req_headers := headers token userAgent;
                   req_httpAgent := httpAgent |} ;;
     finished <- Date_now ;;
     let pingDuration := finished - startTime in
     console_log (LinePingSent uid) ;;
     host <- eval (get_prop (JStr proxy) "host") ;;
     let proxyInfo := if truthy (JStr proxy)
                      then "Proxy IP: " ++ template host
                      else "No proxy" in
     let score := score_of pingDuration in
     console_log (LineProxyUsed proxyInfo pingDuration score) ;;
     logger_info "Ping sent"
       [("uid", uid);
        ("browserId", browserId);
        ("ip", if truthy (JStr proxy) then host else JStr "No proxy");
        ("pingDuration", JNum pingDuration);
        ("score", JStr score)])
    (fun error =>
       console_log (LineErrorWithProxy (message error)) ;;
       logger_error "Proxy error" [("error", JStr (message error)); ("proxy", JStr proxy)] ;;
       Ret tt).

(** The callback [connect] passes to [setInterval]. *)
Definition interval_callback (job : Job) : Prog unit :=
  try_catch
    (sendPing (job_bot job) (job_accountInfo job) (job_token job)
              (job_userAgent job) (job_proxy job))
    (fun error =>
       console_log (LinePingSendError (message error)) ;;
       logger_error "Ping error" [("error", JStr (message error))]).

(** [readLines(filename)]: the lines the [readline] interface delivers,
    each trimmed; a stream that cannot be read makes the iteration throw. *)
Definition readLines (filename : string) : Prog (list string) :=
  ReadStream filename (fun delivered =>
    match delivered with
    | Some lines => Ret (map trim lines)
    | None => Throw (mkError ("ENOENT: no such file or directory, open '" ++ filename ++ "'"))
    end).

(** [bot.connect(token, proxy).catch((err) => ...)]. *)
Definition connect_task (bot : Bot) (token proxy : string) : Prog unit :=
  try_catch (connect bot token proxy)
            (fun err => console_log (LineTaskError (message err))).

(** [proxies.map((proxy) => bot.connect(token, proxy).catch(...))]: every
    call starts its asynchronous function. *)
Fixpoint start_all (bot : Bot) (token : string) (proxies : list string) : Prog unit :=
  match proxies with
  | [] => Ret tt
  | proxy :: rest => Call (connect_task bot token proxy) (start_all bot token rest)
  end.

(** [main()], from the banner on. *)
Definition main : Prog unit :=
  console_log LineHeader ;;
  let config := new_Config in
  tokens <- readLines "token.txt" ;;
  if (List.length tokens =? 0)%nat then
    console_log LineNoTokens
  else
    proxies <- readLines "proxy.txt" ;;
    if (List.length proxies =? 0)%nat then
      console_log LineNoProxies
    else
      let token := nth 0 tokens "" in
      let bot := new_Bot config in
      start_all bot token proxies ;;
      PromiseAll (Ret tt) ;;
      process_on_SIGINT ShutDown.

(** The body of a SIGINT listener. *)
Definition handler_body (h : Handler) : Prog unit :=
  match h with
  | ClearTimer interval => clearInterval interval
  | ShutDown => console_log LineShuttingDown ;; ProcessExit 0
  end.

(** The last line of the script: [main().catch(...)]. *)
Definition script : Prog unit :=
  try_catch main (fun error => console_log (LineMainError (message error))).

End Script.

(** ** The event loop *)

(** Who runs a program: the script itself, an asynchronous function started
    by [Call], or a timer callback or signal listener. *)
Inductive Owner : Type := OMain | OCalled | ODetached.

(** An [await axios.post(...)] in flight: the index of the request in
    [w_sent] and the rest of the asynchronous function. *)
Record Pending : Type := mkPending {
  pend_req : nat;
  pend_owner : Owner;
  pend_k : HttpOutcome -> Prog unit
}.

(** A timer made by [setInterval]; its handle is its index in [w_timers]. *)
Record Timer : Type := mkTimer {
  t_job : Job;
  t_delay : Z;
  t_due : Z;
  t_active : bool
}.

(** The state of the process and what it has done so far.  [w_now] is the
    clock (milliseconds), set by the event loop at the start of a turn;
    [w_entropy] the bytes [crypto.randomBytes] will deliver; [w_files] the
    lines [readline] delivers for a file name.  [w_sent] are the requests
    handed to [axios.post], in order; [w_unsettled] counts the asynchronous
    functions started by [Call] whose promise is not settled, and
    [w_parked] is what waits for them ([await Promise.all]). *)
Record World : Type := mkWorld {
  w_now : Z;
  w_entropy : nat -> byte;
  w_files : string -> option (list string);
  w_console : list ConsoleLine;
  w_log : list LogRecord;
  w_sent : list Request;
  w_pending : list Pending;
  w_timers : list Timer;
  w_listeners : list Handler;
  w_unsettled : nat;
  w_parked : option (Owner * Prog unit);
  w_unhandled : list Error;
  w_exit : option Z
}.

Definition set_now (t : Z) (w : World) : World :=
  mkWorld t (w_entropy w) (w_files w) (w_console w) (w_log w) (w_sent w)
          (w_pending w) (w_timers w) (w_listeners w) (w_unsettled w) (w_parked w)
          (w_unhandled w) (w_exit w).
Definition set_entropy (e : nat -> byte) (w : World) : World :=
  mkWorld (w_now w) e (w_files w) (w_console w) (w_log w) (w_sent w)
          (w_pending w) (w_timers w) (w_listeners w) (w_unsettled w) (w_parked w)
          (w_unhandled w) (w_exit w).
Definition set_console (c : list ConsoleLine) (w : World) : World :=
  mkWorld (w_now w) (w_entropy w) (w_files w) c (w_log w) (w_sent w)
          (w_pending w) (w_timers w) (w_listeners w) (w_unsettled w) (w_parked w)
          (w_unhandled w) (w_exit w).
Definition set_log (l : list LogRecord) (w : World) : World :=
  mkWorld (w_now w) (w_entropy w) (w_files w) (w_console w) l (w_sent w)
          (w_pending w) (w_timers w) (w_listeners w) (w_unsettled w) (w_parked w)
          (w_unhandled w) (w_exit w).
Definition set_sent (r : list Request) (w : World) : World :=
  mkWorld (w_now w) (w_entropy w) (w_files w) (w_console w) (w_log w) r
          (w_pending w) (w_timers w) (w_listeners w) (w_unsettled w) (w_parked w)
          (w_unhandled w) (w_exit w).
Definition set_pending (p : list Pending) (w : World) : World :=
  mkWorld (w_now w) (w_entropy w) (w_files w) (w_console w) (w_log w) (w_sent w)
          p (w_timers w) (w_listeners w) (w_unsettled w) (w_parked w)
          (w_unhandled w) (w_exit w).
Definition set_timers (t : list Timer) (w : World) : World :=
  mkWorld (w_now w) (w_entropy w) (w_files w) (w_console w) (w_log w) (w_sent w)
          (w_pending w) t (w_listeners w) (w_unsettled w) (w_parked w)
          (w_unhandled w) (w_exit w).
Definition set_listeners (l : list Handler) (w : World) : World :=
  mkWorld (w_now w) (w_entropy w) (w_files w) (w_console w) (w_log w) (w_sent w)
          (w_pending w) (w_timers w) l (w_unsettled w) (w_parked w)
          (w_unhandled w) (w_exit w).
Definition set_unsettled (n : nat) (w : World) : World :=
  mkWorld (w_now w) (w_entropy w) (w_files w) (w_console w) (w_log w) (w_sent w)
          (w_pending w) (w_timers w) (w_listeners w) n (w_parked w)
          (w_unhandled w) (w_exit w).
Definition set_parked (k : option (Owner * Prog unit)) (w : World) : World :=
  mkWorld (w_now w) (w_entropy w) (w_files w) (w_console w) (w_log w) (w_sent w)
          (w_pending w) (w_timers w) (w_listeners w) (w_unsettled w) k
          (w_unhandled w) (w_exit w).
Definition set_unhandled (e : list Error) (w : World) : World :=
  mkWorld (w_now w) (w_entropy w) (w_files w) (w_console w) (w_log w) (w_sent w)
          (w_pending w) (w_timers w) (w_listeners w) (w_unsettled w) (w_parked w)
          e (w_exit w).
Definition set_exit (c : option Z) (w : World) : World :=
  mkWorld (w_now w) (w_entropy w) (w_files w) (w_console w) (w_log w) (w_sent w)
          (w_pending w) (w_timers w) (w_listeners w) (w_unsettled w) (w_parked w)
          (w_unhandled w) c.

(** The first [size] bytes of the entropy, and the entropy that is left. *)
Definition take_bytes (size : nat) (e : nat -> byte) : list byte :=
  map e (seq 0 size).
Definition drop_bytes (size : nat) (e : nat -> byte) : nat -> byte :=
  fun i => e (size + i)%nat.

(** A program has run to its end: an asynchronous function started by
    [Call] settles its promise. *)
Definition settle (ow : Owner) (w : World) : World :=
  match ow with
  | OCalled => set_unsettled (pred (w_unsettled w)) w
  | _ => w
  end.

Fixpoint update_nth {A : Type} (n : nat) (f : A -> A) (l : list A) : list A :=
  match l, n with
  | [], _ => []
  | x :: rest, O => f x :: rest
  | x :: rest, S m => x :: update_nth m f rest
  end.

Definition deactivate (t : Timer) : Timer :=
  mkTimer (t_job t) (t_delay t) (t_due t) false.
Definition rearm (now : Z) (t : Timer) : Timer :=
  mkTimer (t_job t) (t_delay t) (now + t_delay t) (t_active t).

(** One turn of a program: it runs until it ends, exits the process, or
    reaches an [await] that cannot go on in this turn.  An [await] of a
    request leaves the request in [w_sent] and the rest of the program in
    [w_pending]; an error nothing catches is kept in [w_unhandled]. *)
Fixpoint run (ow : Owner) (p : Prog unit) (w : World) {struct p} : World :=
  match p with
  | Ret _ => settle ow w
  | Throw e => settle ow (set_unhandled (w_unhandled w ++ [e])%list w)
  | DateNow k => run ow (k (w_now w)) w
  | RandomBytes size k =>
      run ow (k (take_bytes size (w_entropy w)))
          (set_entropy (drop_bytes size (w_entropy w)) w)
  | ConsoleLog line k => run ow k (set_console (w_console w ++ [line])%list w)
  | LoggerLog r k => run ow k (set_log (w_log w ++ [r])%list w)
  | AxiosPost req k =>
      set_pending (w_pending w ++ [mkPending (List.length (w_sent w)) ow k])%list
                  (set_sent (w_sent w ++ [req])%list w)
  | ReadStream filename k => run ow (k (w_files w filename)) w
  | SetInterval job delay k =>
      run ow (k (List.length (w_timers w)))
          (set_timers (w_timers w ++ [mkTimer job delay (w_now w + delay) true])%list w)
  | ClearInterval interval k =>
      run ow k (set_timers (update_nth interval deactivate (w_timers w)) w)
  | ProcessOnSigint h k => run ow k (set_listeners (w_listeners w ++ [h])%list w)
  | ProcessExit code => set_exit (Some code) w
  | Call q k =>
      let w1 := run OCalled q (set_unsettled (S (w_unsettled w)) w) in
      match w_exit w1 with
      | Some _ => w1
      | None => run ow k w1
      end
  | PromiseAll k =>
      match w_unsettled w with
      | O => run ow k w
      | S _ => set_parked (Some (ow, k)) w
      end
  end.

(** Taking the pending await of request [i] out of the list. *)
Fixpoint take_pending (i : nat) (l : list Pending) : option (Pending * list Pending) :=
  match l with
  | [] => None
  | p :: rest =>
      if (pend_req p =? i)%nat then Some (p, rest)
      else match take_pending i rest with
           | Some (q, rest') => Some (q, p :: rest')
           | None => None
           end
  end.

(** What the event loop can deliver. *)
Inductive Event : Type :=
| Response (req : nat) (o : HttpOutcome)
| TimerFires (interval : nat)
| AllSettled
| Sigint.

Section Loop.
Context `{Platform}.

(** The listeners of SIGINT run in the order they were installed; with no
    listener the signal ends the process. *)
Fixpoint run_listeners (hs : list Handler) (w : World) : World :=
  match hs with
  | [] => w
  | h :: rest =>
      let w1 := run ODetached (handler_body h) w in
      match w_exit w1 with
      | Some _ => w1
      | None => run_listeners rest w1
      end
  end.

(** One turn of the event loop at time [t].  A timer fires when it is
    active and due, and after its callback has run its first turn it is due
    again [t_delay] later.  An event that is not enabled leaves the world
    as it is. *)
Definition step (t : Z) (ev : Event) (w : World) : World :=
  match w_exit w with
  | Some _ => w
  | None =>
      match ev with
      | Response i o =>
          match take_pending i (w_pending w) with
          | Some (p, rest) => run (pend_owner p) (pend_k p o) (set_pending rest (set_now t w))
          | None => w
          end
      | TimerFires i =>
          match nth_error (w_timers w) i with
          | Some tm =>
              if t_active tm && (t_due tm <=? t) then
                let w1 := run ODetached (interval_callback (t_job tm)) (set_now t w) in
                set_timers (update_nth i (rearm t) (w_timers w1)) w1
              else w
          | None => w
          end
      | AllSettled =>
          match w_parked w, w_unsettled w with
          | Some (ow, k), O => run ow k (set_parked None (set_now t w))
          | _, _ => w
          end
      | Sigint =>
          match w_listeners w with
          | [] => set_exit (Some 130) (set_now t w)
          | hs => run_listeners hs (set_now t w)
          end
      end
  end.

Fixpoint steps (evs : list (Z * Event)) (w : World) : World :=
  match evs with
  | [] => w
  | (t, ev) :: rest => steps rest (step t ev w)
  end.

End Loop.

(** A process that has done nothing yet. *)
Definition initial (t : Z) (entropy : nat -> byte) (files : string -> option (list string))
  : World :=
  mkWorld t entropy files [] [] [] [] [] [] 0 None [] None.

(** ** A model of url.parse *)

(** The steps of Node's legacy [url.parse] that decide [protocol],
    [hostname] and [port], for proxy strings of the usual shapes:
    [scheme://host:port], with or without user info, port or path, where
    the host is a name or an IPv4 address made of letters, digits, dots
    and hyphens.  Other strings (an IPv6 literal in brackets, white space
    or other characters in the host, the strings on which [url.parse] or
    the agent constructor throw) are outside this model.  The properties
    of the event loop are proved for every [Platform]; this instance
    serves for what is said of proxy strings of these shapes and to run
    the script on concrete ones. *)
Module NodeUrl.

Definition is_scheme_char (c : ascii) : bool :=
  let n := nat_of_ascii c in
  ((97 <=? n) && (n <=? 122) || (65 <=? n) && (n <=? 90) || (48 <=? n) && (n <=? 57)
   || (n =? 43) || (n =? 45) || (n =? 46))%nat.

Definition lower (c : ascii) : ascii :=
  let n := nat_of_ascii c in
  if ((65 <=? n) && (n <=? 90))%nat then ascii_of_nat (n + 32) else c.

Fixpoint lowercase (s : string) : string :=
  match s with
  | EmptyString => EmptyString
  | String c rest => String (lower c) (lowercase rest)
  end.

(** The match of [/^[a-z0-9.+-]+:/i]: the scheme with its colon, and the
    rest of the string. *)
Fixpoint split_protocol (seen : string) (s : string) : option (string * string) :=
  match s with
  | EmptyString => None
  | String c rest =>
      if Ascii.eqb c ":" then
        match seen with
        | EmptyString => None
        | _ => Some (seen ++ ":", rest)
        end
      else if is_scheme_char c then split_protocol (seen ++ String c EmptyString) rest
      else None
  end.

(** The protocols that are followed by [//]. *)
Definition slashedProtocol (p : string) : bool :=
  existsb (String.eqb p) ["http:"; "https:"; "ftp:"; "gopher:"; "file:"].

Definition is_host_end (c : ascii) : bool :=
  existsb (Ascii.eqb c) ["/"; "?"; "#"]%char.

(** The part of the string before the first character that ends a host. *)
Fixpoint host_section (s : string) : string :=
  match s with
  | EmptyString => EmptyString
  | String c rest => if is_host_end c then EmptyString else String c (host_section rest)
  end.

(** What follows the last [@], the whole string when there is none. *)
Fixpoint after_last_at (s : string) : string :=
  match s with
  | EmptyString => EmptyString
  | String c rest =>
      if existsb (Ascii.eqb "@"%char) (list_ascii_of_string rest) then after_last_at rest
      else if Ascii.eqb c "@" then rest
      else s
  end.

Definition is_digit (c : ascii) : bool :=
  let n := nat_of_ascii c in ((48 <=? n) && (n <=? 57))%nat.

(** The match of [/:[0-9]*$/] on the reversed host: the digits read so far
    (in order), then the host before the colon. *)
Fixpoint split_port_rev (digits : list ascii) (rev_host : list ascii)
  : option (list ascii * list ascii) :=
  match rev_host with
  | [] => None
  | c :: rest =>
      if Ascii.eqb c ":" then Some (digits, rev rest)
      else if is_digit c then split_port_rev (c :: digits) rest
      else None
  end.

Definition non_empty (s : string) : option string :=
  match s with
  | EmptyString => None
  | _ => Some s
  end.

Definition parse (s : string) : Url :=
  match split_protocol EmptyString s with
  | None => mkUrl None None None
  | Some (proto, rest) =>
      let proto := lowercase proto in
      let slashes := String.prefix "//" rest in
      if String.eqb proto "javascript:" then mkUrl (Some proto) None None
      else if slashes || negb (slashedProtocol proto) then
        let rest := if slashes then String.substring 2 (String.length rest - 2) rest
                    else rest in
        let host := after_last_at (host_section rest) in
        match split_port_rev [] (rev (list_ascii_of_string host)) with
        | Some (digits, name) =>
            mkUrl (Some proto)
                  (Some (lowercase (string_of_list_ascii name)))
                  (non_empty (string_of_list_ascii digits))
        | None => mkUrl (Some proto) (Some (lowercase host)) None
        end
      else mkUrl (Some proto) None None
  end.

#[export] Instance platform : Platform := {|
  url_parse := fun s => Returned (parse s);
  new_SocksProxyAgent := fun uri => Returned (JSocksAgent uri)
|}.

End NodeUrl.

(** ** Vocabulary of the statements *)

Definition nullish (v : JsVal) : bool :=
  match v with
  | JUndefined | JNull => true
  | _ => false
  end.

(** The value of [v.name] when the read does not throw. *)
Definition field (v : JsVal) (name : string) : JsVal :=
  match v with
  | JObj fields => lookup_field name fields
  | _ => JUndefined
  end.






Definition add_console (lines : list ConsoleLine) (w : World) : World :=
  set_console (w_console w ++ lines)%list w.
Definition add_log (records : list LogRecord) (w : World) : World :=
  set_log (w_log w ++ records)%list w.

(** A world in which one more request is awaited: the request is the last
    of [w_sent], and [k] waits for its outcome. *)
Definition awaiting (ow : Owner) (req : Request) (k : HttpOutcome -> Prog unit) (w : World)
  : World :=
  set_pending (w_pending w ++ [mkPending (List.length (w_sent w)) ow k])%list
              (set_sent (w_sent w ++ [req])%list w).

(** A pending await is answered at time [t]: what [step] runs for a
    [Response]. *)
Definition deliver (t : Z) (p : Pending) (o : HttpOutcome) (w : World) : World :=
  run (pend_owner p) (pend_k p o) (set_now t w).

(** An identifier made from the next eight random bytes. *)
Definition fresh_id (e : nat -> byte) : JsVal := JStr (toString_hex (take_bytes 8 e)).

(** The identifiers a ping carries for the session payload [a] when the
    entropy is [e], and the entropy left after each. *)
Definition ping_uid (a : JsVal) (e : nat -> byte) : JsVal :=
  if truthy (field a "uid") then field a "uid" else fresh_id e.
Definition entropy_after_uid (a : JsVal) (e : nat -> byte) : nat -> byte :=
  if truthy (field a "uid") then e else drop_bytes 8 e.
Definition ping_browserId (a : JsVal) (e : nat -> byte) : JsVal :=
  if truthy (field a "browser_id") then field a "browser_id"
  else fresh_id (entropy_after_uid a e).
Definition entropy_after_ids (a : JsVal) (e : nat -> byte) : nat -> byte :=
  if truthy (field a "browser_id") then entropy_after_uid a e
  else drop_bytes 8 (entropy_after_uid a e).

Definition proxy_error_record (msg proxy : string) : LogRecord :=
  mkLog "error" "Proxy error" [("error", JStr msg); ("proxy", JStr proxy)].

Definition rejected_record (msg proxy : string) : LogRecord :=
  mkLog "error" "Rejected" [("error", JStr msg); ("proxy", JStr proxy)].



(** Every path of a program ends by returning (or by leaving the
    process), whatever the platform answers; an asynchronous function that
    is started and not awaited cannot throw into its caller. *)
Fixpoint never_throws {A : Type} (p : Prog A) : Prop :=
  match p with
  | Ret _ => True
  | Throw _ => False
  | DateNow k => forall t, never_throws (k t)
  | RandomBytes _ k => forall b, never_throws (k b)
  | ConsoleLog _ k => never_throws k
  | LoggerLog _ k => never_throws k
  | AxiosPost _ k => forall o, never_throws (k o)
  | ReadStream _ k => forall ls, never_throws (k ls)
  | SetInterval _ _ k => forall i, never_throws (k i)
  | ClearInterval _ k => never_throws k
  | ProcessOnSigint _ k => never_throws k
  | ProcessExit _ => True
  | Call _ k => never_throws k
  | PromiseAll k => never_throws k
  end.

(** No path of a program writes a console line or a log record that
    satisfies [bad_line] or [bad_record]. *)
Fixpoint never_reports {A : Type} (bad_line : ConsoleLine -> bool)
         (bad_record : LogRecord -> bool) (p : Prog A) : Prop :=
  match p with
  | Ret _ => True
  | Throw _ => True
  | DateNow k => forall t, never_reports bad_line bad_record (k t)
  | RandomBytes _ k => forall b, never_reports bad_line bad_record (k b)
  | ConsoleLog line k => bad_line line = false /\ never_reports bad_line bad_record k
  | LoggerLog r k => bad_record r = false /\ never_reports bad_line bad_record k
  | AxiosPost _ k => forall o, never_reports bad_line bad_record (k o)
  | ReadStream _ k => forall ls, never_reports bad_line bad_record (k ls)
  | SetInterval _ _ k => forall i, never_reports bad_line bad_record (k i)
  | ClearInterval _ k => never_reports bad_line bad_record k
  | ProcessOnSigint _ k => never_reports bad_line bad_record k
  | ProcessExit _ => True
  | Call q k => never_reports bad_line bad_record q /\ never_reports bad_line bad_record k
  | PromiseAll k => never_reports bad_line bad_record k
  end.

Definition is_ping_send_error (line : ConsoleLine) : bool :=
  match line with
  | LinePingSendError _ => true
  | _ => false
  end.

Definition is_ping_error (r : LogRecord) : bool := String.eqb (log_message r) "Ping error".

(** What [getSession] returns for an outcome of its request: the payload
    [response.data.data], or the error of its [catch]. *)
Definition session_result (o : HttpOutcome) : Result JsVal :=
  match o with
  | Rejected _ => Thrown (mkError "Session request failed")
  | Resolved response =>
      match get_prop response "data" with
      | Thrown _ => Thrown (mkError "Session request failed")
      | Returned data =>
          match get_prop data "data" with
          | Thrown _ => Thrown (mkError "Session request failed")
          | Returned accountInfo => Returned accountInfo
          end
      end
  end.

(** The session payload with which [connect] starts its timer, or the
    error it reports: the payload must allow the read of [uid]. *)
Definition connect_result (o : HttpOutcome) : Result JsVal :=
  match session_result o with
  | Thrown e => Thrown e
  | Returned accountInfo =>
      match get_prop accountInfo "uid" with
      | Thrown e => Thrown e
      | Returned _ => Returned accountInfo
      end
  end.

Definition session_request (bot : Bot) (token : string) (agent : option JsVal) : Request :=
  {| req_url := sessionURL (config bot);
     req_data := JObj [];
     req_headers := headers token userAgent;
     req_httpAgent := agent |}.

Definition session_record (accountInfo : JsVal) (proxy : string) : LogRecord :=
  mkLog "info" "Session information"
    [("uid", field accountInfo "uid");
     ("name", field accountInfo "name");
     ("useProxy", JBool (truthy (JStr proxy)))].

(** The timer [connect] makes at time [now]. *)
Definition loop_timer (bot : Bot) (token proxy : string) (accountInfo : JsVal) (now : Z)
  : Timer :=
  mkTimer (mkJob bot accountInfo token userAgent proxy)
          (retryInterval (config bot)) (now + retryInterval (config bot)) true.

(** The world after [connect] has obtained its session: the loop is
    started and its promise is settled. *)
Definition connected (bot : Bot) (token proxy : string) (accountInfo : JsVal) (w : World)
  : World :=
  set_unsettled (pred (w_unsettled w))
    (set_listeners (w_listeners w ++ [ClearTimer (List.length (w_timers w))])%list
       (set_timers (w_timers w ++ [loop_timer bot token proxy accountInfo (w_now w)])%list
          (add_log [session_record accountInfo proxy]
             (add_console [LineConnected (field accountInfo "uid")] w)))).

(** The world after [connect] has reported a failure. *)
Definition rejected (msg proxy : string) (w : World) : World :=
  set_unsettled (pred (w_unsettled w))
    (add_log [rejected_record msg proxy] (add_console [LineRejected msg] w)).

Section Vocabulary.
Context `{Platform}.

(** The value [config.httpAgent] gets for a proxy line, or the error that
    building it throws. *)
Definition agent_for (proxy : string) : Result (option JsVal) :=
  if truthy (JStr proxy) then
    match buildProxyConfig proxy with
    | Returned agent => Returned (Some agent)
    | Thrown e => Thrown e
    end
  else Returned None.

(** The request of a ping of [job] at time [now] with entropy [e]. *)
Definition ping_request (job : Job) (now : Z) (e : nat -> byte) (agent : option JsVal)
  : Request :=
  {| req_url := pingURL (config (job_bot job));
     req_data := JObj [("id", ping_uid (job_accountInfo job) e);
                       ("browser_id", ping_browserId (job_accountInfo job) e);
                       ("timestamp", JNum (now / 1000));
                       ("version", JStr "2.2.7")];
     req_headers := headers (job_token job) (job_userAgent job);
     req_httpAgent := agent |}.

Definition proxyInfo_of (proxy : string) : string :=
  if truthy (JStr proxy) then "Proxy IP: undefined" else "No proxy".

Definition ping_sent_record (job : Job) (e : nat -> byte) (pingDuration : Z) : LogRecord :=
  mkLog "info" "Ping sent"
    [("uid", ping_uid (job_accountInfo job) e);
     ("browserId", ping_browserId (job_accountInfo job) e);
     ("ip", if truthy (JStr (job_proxy job)) then JUndefined else JStr "No proxy");
     ("pingDuration", JNum pingDuration);
     ("score", JStr (score_of pingDuration))].

End Vocabulary.

(** ** Invariants of the event loop *)



(** Induction on programs of type [Prog unit]. *)
Section TaskInduction.
Variable P : Prog unit -> Prop.
Hypothesis HRet : forall a, P (Ret a).
Hypothesis HThrow : forall e, P (Throw e).
Hypothesis HDateNow : forall k, (forall t, P (k t)) -> P (DateNow k).
Hypothesis HRandomBytes : forall n k, (forall b, P (k b)) -> P (RandomBytes n k).
Hypothesis HConsoleLog : forall l k, P k -> P (ConsoleLog l k).
Hypothesis HLoggerLog : forall r k, P k -> P (LoggerLog r k).
Hypothesis HAxiosPost : forall req k, (forall o, P (k o)) -> P (AxiosPost req k).
Hypothesis HReadStream : forall f k, (forall ls, P (k ls)) -> P (ReadStream f k).
Hypothesis HSetInterval : forall j d k, (forall i, P (k i)) -> P (SetInterval j d k).
Hypothesis HClearInterval : forall i k, P k -> P (ClearInterval i k).
Hypothesis HProcessOn : forall h k, P k -> P (ProcessOnSigint h k).
Hypothesis HProcessExit : forall c, P (ProcessExit c).
Hypothesis HCall : forall q k, P q -> P k -> P (Call q k).
Hypothesis HPromiseAll : forall k, P k -> P (PromiseAll k).

End TaskInduction.

(** ** The script as a whole *)

(** The promise of a started [connect]: decided by the outcome of its own
    session request, in whatever world that outcome arrives. *)
Definition SessionAwait (bot : Bot) (token proxy : string) (p : Pending) : Prop :=
  pend_owner p = OCalled
  /\ forall o w,
       run OCalled (pend_k p o) w =
         match connect_result o with
         | Returned accountInfo => connected bot token proxy accountInfo w
         | Thrown e => rejected (message e) proxy w
         end.

Definition is_session (r : Request) : bool := String.eqb (req_url r) (sessionURL new_Config).

(** The number of session requests among the requests sent. *)
Definition session_count (sent : list Request) : nat := List.length (filter is_session sent).

(** The job of a loop of this script with token [tok]. *)
Definition GoodJob (tok : string) (j : Job) : Prop :=
  job_token j = tok /\ job_userAgent j = userAgent
  /\ job_bot j = new_Bot new_Config /\ nullish (job_accountInfo j) = false.

(** A turn that sends nothing and awaits nothing; it may start loops. *)
Definition Calm (tok : string) (w w' : World) : Prop :=
  w_sent w' = w_sent w /\ w_pending w' = w_pending w /\ w_parked w' = w_parked w
  /\ exists ts, w_timers w' = (w_timers w ++ ts)%list
                /\ Forall (fun t => GoodJob tok (t_job t)) ts.

Definition Quiet (tok : string) (p : Pending) : Prop :=
  forall o w, Calm tok w (run (pend_owner p) (pend_k p o) w).

Definition QuietParked (tok : string) (parked : option (Owner * Prog unit)) : Prop :=
  match parked with
  | None => True
  | Some (ow, k) => forall w, Calm tok w (run ow k w)
  end.

(** What holds of the process of the script at every moment: every request
    carries the token [tok], [n] session requests were sent, every timer
    is a loop of the script, and what is awaited will send nothing. *)
Definition Inv (tok : string) (n : nat) (w : World) : Prop :=
  Forall (fun r => req_headers r = headers tok userAgent) (w_sent w)
  /\ session_count (w_sent w) = n
  /\ Forall (fun t => GoodJob tok (t_job t)) (w_timers w)
  /\ Forall (Quiet tok) (w_pending w)
  /\ QuietParked tok (w_parked w).

(** How [main] ends once nothing it started is unsettled, and what it does
    until then. *)
Definition finish_main (w : World) : World :=
  match w_unsettled w with
  | O => set_listeners (w_listeners w ++ [ShutDown])%list w
  | S _ => set_parked (Some (OMain, ProcessOnSigint ShutDown (Ret tt))) w
  end.

(** The input files lead [main] to one of its two early returns. *)
Inductive Abort : Type := NoCredentialsFound | NoProxiesFound.

Definition abort_of (files : string -> option (list string)) : option Abort :=
  match files "token.txt" with
  | Some [] => Some NoCredentialsFound
  | Some (_ :: _) =>
      match files "proxy.txt" with
      | Some [] => Some NoProxiesFound
      | _ => None
      end
  | None => None
  end.

Definition abort_line (a : Abort) : ConsoleLine :=
  match a with
  | NoCredentialsFound => LineNoTokens
  | NoProxiesFound => LineNoProxies
  end.

Section ScriptVocabulary.
Context `{Platform}.

(** A session request is sent for this proxy line. *)
Definition attempted (proxy : string) : bool :=
  match agent_for proxy with
  | Returned _ => true
  | Thrown _ => false
  end.

(** The line yields a proxy configuration (an object or a SOCKS agent). *)
Definition parsed (proxy : string) : bool :=
  match buildProxyConfig proxy with
  | Returned (JObj _) | Returned (JSocksAgent _) => true
  | _ => false
  end.

Definition session_requests (bot : Bot) (token : string) (proxies : list string)
  : list Request :=
  flat_map (fun proxy =>
              match agent_for proxy with
              | Returned agent => [session_request bot token agent]
              | Thrown _ => []
              end) proxies.

(** [main] starts [connect] for one proxy line. *)
Definition launch (bot : Bot) (token : string) (w : World) (proxy : string) : World :=
  run OCalled (connect_task bot token proxy) (set_unsettled (S (w_unsettled w)) w).

End ScriptVocabulary.

(** ** A sample run *)

(** The scenario of the specification: the token file holds [tok123], the
    proxy file an HTTP proxy and a SOCKS5 proxy; the random bytes are 0, 1,
    2, ...; the server answers the first session request with a payload
    that has a [uid] and a [name]. *)
Module Sample.

Definition files_of (tokens proxies : list string) (f : string) : option (list string) :=
  if String.eqb f "token.txt" then Some tokens
  else if String.eqb f "proxy.txt" then Some proxies
  else None.

Definition files : string -> option (list string) :=
  files_of ["tok123"] ["http://1.2.3.4:8080"; "socks5://5.6.7.8:1080"].

Definition entropy (i : nat) : byte :=
  match Byte.of_nat i with
  | Some b => b
  | None => x00
  end.

Definition session_ok (payload : JsVal) : HttpOutcome :=
  Resolved (JObj [("data", JObj [("data", payload)])]).

Definition account : JsVal := JObj [("uid", JStr "u1"); ("name", JStr "n")].

Definition http_agent : JsVal :=
  JObj [("host", JStr "1.2.3.4"); ("port", JNum 8080); ("protocol", JStr "http")].

Definition booted : World := @run OMain (@script NodeUrl.platform) (initial 1000 entropy files).

Definition in_session : World :=
  @steps NodeUrl.platform [(1500, Response 0 (session_ok account))] booted.

Definition job : Job :=
  mkJob (new_Bot new_Config) account "tok123" userAgent "http://1.2.3.4:8080".

Definition timer : Timer := mkTimer job 30000 31500 true.

End Sample.

(** A process in which nothing is in flight and nothing is scheduled. *)
Definition Idle (w : World) : Prop :=
  w_sent w = [] /\ w_pending w = [] /\ w_timers w = []
  /\ w_parked w = None /\ w_listeners w = [].

(** ** Vocabulary of the further properties *)

Definition is_task_error (line : ConsoleLine) : bool :=
  match line with
  | LineTaskError _ => true
  | _ => false
  end.

(** The lines of the two handlers that wrap [connect] and [sendPing] from
    outside. *)
Definition is_outer_error (line : ConsoleLine) : bool :=
  is_task_error line || is_ping_send_error line.

Definition no_record (r : LogRecord) : bool := false.

Definition starts_with_space (s : string) : bool :=
  match strip_space s with
  | Some _ => true
  | None => false
  end.

(** The string is one white-space character. *)
Definition one_space (s : string) : bool :=
  match strip_space s with
  | Some EmptyString => true
  | _ => false
  end.

Fixpoint ends_with_space (s : string) : bool :=
  match s with
  | EmptyString => false
  | String _ rest => one_space s || ends_with_space rest
  end.

Definition is_hex_digit (c : ascii) : bool :=
  let n := nat_of_ascii c in
  ((48 <=? n) && (n <=? 57) || (97 <=? n) && (n <=? 102))%nat.

Definition is_called (p : Pending) : bool :=
  match pend_owner p with
  | OCalled => true
  | _ => false
  end.

(** The number of awaits in flight that belong to a started [connect]:
    the session requests not yet answered. *)
Definition called_count (pending : list Pending) : nat :=
  List.length (filter is_called pending).

(** The listener [main] installs once every [connect] has settled. *)
Definition is_shutdown (h : Handler) : bool :=
  match h with
  | ShutDown => true
  | ClearTimer _ => false
  end.

(** The listeners [connect] has installed for the timers 0 .. n-1. *)
Definition clear_listeners (n : nat) : list Handler := map ClearTimer (seq 0 n).

(** The proxy line a 'Rejected' log record is about. *)
Definition rejected_proxy (r : LogRecord) : option string :=
  if String.eqb (log_message r) "Rejected" then
    match lookup_field "proxy" (meta r) with
    | JStr proxy => Some proxy
    | _ => None
    end
  else None.

(** The proxy lines that were rejected, in the order of the log. *)
Definition rejected_proxies (log : list LogRecord) : list string :=
  flat_map (fun r => match rejected_proxy r with
                     | Some proxy => [proxy]
                     | None => []
                     end) log.

(** The proxy lines of the loops, in the order of the timers. *)
Definition loop_proxies (timers : list Timer) : list string :=
  map (fun tm => job_proxy (t_job tm)) timers.

(** The await of a ping: whatever its outcome, it only reports, and not
    with the lines of the outer handlers nor with a rejection. *)
Definition PingAwait (p : Pending) : Prop :=
  pend_owner p = ODetached
  /\ forall o w, exists lines records,
       run ODetached (pend_k p o) w = add_log records (add_console lines w)
       /\ Forall (fun l => is_outer_error l = false) lines
       /\ Forall (fun r => is_ping_error r = false /\ rejected_proxy r = None) records.

Section RunVocabulary.
Context `{Platform}.

(** The await of the session request of a proxy line of the run. *)
Definition SessionPending (tok : string) (p : Pending) : Prop :=
  exists proxy, attempted proxy = true /\ SessionAwait (new_Bot new_Config) tok proxy p.

(** A timer of the run: it holds a session payload, the token, and a
    proxy line whose configuration can be built; its delay is the retry
    interval of [Config]. *)
Definition LoopTimer (tok : string) (tm : Timer) : Prop :=
  GoodJob tok (t_job tm) /\ attempted (job_proxy (t_job tm)) = true /\ t_delay tm = 30000.

(** What holds of the process of the script between two turns.  The last
    part tells where [main] stands: it waits for the [connect]s it
    started, or it has installed its own SIGINT listener after all of
    them settled, or it returned before starting any. *)
Definition Steady (tok : string) (w : World) : Prop :=
  Forall (fun p => SessionPending tok p \/ PingAwait p) (w_pending w)
  /\ w_unsettled w = called_count (w_pending w)
  /\ Forall (LoopTimer tok) (w_timers w)
  /\ w_unhandled w = []
  /\ Forall (fun l => is_outer_error l = false) (w_console w)
  /\ Forall (fun r => is_ping_error r = false) (w_log w)
  /\ ((w_parked w = Some (OMain, ProcessOnSigint ShutDown (Ret tt))
       /\ w_listeners w = clear_listeners (List.length (w_timers w)))
      \/ (w_parked w = None /\ called_count (w_pending w) = 0%nat
          /\ w_listeners w = (clear_listeners (List.length (w_timers w)) ++ [ShutDown])%list)
      \/ (w_parked w = None /\ w_pending w = [] /\ w_timers w = []
          /\ w_listeners w = [])).

(** Every proxy line has one fate: its loop runs, or its session request
    is unanswered, or it was rejected.  [waiting] lists the lines of the
    session requests in flight. *)
Definition Ledger (tok : string) (lines : list string) (w : World) : Prop :=
  exists waiting,
    Forall2 (SessionAwait (new_Bot new_Config) tok) waiting (filter is_called (w_pending w))
    /\ Permutation lines
         (loop_proxies (w_timers w) ++ waiting ++ rejected_proxies (w_log w))%list.

End RunVocabulary.

(** ** Two more sample loops *)

(** A session payload with both identifiers, and one with neither. *)
Module SamplePing.

Definition account_with_ids : JsVal :=
  JObj [("uid", JStr "u1"); ("browser_id", JStr "b1")].

Definition job_with_ids : Job :=
  mkJob (new_Bot new_Config) account_with_ids "tok123" userAgent "http://1.2.3.4:8080".

Definition account_anonymous : JsVal := JObj [("name", JStr "n")].

Definition job_anonymous : Job :=
  mkJob (new_Bot new_Config) account_anonymous "tok123" userAgent "http://1.2.3.4:8080".

(** The second session request of the sample run is rejected. *)
Definition sessions_answered : list (Z * Event) :=
  [(1500, Response 0 (Sample.session_ok Sample.account));
   (1600, Response 1 (Rejected (mkError "timeout")))].

End SamplePing.

(** ** The model at work *)

Example trim_line : trim "  tok123 " = "tok123".
Proof. reflexivity. Qed.

Example trim_blank_line : trim "   " = "".
Proof. reflexivity. Qed.

Example parseInt_port : parseInt (Some "8080") = JNum 8080.
Proof. reflexivity. Qed.

Example parseInt_null : parseInt None = JNaN.
Proof. reflexivity. Qed.

(** Beyond 2^53 [parseInt] rounds to the nearest double. *)
Example parseInt_rounds : parseInt (Some "9007199254740993") = JNum 9007199254740992.
Proof. reflexivity. Qed.

(** A byte order mark and a no-break space are white space for [trim]:
    the bytes EF BB BF before and C2 A0 after the token are removed. *)
Example trim_byte_order_mark :
  trim (String "239" (String "187" (String "191" "tok123")) ++ String "194" (String "160" ""))
  = "tok123".
Proof. reflexivity. Qed.

Example toString_hex_bytes : toString_hex [x00; x0f; xa5; xff] = "000fa5ff".
Proof. reflexivity. Qed.

Example url_parse_http :
  NodeUrl.parse "http://1.2.3.4:8080" = mkUrl (Some "http:") (Some "1.2.3.4") (Some "8080").
Proof. reflexivity. Qed.

Example url_parse_socks5 :
  NodeUrl.parse "socks5://5.6.7.8:1080" = mkUrl (Some "socks5:") (Some "5.6.7.8") (Some "1080").
Proof. reflexivity. Qed.

Example url_parse_bare_host_port :
  NodeUrl.parse "1.2.3.4:8080" = mkUrl (Some "1.2.3.4:") (Some "8080") None.
Proof. reflexivity. Qed.

(** The first turn of the sample run sends the two session requests, each
    with the token of the file and through its own proxy. *)
Example sample_first_turn :
  map (fun r => (req_url r, req_httpAgent r)) (w_sent Sample.booted)
  = [("http://api.nodepay.ai/api/auth/session", Some Sample.http_agent);
     ("http://api.nodepay.ai/api/auth/session",
      Some (JSocksAgent "socks5://5.6.7.8:1080"))].
Proof. vm_compute. reflexivity. Qed.

(** ** One ping *)

Lemma get_prop_field (v : JsVal) (name : string) :
  nullish v = false -> get_prop v name = Returned (field v name).
Proof. destruct v; simpl; intros Hn; try discriminate; reflexivity. Qed.

Section Ping.
Context `{Platform}.

Ltac split_agent job :=
  unfold agent_for, httpAgent_for in *;
  destruct (truthy (JStr (job_proxy job))) eqn:Hproxy;
  [ destruct (buildProxyConfig (job_proxy job)) eqn:Hbuild | ].

(** The first turn of a timer callback when the proxy configuration can be
    built: the ping is sent and awaited.  What is awaited ends the
    callback whatever the outcome: a rejection is reported as a proxy
    error, a response as a sent ping with its duration and score. *)
Lemma callback_sends (job : Job) (w : World) (agent : option JsVal) :
  nullish (job_accountInfo job) = false ->
  agent_for (job_proxy job) = Returned agent ->
  exists k,
    run ODetached (interval_callback job) w =
      awaiting ODetached (ping_request job (w_now w) (w_entropy w) agent) k
        (set_entropy (entropy_after_ids (job_accountInfo job) (w_entropy w)) w)
    /\ (forall e w',
          run ODetached (k (Rejected e)) w' =
            add_log [proxy_error_record (message e) (job_proxy job)]
              (add_console [LineErrorWithProxy (message e)] w'))
    /\ (forall response w',
          run ODetached (k (Resolved response)) w' =
            add_log [ping_sent_record job (w_entropy w) (w_now w' - w_now w)]
              (add_console
                 [LinePingSent (ping_uid (job_accountInfo job) (w_entropy w));
                  LineProxyUsed (proxyInfo_of (job_proxy job)) (w_now w' - w_now w)
                                (score_of (w_now w' - w_now w))] w')).
Proof.
  intros Hn Hagent.
  unfold interval_callback, sendPing.
  rewrite !(@get_prop_field _ _ Hn).
  cbn [eval bind try_catch].
  unfold ping_request, ping_sent_record, ping_uid, ping_browserId, entropy_after_ids,
    entropy_after_uid, fresh_id, or_else, proxyInfo_of.
  destruct w as [now e files cons lg sent pend tms ls uns park unh ex].
  destruct (truthy (field (job_accountInfo job) "uid")) eqn:Huid;
    destruct (truthy (field (job_accountInfo job) "browser_id")) eqn:Hbid;
    split_agent job; try discriminate; inversion Hagent; subst agent;
    cbn [eval bind try_catch Date_now crypto_randomBytes run axios_post];
    rewrite ?Hbid;
    cbn [eval bind try_catch Date_now crypto_randomBytes run axios_post];
    (eexists; split; [ reflexivity | split; intros ? w'; destruct w'; simpl; unfold add_log, add_console, set_log, set_console; simpl; rewrite <- ?app_assoc; reflexivity ]).
Qed.

(** The first turn of a timer callback when building the proxy
    configuration throws: the error is reported and nothing is sent. *)
Lemma callback_build_fails (job : Job) (w : World) (e : Error) :
  nullish (job_accountInfo job) = false ->
  agent_for (job_proxy job) = Thrown e ->
  run ODetached (interval_callback job) w =
    add_log [proxy_error_record (message e) (job_proxy job)]
      (add_console [LineErrorWithProxy (message e)]
         (set_entropy (entropy_after_ids (job_accountInfo job) (w_entropy w)) w)).
Proof.
  intros Hn Hagent.
  unfold interval_callback, sendPing.
  rewrite !(@get_prop_field _ _ Hn).
  cbn [eval bind try_catch].
  unfold entropy_after_ids, entropy_after_uid, or_else.
  destruct w as [now e0 files cons lg sent pend tms ls uns park unh ex].
  destruct (truthy (field (job_accountInfo job) "uid")) eqn:Huid;
    destruct (truthy (field (job_accountInfo job) "browser_id")) eqn:Hbid;
    split_agent job; try discriminate; inversion Hagent; subst;
    cbn [eval bind try_catch Date_now crypto_randomBytes run axios_post];
    rewrite ?Hbid;
    cbn [eval bind try_catch Date_now crypto_randomBytes run axios_post];
    simpl; unfold add_log, add_console, set_log, set_console; simpl;
    rewrite <- ?app_assoc; reflexivity.
Qed.

End Ping.

(** ** One session *)

Section Session.
Context `{Platform}.

Lemma connect_result_not_nullish (o : HttpOutcome) (accountInfo : JsVal) :
  connect_result o = Returned accountInfo -> nullish accountInfo = false.
Proof.
  unfold connect_result. destruct (session_result o) as [a|e]; [|discriminate].
  destruct a; simpl; intros Heq; inversion Heq; reflexivity.
Qed.

(** The first turn of [connect] when the proxy configuration can be built:
    the session request is sent and awaited.  Its outcome alone decides how
    the function ends: with the loop started, or with a rejection reported. *)
Lemma connect_sends (bot : Bot) (token proxy : string) (w : World) (agent : option JsVal) :
  agent_for proxy = Returned agent ->
  exists k,
    run OCalled (connect_task bot token proxy) w =
      awaiting OCalled (session_request bot token agent) k w
    /\ (forall o w',
          run OCalled (k o) w' =
            match connect_result o with
            | Returned accountInfo => connected bot token proxy accountInfo w'
            | Thrown e => rejected (message e) proxy w'
            end).
Proof.
  intros Hagent.
  unfold connect_task, connect, getSession.
  destruct w as [now e files cons lg sent pend tms ls uns park unh ex].
  unfold agent_for, httpAgent_for in *.
  destruct (truthy (JStr proxy)) eqn:Hproxy;
    [ destruct (buildProxyConfig proxy) eqn:Hbuild; [|discriminate] | ];
    inversion Hagent; subst agent;
    cbn [eval bind try_catch run axios_post];
    (eexists; split; [ reflexivity | ]);
    intros o w'; destruct w';
    unfold connect_result, session_result;
    (destruct o as [response|err]; [ | reflexivity ]);
    cbn [eval bind try_catch];
    (destruct (get_prop response "data") as [data|e1]; [ | reflexivity ]);
    cbn [eval bind try_catch];
    (destruct (get_prop data "data") as [acc|e2]; [ | reflexivity ]);
    cbn [eval bind try_catch];
    (destruct acc; try reflexivity);
    unfold connected, session_record, loop_timer; rewrite ?Hproxy; reflexivity.
Qed.

(** The first turn of [connect] when building the proxy configuration
    throws: the rejection is reported at once and nothing is sent. *)
Lemma connect_build_fails (bot : Bot) (token proxy : string) (w : World) (e : Error) :
  agent_for proxy = Thrown e ->
  run OCalled (connect_task bot token proxy) w =
    rejected "Session request failed" proxy w.
Proof.
  intros Hagent.
  unfold connect_task, connect, getSession.
  destruct w as [now e0 files cons lg sent pend tms ls uns park unh ex].
  unfold agent_for, httpAgent_for in *.
  destruct (truthy (JStr proxy)) eqn:Hproxy; [|discriminate].
  destruct (buildProxyConfig proxy) eqn:Hbuild; [discriminate|].
  reflexivity.
Qed.

End Session.

(** ** Requests and awaits in the event loop *)








Lemma take_pending_split (i : nat) (l : list Pending) (p : Pending) (rest : list Pending) :
  take_pending i l = Some (p, rest) ->
  exists l1 l2, l = (l1 ++ p :: l2)%list /\ rest = (l1 ++ l2)%list /\ pend_req p = i.
Proof.
  revert p rest. induction l as [|q l IH]; simpl; intros p rest Ht; [discriminate|].
  destruct (Nat.eqb_spec (pend_req q) i) as [Heq|Hne].
  - inversion Ht; subst. exists [], rest. auto.
  - destruct (take_pending i l) as [[q' rest']|] eqn:Hl; [|discriminate].
    inversion Ht; subst.
    destruct (IH _ _ eq_refl) as (l1 & l2 & -> & -> & Hreq).
    exists (q :: l1), l2. auto.
Qed.



Section LoopFacts.
Context `{Platform}.






End LoopFacts.

(** ** The first turn of the script *)

Section Boot.
Context `{Platform}.

Lemma launch_attempted (bot : Bot) (token proxy : string) (w : World) :
  attempted proxy = true ->
  exists agent p,
    agent_for proxy = Returned agent
    /\ launch bot token w proxy =
         set_pending (w_pending w ++ [p])%list
           (set_sent (w_sent w ++ [session_request bot token agent])%list
              (set_unsettled (S (w_unsettled w)) w))
    /\ pend_req p = List.length (w_sent w)
    /\ SessionAwait bot token proxy p.
Proof.
  unfold attempted, launch. intros Ha.
  destruct (agent_for proxy) as [agent|e] eqn:Hagent; [|discriminate].
  destruct (@connect_sends _ bot token proxy (set_unsettled (S (w_unsettled w)) w) agent Hagent)
    as (k & Hrun & Hk).
  exists agent, (mkPending (List.length (w_sent w)) OCalled k).
  repeat split; auto.
Qed.

Lemma launch_not_attempted (bot : Bot) (token proxy : string) (w : World) :
  attempted proxy = false ->
  launch bot token w proxy = add_log [rejected_record "Session request failed" proxy]
                               (add_console [LineRejected "Session request failed"] w).
Proof.
  unfold attempted, launch. intros Ha.
  destruct (agent_for proxy) as [agent|e] eqn:Hagent; [discriminate|].
  rewrite (@connect_build_fails _ bot token proxy _ e Hagent).
  destruct w; reflexivity.
Qed.

(** Starting [connect] for every line: one request and one await per line
    whose proxy configuration can be built, in the order of the lines. *)
Lemma launch_all (bot : Bot) (token : string) (proxies : list string) :
  forall w,
    let w' := fold_left (launch bot token) proxies w in
    exists ps,
      w_pending w' = (w_pending w ++ ps)%list
      /\ Forall2 (SessionAwait bot token) (filter attempted proxies) ps
      /\ map pend_req ps = seq (List.length (w_sent w)) (List.length ps)
      /\ w_sent w' = (w_sent w ++ session_requests bot token proxies)%list
      /\ w_timers w' = w_timers w
      /\ w_exit w' = w_exit w
      /\ w_parked w' = w_parked w
      /\ w_listeners w' = w_listeners w
      /\ w_unhandled w' = w_unhandled w
      /\ w_unsettled w' = (w_unsettled w + List.length ps)%nat.
Proof.
  induction proxies as [|proxy proxies IH]; intros w; cbn zeta.
  - exists []. simpl. rewrite !app_nil_r, Nat.add_0_r. repeat split; auto.
  - cbn [fold_left filter session_requests flat_map].
    destruct (attempted proxy) eqn:Ha.
    + destruct (@launch_attempted bot token proxy w Ha) as (agent & p & Hagent & Hl & Hreq & Hp).
      specialize (IH (launch bot token w proxy)). cbn zeta in IH.
      destruct IH as (ps & H1 & H2 & H3 & H4 & H5 & H6 & H7 & H8 & H9 & H10).
      rewrite Hl in H1, H3, H4, H5, H6, H7, H8, H9, H10 |- *. simpl in *.
      exists (p :: ps). rewrite Hagent.
      rewrite H1, H4, H5, H6, H7, H8, H9, H10, <- !app_assoc. simpl.
      repeat split; auto.
      rewrite H3, Hreq, length_app. simpl.
      replace (List.length (w_sent w) + 1)%nat with (S (List.length (w_sent w))) by lia.
      reflexivity.
    + specialize (IH (launch bot token w proxy)). cbn zeta in IH.
      destruct IH as (ps & H1 & H2 & H3 & H4 & H5 & H6 & H7 & H8 & H9 & H10).
      rewrite (@launch_not_attempted bot token proxy w Ha) in H1, H3, H4, H5, H6, H7, H8, H9, H10 |- *.
      simpl in *. exists ps.
      unfold attempted in Ha. destruct (agent_for proxy); [discriminate|]. simpl.
      repeat split; auto.
Qed.

Lemma launch_exit (bot : Bot) (token proxy : string) (w : World) :
  w_exit (launch bot token w proxy) = w_exit w.
Proof.
  pose proof (launch_all bot token [proxy] w) as (ps & _ & _ & _ & _ & _ & He & _).
  exact He.
Qed.

Lemma run_start_all (bot : Bot) (token : string) (f : unit -> Prog unit)
      (h : Error -> Prog unit) (proxies : list string) :
  forall w, w_exit w = None ->
    run OMain (try_catch (bind (start_all bot token proxies) f) h) w =
    run OMain (try_catch (f tt) h) (fold_left (launch bot token) proxies w).
Proof.
  induction proxies as [|proxy proxies IH]; intros w Hex; [reflexivity|].
  cbn [start_all bind try_catch run fold_left].
  fold (launch bot token w proxy).
  rewrite launch_exit, Hex. cbn zeta iota.
  apply IH. rewrite launch_exit. exact Hex.
Qed.

(** The first turn of the script when both files have lines: [connect] is
    started for every proxy line with the first token line, trimmed. *)
Lemma script_boot (t : Z) (entropy : nat -> byte) (files : string -> option (list string))
      (first : string) (others : list string) (line : string) (lines : list string) :
  files "token.txt" = Some (first :: others) ->
  files "proxy.txt" = Some (line :: lines) ->
  run OMain script (initial t entropy files) =
    finish_main (fold_left (launch (new_Bot new_Config) (trim first))
                           (map trim (line :: lines))
                           (add_console [LineHeader] (initial t entropy files))).
Proof.
  intros Htok Hprox. unfold script, main, readLines, initial.
  cbn [bind try_catch run console_log w_files set_console]. rewrite Htok.
  cbn [bind try_catch run map List.length Nat.eqb w_files set_console]. rewrite Hprox.
  cbn [bind try_catch run map List.length Nat.eqb nth].
  rewrite run_start_all by reflexivity.
  cbn [bind try_catch run process_on_SIGINT].
  unfold finish_main, add_console.
  match goal with
  | |- context [fold_left ?g ?l ?w] => destruct (w_unsettled (fold_left g l w))
  end; reflexivity.
Qed.

End Boot.

(** ** The invariant of the script *)

Lemma Forall_update_nth {A : Type} (P : A -> Prop) (f : A -> A) (n : nat) (l : list A) :
  (forall x, P x -> P (f x)) -> Forall P l -> Forall P (update_nth n f l).
Proof.
  intros Hf. revert n. induction l as [|x l IH]; intros n Hl; simpl.
  - destruct n; constructor.
  - inversion Hl; subst. destruct n; constructor; auto.
Qed.

Lemma nth_error_update_nth {A : Type} (f : A -> A) (n : nat) (l : list A) (x : A) :
  nth_error l n = Some x -> nth_error (update_nth n f l) n = Some (f x).
Proof.
  revert n. induction l as [|y l IH]; intros [|n]; simpl; intros Hn;
    try discriminate; auto.
  inversion Hn; reflexivity.
Qed.

Lemma length_update_nth {A : Type} (f : A -> A) (n : nat) (l : list A) :
  List.length (update_nth n f l) = List.length l.
Proof.
  revert n. induction l as [|y l IH]; intros [|n]; simpl; auto.
Qed.

Lemma Calm_refl (tok : string) (w w' : World) :
  w_sent w' = w_sent w -> w_pending w' = w_pending w -> w_parked w' = w_parked w ->
  w_timers w' = w_timers w -> Calm tok w w'.
Proof.
  intros Hs Hp Hk Ht. repeat split; auto. exists []. rewrite app_nil_r. auto.
Qed.

Lemma Inv_same (tok : string) (n : nat) (w w' : World) :
  w_sent w' = w_sent w -> w_pending w' = w_pending w -> w_parked w' = w_parked w ->
  w_timers w' = w_timers w -> Inv tok n w -> Inv tok n w'.
Proof.
  unfold Inv. intros -> -> -> ->. auto.
Qed.

Lemma Inv_Calm (tok : string) (n : nat) (w w' : World) :
  Inv tok n w -> Calm tok w w' -> Inv tok n w'.
Proof.
  intros (H1 & H2 & H3 & H4 & H5) (Hs & Hp & Hk & ts & Ht & Hts).
  unfold Inv. rewrite Hs, Hp, Hk, Ht. repeat split; auto.
  apply Forall_app. auto.
Qed.

Lemma session_count_app (l1 l2 : list Request) :
  session_count (l1 ++ l2) = (session_count l1 + session_count l2)%nat.
Proof. unfold session_count. rewrite filter_app, length_app. reflexivity. Qed.

Section Invariant.
Context `{Platform}.

Lemma SessionAwait_Quiet (tok proxy : string) (p : Pending) :
  SessionAwait (new_Bot new_Config) tok proxy p -> Quiet tok p.
Proof.
  intros [Hown Hk] o w. rewrite Hown, Hk.
  destruct (connect_result o) as [a|e] eqn:Hres.
  - repeat split; try reflexivity.
    exists [loop_timer (new_Bot new_Config) tok proxy a (w_now w)]. split; [reflexivity|].
    constructor; [|constructor]. repeat split; try reflexivity.
    eapply connect_result_not_nullish. exact Hres.
  - apply Calm_refl; reflexivity.
Qed.

(** The first turn of a timer callback keeps the invariant: what it sends
    is a ping with the token of its loop. *)
Lemma callback_Inv (tok : string) (n : nat) (job : Job) (w : World) :
  GoodJob tok job -> Inv tok n w -> Inv tok n (run ODetached (interval_callback job) w).
Proof.
  intros (Htok & Hua & Hbot & Hnull) (H1 & H2 & H3 & H4 & H5).
  destruct (agent_for (job_proxy job)) as [agent|e] eqn:Hagent.
  - destruct (@callback_sends _ job w agent Hnull Hagent) as (k & -> & Hrej & Hres).
    unfold Inv, awaiting. simpl. repeat split; auto.
    + apply Forall_app. split; auto. constructor; [|constructor].
      simpl. rewrite Htok, Hua. reflexivity.
    + rewrite session_count_app, H2. unfold session_count. simpl.
      unfold is_session. simpl. rewrite Hbot. simpl. lia.
    + apply Forall_app. split; auto. constructor; [|constructor].
      intros o w'. simpl. destruct o as [response|e].
      * rewrite Hres. apply Calm_refl; reflexivity.
      * rewrite Hrej. apply Calm_refl; reflexivity.
  - rewrite (@callback_build_fails _ job w e Hnull Hagent).
    unfold Inv. simpl. auto.
Qed.

Lemma handler_Inv (tok : string) (n : nat) (h : Handler) (w : World) :
  Inv tok n w -> Inv tok n (run ODetached (handler_body h) w).
Proof.
  intros (H1 & H2 & H3 & H4 & H5). destruct h as [i|]; unfold Inv; simpl; repeat split; auto.
  apply Forall_update_nth; auto.
Qed.

Lemma run_listeners_Inv (tok : string) (n : nat) (hs : list Handler) :
  forall w, Inv tok n w -> Inv tok n (run_listeners hs w).
Proof.
  induction hs as [|h hs IH]; intros w Hinv; simpl; auto.
  pose proof (handler_Inv h Hinv) as H1.
  destruct (w_exit (run ODetached (handler_body h) w)); auto.
Qed.

(** Every turn of the event loop keeps the invariant. *)
Lemma step_Inv (tok : string) (n : nat) (t : Z) (ev : Event) (w : World) :
  Inv tok n w -> Inv tok n (step t ev w).
Proof.
  intros Hinv. unfold step. destruct (w_exit w); auto.
  destruct ev as [i o| i | |].
  - destruct (take_pending i (w_pending w)) as [[p rest]|] eqn:Ht; auto.
    apply take_pending_split in Ht. destruct Ht as (l1 & l2 & Hl & -> & _).
    destruct Hinv as (H1 & H2 & H3 & H4 & H5).
    rewrite Hl in H4. apply Forall_app in H4. destruct H4 as [Hq1 Hq2].
    inversion Hq2 as [|x xs Hp Hq3]; subst x xs.
    eapply Inv_Calm; [|apply Hp].
    unfold Inv. simpl. repeat split; auto. apply Forall_app. auto.
  - destruct (nth_error (w_timers w) i) as [tm|] eqn:Hnth; auto.
    destruct (t_active tm && (t_due tm <=? t)); auto.
    assert (Hjob : GoodJob tok (t_job tm)).
    { destruct Hinv as (_ & _ & H3 & _). rewrite Forall_forall in H3.
      apply H3. eapply nth_error_In. exact Hnth. }
    assert (Hinv' : Inv tok n (set_now t w)) by (eapply Inv_same; [| | | |exact Hinv]; reflexivity).
    pose proof (callback_Inv Hjob Hinv') as (H1 & H2 & H3 & H4 & H5).
    unfold Inv. simpl. repeat split; auto.
    apply Forall_update_nth; auto.
  - destruct (w_parked w) as [[ow k]|] eqn:Hpark; auto.
    destruct (w_unsettled w); auto.
    destruct Hinv as (H1 & H2 & H3 & H4 & H5). rewrite Hpark in H5. simpl in H5.
    eapply Inv_Calm; [|apply H5].
    unfold Inv. simpl. repeat split; auto.
  - destruct (w_listeners w) as [|h hs] eqn:Hl.
    + eapply Inv_same; [| | | |exact Hinv]; reflexivity.
    + apply run_listeners_Inv. eapply Inv_same; [| | | |exact Hinv]; reflexivity.
Qed.

Lemma steps_Inv (tok : string) (n : nat) (evs : list (Z * Event)) :
  forall w, Inv tok n w -> Inv tok n (steps evs w).
Proof.
  induction evs as [|[t ev] evs IH]; intros w Hinv; simpl; auto.
  apply IH. apply step_Inv. exact Hinv.
Qed.

Lemma session_requests_headers (bot : Bot) (tok : string) (proxies : list string) :
  Forall (fun r => req_headers r = headers tok userAgent) (session_requests bot tok proxies).
Proof.
  induction proxies as [|proxy proxies IH]; simpl; [constructor|].
  destruct (agent_for proxy); simpl; auto.
Qed.

Lemma session_requests_count (tok : string) (proxies : list string) :
  session_count (session_requests (new_Bot new_Config) tok proxies)
  = List.length (filter attempted proxies).
Proof.
  induction proxies as [|proxy proxies IH]; simpl; [reflexivity|].
  unfold attempted at 1. destruct (agent_for proxy); simpl.
  - change (session_count (session_request (new_Bot new_Config) tok a
                             :: session_requests (new_Bot new_Config) tok proxies))
      with (S (session_count (session_requests (new_Bot new_Config) tok proxies))).
    rewrite IH. reflexivity.
  - exact IH.
Qed.

(** The first turn of the script establishes the invariant, for the first
    token line and the proxy lines for which a request can be built. *)
Lemma boot_Inv (t : Z) (entropy : nat -> byte) (files : string -> option (list string))
      (first : string) (others proxies : list string) :
  files "token.txt" = Some (first :: others) ->
  files "proxy.txt" = Some proxies ->
  Inv (trim first) (List.length (filter attempted (map trim proxies)))
      (run OMain script (initial t entropy files)).
Proof.
  intros Htok Hprox. destruct proxies as [|line lines].
  - unfold script, main, readLines, initial.
    cbn [bind try_catch run console_log w_files set_console]. rewrite Htok.
    cbn [bind try_catch run map List.length Nat.eqb w_files set_console]. rewrite Hprox.
    unfold Inv. simpl. repeat split; constructor.
  - rewrite (@script_boot _ t entropy files first others line lines Htok Hprox).
    set (w0 := add_console [LineHeader] (initial t entropy files)).
    pose proof (launch_all (new_Bot new_Config) (trim first) (map trim (line :: lines)) w0)
      as (ps & H1 & H2 & H3 & H4 & H5 & H6 & H7 & H8 & H9 & H10).
    cbn zeta in H1, H4, H5, H7.
    set (w' := fold_left (launch (new_Bot new_Config) (trim first))
                         (map trim (line :: lines)) w0) in *.
    change (w_pending w0) with (@nil Pending) in H1.
    change (w_sent w0) with (@nil Request) in H4.
    change (w_timers w0) with (@nil Timer) in H5.
    change (w_parked w0) with (@None (Owner * Prog unit)) in H7.
    cbn [app] in H1, H4.
    assert (Hq : Forall (Quiet (trim first)) ps).
    { clear - H2. induction H2; constructor; auto.
      eapply SessionAwait_Quiet. eassumption. }
    unfold finish_main.
    destruct (w_unsettled w'); unfold Inv; simpl; rewrite H1, H4, H5;
      repeat split; auto;
      try apply session_requests_headers; try apply session_requests_count;
      try constructor.
    + rewrite H7. exact I.
    + exists []. rewrite app_nil_r. split; [reflexivity|constructor].
Qed.

End Invariant.
(** ** The proxy configuration *)






(** *** Reading the digits of a port *)






(** *** The model of url.parse on plain proxy strings *)





















(** ** The heartbeat *)

Lemma length_toString_hex (buffer : list byte) :
  String.length (toString_hex buffer) = (2 * List.length buffer)%nat.
Proof.
  induction buffer as [|b buffer IH]; simpl; [reflexivity|]. rewrite IH. lia.
Qed.

Lemma hex_digit_inj (n m : N) :
  (n < 16)%N -> (m < 16)%N -> hex_digit n = hex_digit m -> n = m.
Proof.
  intros Hn Hm.
  assert (Hn' : In n [0; 1; 2; 3; 4; 5; 6; 7; 8; 9; 10; 11; 12; 13; 14; 15]%N)
    by (simpl; lia).
  assert (Hm' : In m [0; 1; 2; 3; 4; 5; 6; 7; 8; 9; 10; 11; 12; 13; 14; 15]%N)
    by (simpl; lia).
  simpl in Hn', Hm'.
  repeat (destruct Hn' as [<-|Hn']; [|]); try contradiction;
    repeat (destruct Hm' as [<-|Hm']; [|]); try contradiction;
    intros Heq; try reflexivity; discriminate Heq.
Qed.

(** The two hexadecimal digits of a byte determine the byte. *)
Lemma byte_hex_inj (b1 b2 : byte) :
  hex_digit (Byte.to_N b1 / 16) = hex_digit (Byte.to_N b2 / 16) ->
  hex_digit (Byte.to_N b1 mod 16) = hex_digit (Byte.to_N b2 mod 16) ->
  b1 = b2.
Proof.
  intros Hhi Hlo.
  pose proof (Byte.to_N_bounded b1) as Hb1. pose proof (Byte.to_N_bounded b2) as Hb2.
  apply hex_digit_inj in Hhi;
    [|apply N.Div0.div_lt_upper_bound; lia|apply N.Div0.div_lt_upper_bound; lia].
  apply hex_digit_inj in Hlo; [|apply N.mod_lt; lia|apply N.mod_lt; lia].
  assert (Heq : Byte.to_N b1 = Byte.to_N b2).
  { rewrite (N.div_mod (Byte.to_N b1) 16), (N.div_mod (Byte.to_N b2) 16) by lia.
    rewrite Hhi, Hlo. reflexivity. }
  pose proof (Byte.of_to_N b1) as H1. pose proof (Byte.of_to_N b2) as H2.
  rewrite Heq in H1. rewrite H1 in H2. injection H2 as ->. reflexivity.
Qed.

(** [toString('hex')] loses nothing: buffers with the same hexadecimal
    form are the same. *)
Lemma toString_hex_inj (l1 : list byte) :
  forall l2, toString_hex l1 = toString_hex l2 -> l1 = l2.
Proof.
  induction l1 as [|b1 l1 IH]; intros [|b2 l2] Heq; simpl in Heq;
    try discriminate; [reflexivity|].
  injection Heq as Hhi Hlo Hrest.
  rewrite (byte_hex_inj _ _ Hhi Hlo), (IH l2 Hrest). reflexivity.
Qed.

Lemma length_take_bytes (size : nat) (e : nat -> byte) :
  List.length (take_bytes size e) = size.
Proof. unfold take_bytes. rewrite length_map, length_seq. reflexivity. Qed.

Section Heartbeat.
Context `{Platform}.

(** What the event loop does when a timer that is active and due fires. *)
Lemma step_timer (w : World) (i : nat) (tm : Timer) (t : Z) :
  w_exit w = None -> nth_error (w_timers w) i = Some tm ->
  t_active tm = true -> t_due tm <= t ->
  step t (TimerFires i) w =
    set_timers (update_nth i (rearm t)
                  (w_timers (run ODetached (interval_callback (t_job tm)) (set_now t w))))
               (run ODetached (interval_callback (t_job tm)) (set_now t w)).
Proof.
  intros Hex Hnth Hact Hdue. unfold step. rewrite Hex, Hnth, Hact.
  apply Z.leb_le in Hdue. rewrite Hdue. reflexivity.
Qed.



(** C9.  When the request of a ping is answered, the duration is the time
    of the answer minus the time the ping was sent; the record logged for
    the ping carries the score Good when the duration is below 5000 ms and
    the score Slow otherwise.  In both cases that record is all that
    happens: no request is sent again, no error is left, no timer is
    changed and the process does not exit. *)
Theorem ping_score (job : Job) (w : World) (agent : option JsVal) :
  nullish (job_accountInfo job) = false ->
  agent_for (job_proxy job) = Returned agent ->
  exists p,
    w_pending (run ODetached (interval_callback job) w) = (w_pending w ++ [p])%list
    /\ forall t response w',
         let w2 := deliver t p (Resolved response) w' in
         let pingDuration := t - w_now w in
         exists record,
           w_log w2 = (w_log w' ++ [record])%list
           /\ level record = "info"
           /\ log_message record = "Ping sent"
           /\ lookup_field "pingDuration" (meta record) = JNum pingDuration
           /\ (pingDuration < 5000 -> lookup_field "score" (meta record) = JStr "✅ Good")
           /\ (5000 <= pingDuration -> lookup_field "score" (meta record) = JStr "✔️ Slow")
           /\ w_sent w2 = w_sent w'
           /\ w_pending w2 = w_pending w'
           /\ w_timers w2 = w_timers w'
           /\ w_unhandled w2 = w_unhandled w'
           /\ w_exit w2 = w_exit w'.
Proof.
  intros Hn Hagent.
  destruct (@callback_sends _ job w agent Hn Hagent) as (k & Hrun & _ & Hres).
  exists (mkPending (List.length (w_sent w)) ODetached k).
  split; [rewrite Hrun; reflexivity|].
  intros t response w'. cbn zeta. unfold deliver. cbn [pend_owner pend_k].
  rewrite Hres. eexists. split; [reflexivity|].
  cbn [level log_message meta ping_sent_record lookup_field String.eqb Ascii.eqb Bool.eqb].
  unfold score_of. repeat split.
  - intros Hlt. apply Z.ltb_lt in Hlt. simpl in Hlt |- *. rewrite Hlt. reflexivity.
  - intros Hge. apply Z.ltb_ge in Hge. simpl in Hge |- *. rewrite Hge. reflexivity.
Qed.

(** C5, as amended.  The request of a ping goes to the ping URL and its
    body has exactly the four fields [id], [browser_id], [timestamp] and
    [version], in this order.  [id] is the [uid] of the session payload
    when that is truthy, and otherwise the hexadecimal form of eight
    random bytes drawn at this tick; [timestamp] is the clock of the tick
    in whole seconds, rounded down; [version] is 2.2.7. *)
Theorem ping_body (w : World) (i : nat) (tm : Timer) (t : Z) (agent : option JsVal) :
  w_exit w = None -> nth_error (w_timers w) i = Some tm ->
  t_active tm = true -> t_due tm <= t ->
  nullish (job_accountInfo (t_job tm)) = false ->
  agent_for (job_proxy (t_job tm)) = Returned agent ->
  let uid := field (job_accountInfo (t_job tm)) "uid" in
  exists req id browser_id seconds,
    w_sent (step t (TimerFires i) w) = (w_sent w ++ [req])%list
    /\ req_url req = pingURL (config (job_bot (t_job tm)))
    /\ req_data req = JObj [("id", id); ("browser_id", browser_id);
                            ("timestamp", JNum seconds); ("version", JStr "2.2.7")]
    /\ (truthy uid = true -> id = uid)
    /\ (truthy uid = false -> id = JStr (toString_hex (take_bytes 8 (w_entropy w))))
    /\ 1000 * seconds <= t < 1000 * seconds + 1000.
Proof.
  intros Hex Hnth Hact Hdue Hn Hagent uid.
  rewrite (@step_timer w i tm t Hex Hnth Hact Hdue).
  destruct (@callback_sends _ (t_job tm) (set_now t w) agent Hn Hagent) as (k & -> & _).
  eexists. exists (ping_uid (job_accountInfo (t_job tm)) (w_entropy w)).
  eexists. exists (t / 1000).
  split; [reflexivity|]. split; [reflexivity|]. split; [reflexivity|].
  unfold ping_uid. fold uid. repeat split.
  - intros ->. reflexivity.
  - intros ->. reflexivity.
  - apply Z.mul_div_le. lia.
  - pose proof (Z.mod_pos_bound t 1000 ltac:(lia)) as Hm.
    pose proof (Z.div_mod t 1000 ltac:(lia)) as Hd. lia.
Qed.

(** C2, as amended.  When the session payload has no truthy [browser_id],
    every tick draws eight fresh random bytes and sends their hexadecimal
    form, sixteen digits, as [browser_id].  The identifier is not kept:
    the bytes are consumed, and the payload held by the timer is the same
    after the tick, so that the next tick draws again.  Any other tick of
    a timer that holds the same job, in whatever state of the process,
    sends the hexadecimal form of the bytes it draws, and the two ticks
    send the same identifier exactly when their random bytes coincide. *)
Theorem browserId_fresh_each_tick (w : World) (i : nat) (tm : Timer) (t : Z)
        (agent : option JsVal) :
  w_exit w = None -> nth_error (w_timers w) i = Some tm ->
  t_active tm = true -> t_due tm <= t ->
  nullish (job_accountInfo (t_job tm)) = false ->
  truthy (field (job_accountInfo (t_job tm)) "browser_id") = false ->
  agent_for (job_proxy (t_job tm)) = Returned agent ->
  let w1 := step t (TimerFires i) w in
  let e := entropy_after_uid (job_accountInfo (t_job tm)) (w_entropy w) in
  exists req tm',
    w_sent w1 = (w_sent w ++ [req])%list
    /\ field (req_data req) "browser_id" = JStr (toString_hex (take_bytes 8 e))
    /\ String.length (toString_hex (take_bytes 8 e)) = 16%nat
    /\ w_entropy w1 = drop_bytes 8 e
    /\ nth_error (w_timers w1) i = Some tm'
    /\ t_job tm' = t_job tm
    /\ forall (w2 : World) (j : nat) (tm2 : Timer) (t2 : Z),
         w_exit w2 = None -> nth_error (w_timers w2) j = Some tm2 ->
         t_active tm2 = true -> t_due tm2 <= t2 ->
         t_job tm2 = t_job tm ->
         let e2 := entropy_after_uid (job_accountInfo (t_job tm)) (w_entropy w2) in
         exists req2,
           w_sent (step t2 (TimerFires j) w2) = (w_sent w2 ++ [req2])%list
           /\ field (req_data req2) "browser_id" = JStr (toString_hex (take_bytes 8 e2))
           /\ (field (req_data req2) "browser_id" = field (req_data req) "browser_id"
               <-> take_bytes 8 e2 = take_bytes 8 e).
Proof.
  intros Hex Hnth Hact Hdue Hn Hbid Hagent. cbn zeta.
  rewrite (@step_timer w i tm t Hex Hnth Hact Hdue).
  destruct (@callback_sends _ (t_job tm) (set_now t w) agent Hn Hagent) as (k & -> & _).
  eexists. exists (rearm t tm).
  split; [reflexivity|].
  split; [cbn; unfold ping_browserId; rewrite Hbid; reflexivity|].
  split; [rewrite length_toString_hex, length_take_bytes; reflexivity|].
  split; [cbn; unfold entropy_after_ids; rewrite Hbid; reflexivity|].
  split; [cbn; apply nth_error_update_nth; exact Hnth|].
  split; [reflexivity|].
  intros w2 j tm2 t2 Hex2 Hnth2 Hact2 Hdue2 Hjob.
  rewrite (@step_timer w2 j tm2 t2 Hex2 Hnth2 Hact2 Hdue2), Hjob.
  destruct (@callback_sends _ (t_job tm) (set_now t2 w2) agent Hn Hagent)
    as (k2 & -> & _).
  eexists. split; [reflexivity|].
  assert (Hid : forall now e0,
             field (req_data (ping_request (t_job tm) now e0 agent)) "browser_id"
             = JStr (toString_hex
                       (take_bytes 8 (entropy_after_uid (job_accountInfo (t_job tm)) e0)))).
  { intros now e0. cbn. unfold ping_browserId. rewrite Hbid. reflexivity. }
  cbn [w_now w_entropy set_now]. rewrite !Hid.
  split; [reflexivity|]. split.
  - intros Heq. apply toString_hex_inj.
    exact (f_equal (fun v => match v with JStr s => s | _ => EmptyString end) Heq).
  - intros ->. reflexivity.
Qed.

(** C4.  A tick of a loop fails either because the proxy configuration
    cannot be built (nothing is sent) or because the request sent is
    rejected later.  In both cases the failure is logged as a proxy error
    and nothing else happens: whatever the tick does, its timer stays
    active and is due again one delay after the tick; the failure sends no
    further request, changes no timer, and does not end the process, and
    the timers are the same after a rejection as after a response. *)
Theorem failed_tick_keeps_schedule (w : World) (i : nat) (tm : Timer) (t : Z) :
  w_exit w = None -> nth_error (w_timers w) i = Some tm ->
  t_active tm = true -> t_due tm <= t ->
  nullish (job_accountInfo (t_job tm)) = false ->
  let w1 := step t (TimerFires i) w in
  let proxy := job_proxy (t_job tm) in
  nth_error (w_timers w1) i = Some (mkTimer (t_job tm) (t_delay tm) (t + t_delay tm) true)
  /\ List.length (w_timers w1) = List.length (w_timers w)
  /\ w_exit w1 = None
  /\ (forall e, agent_for proxy = Thrown e ->
        w_log w1 = (w_log w ++ [proxy_error_record (message e) proxy])%list
        /\ w_sent w1 = w_sent w
        /\ w_pending w1 = w_pending w)
  /\ (forall agent, agent_for proxy = Returned agent ->
        exists req p,
          w_sent w1 = (w_sent w ++ [req])%list
          /\ w_pending w1 = (w_pending w ++ [p])%list
          /\ pend_req p = List.length (w_sent w)
          /\ forall t' e w',
               let w2 := deliver t' p (Rejected e) w' in
               w_log w2 = (w_log w' ++ [proxy_error_record (message e) proxy])%list
               /\ w_timers w2 = w_timers w'
               /\ w_sent w2 = w_sent w'
               /\ w_pending w2 = w_pending w'
               /\ w_exit w2 = w_exit w'
               /\ w_unhandled w2 = w_unhandled w'
               /\ forall response,
                    w_timers (deliver t' p (Resolved response) w') = w_timers w2).
Proof.
  intros Hex Hnth Hact Hdue Hn. cbn zeta.
  rewrite (@step_timer w i tm t Hex Hnth Hact Hdue).
  assert (Hrearm : rearm t tm = mkTimer (t_job tm) (t_delay tm) (t + t_delay tm) true).
  { unfold rearm. rewrite Hact. reflexivity. }
  destruct (agent_for (job_proxy (t_job tm))) as [agent|e] eqn:Hagent.
  - destruct (@callback_sends _ (t_job tm) (set_now t w) agent Hn Hagent)
      as (k & -> & Hrej & Hres).
    cbn. rewrite length_update_nth, <- Hrearm.
    split; [apply nth_error_update_nth; exact Hnth|].
    split; [reflexivity|]. split; [exact Hex|].
    split; [intros e He; discriminate|].
    intros agent' Heq. inversion Heq; subst agent'.
    eexists. exists (mkPending (List.length (w_sent w)) ODetached k).
    split; [reflexivity|]. split; [reflexivity|]. split; [reflexivity|].
    intros t' e w'. unfold deliver. cbn [pend_owner pend_k]. rewrite Hrej.
    repeat split. intros response. rewrite Hres. reflexivity.
  - rewrite (@callback_build_fails _ (t_job tm) (set_now t w) e Hn Hagent).
    cbn. rewrite length_update_nth, <- Hrearm.
    split; [apply nth_error_update_nth; exact Hnth|].
    split; [reflexivity|]. split; [exact Hex|].
    split; [|intros agent He; discriminate].
    intros e' Heq. inversion Heq; subst e'. repeat split.
Qed.

End Heartbeat.

(** ** The orchestrator *)



Section Orchestrator.
Context `{Platform}.

Lemma step_Idle (t : Z) (ev : Event) (w : World) : Idle w -> Idle (step t ev w).
Proof.
  intros (Hs & Hp & Ht & Hk & Hl). unfold step. destruct (w_exit w); [repeat split; auto|].
  destruct ev as [i o|i| |].
  - rewrite Hp. simpl. repeat split; auto.
  - rewrite Ht. destruct i; simpl; repeat split; auto.
  - rewrite Hk. repeat split; auto.
  - rewrite Hl. repeat split; auto.
Qed.

Lemma steps_Idle (evs : list (Z * Event)) : forall w, Idle w -> Idle (steps evs w).
Proof.
  induction evs as [|[t ev] evs IH]; intros w Hw; simpl; auto.
  apply IH. apply step_Idle. exact Hw.
Qed.

(** The first turn of the script establishes the invariant whatever the
    files hold: when a file cannot be read or has no line, nothing is
    sent and nothing is started. *)
Lemma script_Inv_any (t : Z) (entropy : nat -> byte) (files : string -> option (list string)) :
  exists tok n, Inv tok n (run OMain script (initial t entropy files)).
Proof.
  destruct (files "token.txt") as [[|first others]|] eqn:Htok.
  - exists EmptyString, 0%nat. unfold script, main, readLines, initial.
    cbn [bind try_catch run console_log w_files set_console]. rewrite Htok.
    unfold Inv. simpl. repeat split; constructor.
  - destruct (files "proxy.txt") as [proxies|] eqn:Hprox.
    + eexists. eexists. eapply boot_Inv; eassumption.
    + exists EmptyString, 0%nat. unfold script, main, readLines, initial.
      cbn [bind try_catch run console_log w_files set_console]. rewrite Htok.
      cbn [bind try_catch run map List.length Nat.eqb w_files set_console]. rewrite Hprox.
      unfold Inv. simpl. repeat split; constructor.
  - exists EmptyString, 0%nat. unfold script, main, readLines, initial.
    cbn [bind try_catch run console_log w_files set_console]. rewrite Htok.
    unfold Inv. simpl. repeat split; constructor.
Qed.

(** In every run of the script, the session payload a loop holds is never
    [null] or [undefined]: [connect] has read [uid] off it. *)
Lemma loops_hold_payloads (t : Z) (entropy : nat -> byte)
      (files : string -> option (list string)) (evs : list (Z * Event)) :
  Forall (fun tm => nullish (job_accountInfo (t_job tm)) = false)
         (w_timers (steps evs (run OMain script (initial t entropy files)))).
Proof.
  destruct (script_Inv_any t entropy files) as (tok & n & Hinv).
  pose proof (@steps_Inv _ tok n evs _ Hinv) as (_ & _ & H3 & _).
  eapply Forall_impl; [|exact H3]. cbn beta. intros tm (_ & _ & _ & Hn). exact Hn.
Qed.

(** C6.  When the token file yields no line, or the token file yields
    lines and the proxy file yields none, [main] prints the line of that
    case and returns: no request has been sent, no asynchronous function
    has been started, nothing is awaited and no timer exists; and whatever
    happens afterwards, no request is ever sent. *)
Theorem empty_input_aborts (t : Z) (entropy : nat -> byte)
        (files : string -> option (list string)) (a : Abort) :
  abort_of files = Some a ->
  let w1 := run OMain script (initial t entropy files) in
  w_console w1 = [LineHeader; abort_line a]
  /\ w_sent w1 = []
  /\ w_unsettled w1 = 0%nat
  /\ w_pending w1 = []
  /\ w_timers w1 = []
  /\ w_unhandled w1 = []
  /\ forall evs, w_sent (steps evs w1) = [] /\ w_timers (steps evs w1) = [].
Proof.
  unfold abort_of. intros Ha. cbn zeta.
  assert (Hrun : run OMain script (initial t entropy files)
                 = add_console [LineHeader; abort_line a] (initial t entropy files)).
  { unfold script, main, readLines, initial.
    cbn [bind try_catch run console_log w_files set_console].
    destruct (files "token.txt") as [[|first others]|] eqn:Htok; try discriminate.
    - inversion Ha; subst a. reflexivity.
    - cbn [bind try_catch run map List.length Nat.eqb w_files set_console].
      destruct (files "proxy.txt") as [[|line lines]|] eqn:Hprox; try discriminate.
      inversion Ha; subst a. reflexivity. }
  rewrite Hrun. repeat split; try reflexivity;
    (destruct (@steps_Idle evs (add_console [LineHeader; abort_line a]
                                  (initial t entropy files)))
      as (Hs & _ & Ht & _); [repeat split; reflexivity|]; assumption).
Qed.

(** C7, as amended.  The credential is the first line of the token file,
    trimmed, whatever it is: lines that are empty are not skipped.  Every
    request the process ever sends, session request or ping, carries this
    line as its bearer token, and every loop holds it. *)
Theorem token_is_first_line (t : Z) (entropy : nat -> byte)
        (files : string -> option (list string))
        (first : string) (others proxies : list string) (evs : list (Z * Event)) :
  files "token.txt" = Some (first :: others) ->
  files "proxy.txt" = Some proxies ->
  let w := steps evs (run OMain script (initial t entropy files)) in
  Forall (fun r => req_headers r = headers (trim first) userAgent
                   /\ In ("Authorization", "Bearer " ++ trim first) (req_headers r))
         (w_sent w)
  /\ Forall (fun tm => job_token (t_job tm) = trim first) (w_timers w).
Proof.
  intros Htok Hprox. cbn zeta.
  pose proof (@steps_Inv _ _ _ evs _ (@boot_Inv _ t entropy files first others proxies Htok Hprox)) as (H1 & _ & H3 & _).
  split.
  - eapply Forall_impl; [|exact H1]. cbn beta. intros r Hr. split; [exact Hr|].
    rewrite Hr. left. reflexivity.
  - eapply Forall_impl; [|exact H3]. cbn beta. intros tm (Hj & _). exact Hj.
Qed.

(** C3, as amended.  The first turn of [main] sends one session request
    for every proxy line for which building the proxy configuration does
    not throw, in the order of the lines; this includes the empty lines
    and the lines whose scheme is not recognised, which are fetched
    without a proxy.  No session request is sent later: at every moment
    the number of session requests sent is the number of these lines. *)
Theorem session_fetch_count (t : Z) (entropy : nat -> byte)
        (files : string -> option (list string))
        (first : string) (others proxies : list string) (evs : list (Z * Event)) :
  files "token.txt" = Some (first :: others) ->
  files "proxy.txt" = Some proxies ->
  let w1 := run OMain script (initial t entropy files) in
  w_sent w1 = session_requests (new_Bot new_Config) (trim first) (map trim proxies)
  /\ session_count (w_sent (steps evs w1))
     = List.length (filter attempted (map trim proxies)).
Proof.
  intros Htok Hprox. cbn zeta. split.
  - destruct proxies as [|line lines].
    + unfold script, main, readLines, initial.
      cbn [bind try_catch run console_log w_files set_console]. rewrite Htok.
      cbn [bind try_catch run map List.length Nat.eqb w_files set_console]. rewrite Hprox.
      reflexivity.
    + rewrite (@script_boot _ t entropy files first others line lines Htok Hprox).
      pose proof (launch_all (new_Bot new_Config) (trim first) (map trim (line :: lines))
                    (add_console [LineHeader] (initial t entropy files)))
        as (ps & _ & _ & _ & H4 & _).
      cbn zeta in H4. unfold finish_main.
      match goal with |- context [w_unsettled ?w] => destruct (w_unsettled w) end;
        exact H4.
  - pose proof (@steps_Inv _ _ _ evs _ (@boot_Inv _ t entropy files first others proxies Htok Hprox)) as (_ & H2 & _).
    exact H2.
Qed.








End Orchestrator.

(** ** The sample run: instances and counterexamples *)


(** A ping answered after 3000 ms is scored Good, one answered after
    7000 ms is scored Slow. *)
Lemma ping_score_witness :
  nullish (job_accountInfo Sample.job) = false
  /\ @agent_for NodeUrl.platform (job_proxy Sample.job) = Returned (Some Sample.http_agent)
  /\ exists p,
       w_pending (@run ODetached (@interval_callback NodeUrl.platform Sample.job)
                       (set_now 31500 Sample.in_session))
         = (w_pending (set_now 31500 Sample.in_session) ++ [p])%list
       /\ (exists record,
             w_log (deliver 34500 p (Resolved JNull) Sample.in_session)
               = (w_log Sample.in_session ++ [record])%list
             /\ lookup_field "score" (meta record) = JStr "✅ Good")
       /\ (exists record,
             w_log (deliver 38500 p (Resolved JNull) Sample.in_session)
               = (w_log Sample.in_session ++ [record])%list
             /\ lookup_field "score" (meta record) = JStr "✔️ Slow").
Proof.
  split; [reflexivity|]. split; [reflexivity|].
  destruct (@ping_score NodeUrl.platform Sample.job (set_now 31500 Sample.in_session)
              (Some Sample.http_agent) eq_refl eq_refl) as (p & Hp & Hk).
  exists p. split; [exact Hp|]. split.
  - destruct (Hk 34500 JNull Sample.in_session)
      as (record & Hlog & _ & _ & _ & Hgood & _).
    exists record. split; [exact Hlog|]. apply Hgood. reflexivity.
  - destruct (Hk 38500 JNull Sample.in_session)
      as (record & Hlog & _ & _ & _ & _ & Hslow & _).
    exists record. split; [exact Hlog|]. apply Hslow. discriminate.
Defined.

(** The first ping of the sample run, sent at 31500 ms: its [id] is the
    [uid] of the session and its [timestamp] is 31. *)
Lemma ping_body_witness :
  w_exit Sample.in_session = None
  /\ nth_error (w_timers Sample.in_session) 0 = Some Sample.timer
  /\ t_active Sample.timer = true
  /\ t_due Sample.timer <= 31500
  /\ nullish (job_accountInfo (t_job Sample.timer)) = false
  /\ @agent_for NodeUrl.platform (job_proxy (t_job Sample.timer))
     = Returned (Some Sample.http_agent)
  /\ exists req browser_id,
       w_sent (@step NodeUrl.platform 31500 (TimerFires 0) Sample.in_session)
         = (w_sent Sample.in_session ++ [req])%list
       /\ req_url req = "http://13.215.134.222/api/network/ping"
       /\ req_data req = JObj [("id", JStr "u1"); ("browser_id", browser_id);
                               ("timestamp", JNum 31); ("version", JStr "2.2.7")].
Proof.
  split; [reflexivity|]. split; [reflexivity|]. split; [reflexivity|].
  split; [discriminate|]. split; [reflexivity|]. split; [reflexivity|].
  destruct (@ping_body NodeUrl.platform Sample.in_session 0%nat Sample.timer 31500
              (Some Sample.http_agent) eq_refl eq_refl eq_refl
              ltac:(discriminate) eq_refl eq_refl)
    as (req & id & browser_id & seconds & Hsent & Hurl & Hdata & Hid & _ & Hsec).
  exists req, browser_id. split; [exact Hsent|]. split; [exact Hurl|].
  rewrite Hdata, (Hid eq_refl).
  assert (Hs : seconds = 31) by lia. rewrite Hs. reflexivity.
Defined.

(** The first ping of the sample run carries the first eight random
    bytes as its [browser_id], and the second ping, one interval later,
    the next eight. *)
Lemma browserId_fresh_each_tick_witness :
  w_exit Sample.in_session = None
  /\ nth_error (w_timers Sample.in_session) 0 = Some Sample.timer
  /\ t_active Sample.timer = true
  /\ t_due Sample.timer <= 31500
  /\ nullish (job_accountInfo (t_job Sample.timer)) = false
  /\ truthy (field (job_accountInfo (t_job Sample.timer)) "browser_id") = false
  /\ @agent_for NodeUrl.platform (job_proxy (t_job Sample.timer))
     = Returned (Some Sample.http_agent)
  /\ exists req,
       w_sent (@step NodeUrl.platform 31500 (TimerFires 0) Sample.in_session)
         = (w_sent Sample.in_session ++ [req])%list
       /\ field (req_data req) "browser_id" = JStr "0001020304050607"
       /\ exists req2,
            w_sent (@step NodeUrl.platform 61500 (TimerFires 0)
                          (@step NodeUrl.platform 31500 (TimerFires 0) Sample.in_session))
            = (w_sent (@step NodeUrl.platform 31500 (TimerFires 0) Sample.in_session)
                 ++ [req2])%list
            /\ field (req_data req2) "browser_id" = JStr "08090a0b0c0d0e0f".
Proof.
  split; [reflexivity|]. split; [reflexivity|]. split; [reflexivity|].
  split; [discriminate|]. split; [reflexivity|]. split; [reflexivity|].
  split; [reflexivity|].
  destruct (@browserId_fresh_each_tick NodeUrl.platform Sample.in_session 0%nat Sample.timer
              31500 (Some Sample.http_agent) eq_refl eq_refl eq_refl
              ltac:(discriminate) eq_refl eq_refl eq_refl)
    as (req & tm' & Hsent & Hbid & _ & _ & _ & _ & Hnext).
  exists req. split; [exact Hsent|]. split; [exact Hbid|].
  destruct (Hnext (@step NodeUrl.platform 31500 (TimerFires 0) Sample.in_session) 0%nat
                  (mkTimer Sample.job 30000 61500 true) 61500
                  eq_refl eq_refl eq_refl ltac:(discriminate) eq_refl)
    as (req2 & Hsent2 & Hbid2 & _).
  exists req2. split; [exact Hsent2|exact Hbid2].
Defined.

(** C2 as stated fails: in the sample run the session payload has no
    [browser_id], and the first two pings of the loop carry two different
    identifiers. *)
Lemma browserId_changes_between_ticks :
  truthy (field Sample.account "browser_id") = false
  /\ map (fun r => field (req_data r) "browser_id")
         (skipn 2 (w_sent (@steps NodeUrl.platform
                             [(31500, TimerFires 0); (61500, TimerFires 0)]
                             Sample.in_session)))
     = [JStr "0001020304050607"; JStr "08090a0b0c0d0e0f"]
  /\ JStr "0001020304050607" <> JStr "08090a0b0c0d0e0f".
Proof.
  split; [reflexivity|]. split; [vm_compute; reflexivity|]. discriminate.
Qed.

(** The timer of the sample run, due at 31500 ms, is due again at
    61500 ms once it has fired. *)
Lemma failed_tick_keeps_schedule_witness :
  w_exit Sample.in_session = None
  /\ nth_error (w_timers Sample.in_session) 0 = Some Sample.timer
  /\ t_active Sample.timer = true
  /\ t_due Sample.timer <= 31500
  /\ nullish (job_accountInfo (t_job Sample.timer)) = false
  /\ nth_error (w_timers (@step NodeUrl.platform 31500 (TimerFires 0) Sample.in_session)) 0
     = Some (mkTimer Sample.job 30000 61500 true).
Proof.
  split; [reflexivity|]. split; [reflexivity|]. split; [reflexivity|].
  split; [discriminate|]. split; [reflexivity|].
  exact (proj1 (@failed_tick_keeps_schedule NodeUrl.platform Sample.in_session 0%nat
                  Sample.timer 31500 eq_refl eq_refl eq_refl
                  ltac:(discriminate) eq_refl)).
Defined.

(** C5 as stated fails: when the session payload has an empty [uid], the
    loop is started all the same, and the [id] of its ping is not that
    [uid] but an identifier made of random bytes. *)
Lemma ping_id_without_uid :
  let payload := JObj [("uid", JStr ""); ("name", JStr "n")] in
  let w := @steps NodeUrl.platform
             [(1500, Response 0 (Sample.session_ok payload)); (31500, TimerFires 0)]
             Sample.booted in
  field payload "uid" = JStr ""
  /\ map (fun tm => job_accountInfo (t_job tm)) (w_timers w) = [payload]
  /\ map (fun r => field (req_data r) "id") (skipn 2 (w_sent w))
     = [JStr "0001020304050607"].
Proof.
  cbn zeta. split; [reflexivity|]. split; vm_compute; reflexivity.
Qed.

(** With one token and no proxy line the script prints that no proxy was
    found and sends nothing. *)
Lemma empty_input_aborts_witness :
  abort_of (Sample.files_of ["tok123"] []) = Some NoProxiesFound
  /\ w_console (@run OMain (@script NodeUrl.platform)
                     (initial 1000 Sample.entropy (Sample.files_of ["tok123"] [])))
     = [LineHeader; LineNoProxies]
  /\ w_sent (@run OMain (@script NodeUrl.platform)
                  (initial 1000 Sample.entropy (Sample.files_of ["tok123"] [])))
     = [].
Proof.
  split; [reflexivity|].
  destruct (@empty_input_aborts NodeUrl.platform 1000 Sample.entropy
              (Sample.files_of ["tok123"] []) NoProxiesFound eq_refl)
    as (Hcons & Hsent & _).
  split; [exact Hcons|exact Hsent].
Defined.

(** The three requests of the sample run (two session requests, one
    ping) carry the token of the file. *)
Lemma token_is_first_line_witness :
  let evs := [(1500, Response 0 (Sample.session_ok Sample.account)); (31500, TimerFires 0)] in
  let w := @steps NodeUrl.platform evs
             (@run OMain (@script NodeUrl.platform) (initial 1000 Sample.entropy Sample.files)) in
  Sample.files "token.txt" = Some ["tok123"]
  /\ Sample.files "proxy.txt" = Some ["http://1.2.3.4:8080"; "socks5://5.6.7.8:1080"]
  /\ trim "tok123" = "tok123"
  /\ List.length (w_sent w) = 3%nat
  /\ Forall (fun r => req_headers r = headers (trim "tok123") userAgent
                      /\ In ("Authorization", "Bearer " ++ trim "tok123") (req_headers r))
            (w_sent w).
Proof.
  cbn zeta.
  split; [reflexivity|]. split; [reflexivity|]. split; [reflexivity|].
  split; [reflexivity|].
  exact (proj1 (@token_is_first_line NodeUrl.platform 1000 Sample.entropy Sample.files
                  "tok123" [] ["http://1.2.3.4:8080"; "socks5://5.6.7.8:1080"]
                  [(1500, Response 0 (Sample.session_ok Sample.account));
                   (31500, TimerFires 0)]
                  eq_refl eq_refl)).
Defined.

(** A token line saved with a byte order mark is sent without it. *)
Example token_with_byte_order_mark :
  map req_headers
      (w_sent (@run OMain (@script NodeUrl.platform)
                    (initial 1000 Sample.entropy
                       (Sample.files_of
                          [String "239" (String "187" (String "191" "tok123"))]
                          ["http://1.2.3.4:8080"]))))
  = [headers "tok123" userAgent].
Proof. vm_compute. reflexivity. Qed.

(** C7 as stated fails: when the first line of the token file is empty and
    the second is [tok123], the session request carries the empty token. *)
Lemma leading_empty_line_is_the_token :
  map req_headers
      (w_sent (@run OMain (@script NodeUrl.platform)
                    (initial 1000 Sample.entropy
                       (Sample.files_of [""; "tok123"] ["http://1.2.3.4:8080"]))))
  = [[("Authorization", "Bearer ");
      ("Content-Type", "application/json");
      ("User-Agent", "Mozilla/5.0 ... Safari/537.3");
      ("Accept", "application/json")]].
Proof. vm_compute. reflexivity. Qed.

(** Both proxy lines of the sample run are attempted, and after the first
    ping two of the three requests sent are session requests. *)
Lemma session_fetch_count_witness :
  let evs := [(1500, Response 0 (Sample.session_ok Sample.account)); (31500, TimerFires 0)] in
  let w := @steps NodeUrl.platform evs
             (@run OMain (@script NodeUrl.platform) (initial 1000 Sample.entropy Sample.files)) in
  let proxies := ["http://1.2.3.4:8080"; "socks5://5.6.7.8:1080"] in
  Sample.files "token.txt" = Some ["tok123"]
  /\ Sample.files "proxy.txt" = Some proxies
  /\ List.length (filter (@attempted NodeUrl.platform) (map trim proxies)) = 2%nat
  /\ List.length (w_sent w) = 3%nat
  /\ session_count (w_sent w)
     = List.length (filter (@attempted NodeUrl.platform) (map trim proxies)).
Proof.
  cbn zeta.
  split; [reflexivity|]. split; [reflexivity|]. split; [reflexivity|].
  split; [reflexivity|].
  exact (proj2 (@session_fetch_count NodeUrl.platform 1000 Sample.entropy Sample.files
                  "tok123" [] ["http://1.2.3.4:8080"; "socks5://5.6.7.8:1080"]
                  [(1500, Response 0 (Sample.session_ok Sample.account));
                   (31500, TimerFires 0)]
                  eq_refl eq_refl)).
Defined.

(** C3 as stated fails: a proxy line with the scheme [ftp] yields no proxy
    configuration, so no proxy line is parsed with success, and yet one
    session request is sent for it. *)
Lemma unparsed_line_is_fetched :
  let proxies := ["ftp://1.2.3.4:21"] in
  let w1 := @run OMain (@script NodeUrl.platform)
                 (initial 1000 Sample.entropy (Sample.files_of ["tok123"] proxies)) in
  @buildProxyConfig NodeUrl.platform "ftp://1.2.3.4:21" = Returned JNull
  /\ List.length (filter (@parsed NodeUrl.platform) proxies) = 0%nat
  /\ session_count (w_sent w1) = 1%nat
  /\ map req_httpAgent (w_sent w1) = [Some JNull].
Proof.
  cbn zeta. split; [reflexivity|]. split; [reflexivity|].
  split; vm_compute; reflexivity.
Qed.


(** ** Further properties: how programs compose *)

Lemma never_throws_bind {A B : Type} (p : Prog A) (f : A -> Prog B) :
  never_throws p -> (forall a, never_throws (f a)) -> never_throws (bind p f).
Proof.
  intros Hp Hf. induction p; simpl in *; auto; try contradiction.
Qed.

(** A [try] whose handler never throws never throws. *)
Lemma never_throws_try_catch {A : Type} (p : Prog A) (h : Error -> Prog A) :
  (forall e, never_throws (h e)) -> never_throws (try_catch p h).
Proof.
  intros Hh. induction p; simpl in *; auto.
Qed.

Lemma never_reports_bind {A B : Type} (bl : ConsoleLine -> bool) (br : LogRecord -> bool)
      (p : Prog A) (f : A -> Prog B) :
  never_reports bl br p -> (forall a, never_reports bl br (f a)) ->
  never_reports bl br (bind p f).
Proof.
  intros Hp Hf. induction p; simpl in *; auto; try (destruct Hp; split; auto).
Qed.

Lemma never_reports_try_catch {A : Type} (bl : ConsoleLine -> bool) (br : LogRecord -> bool)
      (p : Prog A) (h : Error -> Prog A) :
  never_reports bl br p -> (forall e, never_reports bl br (h e)) ->
  never_reports bl br (try_catch p h).
Proof.
  intros Hp Hh. induction p; simpl in *; auto; try (destruct Hp; split; auto).
Qed.

(** The handler of a [try] around a program that never throws is never
    run: what it would report is never reported. *)
Lemma never_reports_unreached {A : Type} (bl : ConsoleLine -> bool) (br : LogRecord -> bool)
      (p : Prog A) (h : Error -> Prog A) :
  never_throws p -> never_reports bl br p -> never_reports bl br (try_catch p h).
Proof.
  intros Ht Hp. induction p; simpl in *; auto; try contradiction;
    try (destruct Hp; split; auto).
Qed.

(** ** Further properties: one session *)

Section SessionExtra.
Context `{Platform}.

Ltac reports :=
  repeat match goal with
         | |- never_reports _ _ (try_catch _ _) => apply never_reports_try_catch
         | |- never_reports _ _ (bind _ _) => apply never_reports_bind
         | |- forall _, _ => intro
         | |- never_reports _ _ (eval ?r) => destruct r; exact I
         | |- never_reports _ _ (if ?b then _ else _) => destruct b
         | |- never_reports _ _ (axios_post _) => simpl; intros [?|?]; exact I
         | |- never_reports _ _ _ => simpl; repeat split; (reflexivity || exact I)
         end.

(** X1.  [connect] never throws, whatever the token and the proxy line
    are and however its request ends: every error is caught and reported
    by its own handler.  So the handler that [main] attaches to every
    [connect] with [.catch] is never run and its line is never printed. *)
Theorem connect_never_throws (this : Bot) (token proxy : string) :
  never_throws (connect this token proxy)
  /\ never_reports is_task_error no_record (connect_task this token proxy).
Proof.
  assert (Hthrows : never_throws (connect this token proxy)).
  { unfold connect. apply never_throws_try_catch. intros e. simpl. exact I. }
  split; [exact Hthrows|].
  unfold connect_task. apply never_reports_unreached; [exact Hthrows|].
  unfold connect, getSession, httpAgent_for. reports.
Qed.

(** X2.  A session fetch that fails is reported with the fixed message
    "Session request failed", whatever went wrong: when building the
    proxy configuration throws, nothing is sent and the rejection is
    logged at once; when the request is rejected with an error, the
    message of that error is dropped.  In both cases no timer is started,
    no listener is installed and nothing is sent again. *)
Theorem session_failure_is_opaque (bot : Bot) (token proxy : string) (w : World) :
  let w1 := run OCalled (connect_task bot token proxy) w in
  match agent_for proxy with
  | Thrown e =>
      w_log w1 = (w_log w ++ [rejected_record "Session request failed" proxy])%list
      /\ w_console w1 = (w_console w ++ [LineRejected "Session request failed"])%list
      /\ w_sent w1 = w_sent w
      /\ w_pending w1 = w_pending w
      /\ w_timers w1 = w_timers w
      /\ w_listeners w1 = w_listeners w
  | Returned agent =>
      exists p,
        w_pending w1 = (w_pending w ++ [p])%list
        /\ forall t err w',
             let w2 := deliver t p (Rejected err) w' in
             w_log w2 = (w_log w' ++ [rejected_record "Session request failed" proxy])%list
             /\ w_console w2 = (w_console w' ++ [LineRejected "Session request failed"])%list
             /\ w_sent w2 = w_sent w'
             /\ w_timers w2 = w_timers w'
             /\ w_listeners w2 = w_listeners w'
  end.
Proof.
  cbn zeta. destruct (agent_for proxy) as [agent|e] eqn:Hagent.
  - destruct (@connect_sends _ bot token proxy w agent Hagent) as (k & -> & Hk).
    exists (mkPending (List.length (w_sent w)) OCalled k). split; [reflexivity|].
    intros t err w'. unfold deliver. cbn [pend_owner pend_k]. rewrite Hk.
    repeat split.
  - rewrite (@connect_build_fails _ bot token proxy w e Hagent). repeat split.
Qed.

(** X3.  What the answer to the session request must hold for the loop to
    start: the body of the response and its [data] field must not be null
    or undefined; nothing more (a payload without [uid] starts a loop as
    well).  The loop is then one active timer holding the payload, the
    token and the proxy line, due one retry interval after the answer,
    with one SIGINT listener that clears it.  A body without [data]
    counts as a failed request; a [data] that is null or undefined is
    reported as a rejection too, and neither starts a timer. *)
Theorem connect_starts_loop (bot : Bot) (token proxy : string) (w : World)
        (agent : option JsVal) :
  agent_for proxy = Returned agent ->
  exists p,
    w_pending (run OCalled (connect_task bot token proxy) w) = (w_pending w ++ [p])%list
    /\ forall t response w',
         let w2 := deliver t p (Resolved response) w' in
         let body := field response "data" in
         let payload := field body "data" in
         (nullish response = false -> nullish body = false -> nullish payload = false ->
            w_timers w2
            = (w_timers w' ++ [mkTimer (mkJob bot payload token userAgent proxy)
                                       (retryInterval (config bot))
                                       (t + retryInterval (config bot)) true])%list
            /\ w_listeners w2
               = (w_listeners w' ++ [ClearTimer (List.length (w_timers w'))])%list
            /\ w_log w2 = (w_log w' ++ [session_record payload proxy])%list)
         /\ (nullish response = true \/ nullish body = true ->
               w_timers w2 = w_timers w' /\ w_listeners w2 = w_listeners w'
               /\ w_log w2
                  = (w_log w' ++ [rejected_record "Session request failed" proxy])%list)
         /\ (nullish response = false -> nullish body = false -> nullish payload = true ->
               w_timers w2 = w_timers w' /\ w_listeners w2 = w_listeners w'
               /\ exists msg, w_log w2 = (w_log w' ++ [rejected_record msg proxy])%list).
Proof.
  intros Hagent.
  destruct (@connect_sends _ bot token proxy w agent Hagent) as (k & -> & Hk).
  exists (mkPending (List.length (w_sent w)) OCalled k). split; [reflexivity|].
  intros t response w'. cbn zeta. unfold deliver. cbn [pend_owner pend_k]. rewrite Hk.
  unfold connect_result, session_result.
  split; [|split].
  - intros Hresponse Hbody Hpayload.
    rewrite (@get_prop_field response "data" Hresponse).
    rewrite (@get_prop_field (field response "data") "data" Hbody).
    rewrite (@get_prop_field (field (field response "data") "data") "uid" Hpayload).
    repeat split.
  - intros [Hresponse|Hbody].
    + destruct response; try discriminate; repeat split.
    + destruct (nullish response) eqn:Hresponse.
      * destruct response; try discriminate; repeat split.
      * rewrite (@get_prop_field response "data" Hresponse).
        destruct (field response "data"); try discriminate; repeat split.
  - intros Hresponse Hbody Hpayload.
    rewrite (@get_prop_field response "data" Hresponse).
    rewrite (@get_prop_field (field response "data") "data" Hbody).
    destruct (field (field response "data") "data"); try discriminate;
      repeat split; eexists; reflexivity.
Qed.

End SessionExtra.

(** ** Further properties: one ping *)

Lemma hex_digit_is_hex (n : N) : is_hex_digit (hex_digit n) = true.
Proof.
  unfold hex_digit.
  destruct n as [|p]; [reflexivity|].
  do 4 (destruct p as [p|p|]; try reflexivity).
Qed.

Lemma toString_hex_digits (buffer : list byte) :
  forallb is_hex_digit (list_ascii_of_string (toString_hex buffer)) = true.
Proof.
  induction buffer as [|b buffer IH]; [reflexivity|].
  cbn [toString_hex list_ascii_of_string forallb].
  rewrite !hex_digit_is_hex, IH. reflexivity.
Qed.

Section PingExtra.
Context `{Platform}.

(** X4.  The proxy shown for a ping is never the proxy: the proxy of a
    loop is the line of the proxy file, a string, and the ping reads its
    [host] property.  For every line that is not empty the console shows
    "Proxy IP: undefined" and the [ip] of the log record is undefined; for
    the empty line both say "No proxy". *)
Theorem ping_proxy_info (job : Job) (w : World) (agent : option JsVal) :
  nullish (job_accountInfo job) = false ->
  agent_for (job_proxy job) = Returned agent ->
  exists p,
    w_pending (run ODetached (interval_callback job) w) = (w_pending w ++ [p])%list
    /\ forall t response w',
         let w2 := deliver t p (Resolved response) w' in
         exists uid info ip duration score record,
           w_console w2
           = (w_console w' ++ [LinePingSent uid; LineProxyUsed info duration score])%list
           /\ w_log w2 = (w_log w' ++ [record])%list
           /\ lookup_field "ip" (meta record) = ip
           /\ (job_proxy job <> EmptyString ->
                 info = "Proxy IP: undefined" /\ ip = JUndefined)
           /\ (job_proxy job = EmptyString ->
                 info = "No proxy" /\ ip = JStr "No proxy").
Proof.
  intros Hn Hagent.
  destruct (@callback_sends _ job w agent Hn Hagent) as (k & Hrun & _ & Hres).
  exists (mkPending (List.length (w_sent w)) ODetached k).
  split; [rewrite Hrun; reflexivity|].
  intros t response w'. cbn zeta. unfold deliver. cbn [pend_owner pend_k].
  rewrite Hres. do 6 eexists.
  split; [reflexivity|]. split; [reflexivity|].
  split; [reflexivity|].
  unfold proxyInfo_of.
  cbn [ping_sent_record meta lookup_field String.eqb Ascii.eqb Bool.eqb truthy]. split.
  - intros Hne. destruct (String.eqb_spec (job_proxy job) "") as [Heq|_];
      [contradiction|]. split; reflexivity.
  - intros Heq. rewrite Heq. split; reflexivity.
Qed.

(** X5.  When the session payload holds a truthy [uid] and a truthy
    [browser_id], a ping sends exactly these two as [id] and [browser_id]
    and uses no random byte: the identifiers the server gave are the same
    at every tick. *)
Theorem ping_ids_from_server (job : Job) (w : World) (agent : option JsVal) :
  nullish (job_accountInfo job) = false ->
  agent_for (job_proxy job) = Returned agent ->
  truthy (field (job_accountInfo job) "uid") = true ->
  truthy (field (job_accountInfo job) "browser_id") = true ->
  let w1 := run ODetached (interval_callback job) w in
  exists req,
    w_sent w1 = (w_sent w ++ [req])%list
    /\ field (req_data req) "id" = field (job_accountInfo job) "uid"
    /\ field (req_data req) "browser_id" = field (job_accountInfo job) "browser_id"
    /\ w_entropy w1 = w_entropy w.
Proof.
  intros Hn Hagent Huid Hbid. cbn zeta.
  destruct (@callback_sends _ job w agent Hn Hagent) as (k & -> & _).
  eexists. split; [reflexivity|].
  cbn. unfold ping_uid, ping_browserId, entropy_after_ids, entropy_after_uid.
  rewrite Huid, Hbid. repeat split.
Qed.

(** X6.  When the session payload holds neither a truthy [uid] nor a
    truthy [browser_id], a ping draws twice: [id] is made of the next
    eight random bytes and [browser_id] of the eight that follow, so the
    two are separate draws; sixteen bytes are consumed, and each
    identifier is sixteen lower-case hexadecimal digits. *)
Theorem ping_ids_both_random (job : Job) (w : World) (agent : option JsVal) :
  nullish (job_accountInfo job) = false ->
  agent_for (job_proxy job) = Returned agent ->
  truthy (field (job_accountInfo job) "uid") = false ->
  truthy (field (job_accountInfo job) "browser_id") = false ->
  let w1 := run ODetached (interval_callback job) w in
  let id := toString_hex (map (w_entropy w) (seq 0 8)) in
  let browser_id := toString_hex (map (w_entropy w) (seq 8 8)) in
  exists req,
    w_sent w1 = (w_sent w ++ [req])%list
    /\ field (req_data req) "id" = JStr id
    /\ field (req_data req) "browser_id" = JStr browser_id
    /\ (forall n, w_entropy w1 n = w_entropy w (16 + n)%nat)
    /\ String.length id = 16%nat /\ String.length browser_id = 16%nat
    /\ forallb is_hex_digit (list_ascii_of_string id) = true
    /\ forallb is_hex_digit (list_ascii_of_string browser_id) = true.
Proof.
  intros Hn Hagent Huid Hbid. cbn zeta.
  destruct (@callback_sends _ job w agent Hn Hagent) as (k & -> & _).
  eexists. split; [reflexivity|].
  cbn [ping_request req_data field lookup_field String.eqb Ascii.eqb Bool.eqb
       w_entropy awaiting set_pending set_sent set_entropy].
  unfold ping_uid, ping_browserId, entropy_after_ids, entropy_after_uid, fresh_id.
  rewrite Huid, Hbid.
  split; [reflexivity|]. split; [reflexivity|].
  split; [intros n; reflexivity|].
  rewrite !length_toString_hex, !length_map, !length_seq, !toString_hex_digits.
  repeat split.
Qed.

End PingExtra.

(** ** Further properties: reading the files *)

Lemma trimStart_eq (s : string) :
  trimStart s = match strip_space s with
                | Some rest => trimStart rest
                | None => s
                end.
Proof.
  destruct s as [|c1 rest1]; [reflexivity|]. cbn [trimStart strip_space].
  destruct (is_space c1); [reflexivity|].
  destruct rest1 as [|c2 rest2]; [reflexivity|].
  destruct (is_space2 c1 c2); [reflexivity|].
  destruct rest2 as [|c3 rest3]; [reflexivity|].
  destruct (is_space3 c1 c2 c3); reflexivity.
Qed.

Lemma strip_space_length (s rest : string) :
  strip_space s = Some rest -> (String.length rest < String.length s)%nat.
Proof.
  destruct s as [|c1 rest1]; [discriminate|]. cbn [strip_space].
  destruct (is_space c1); [intros [= <-]; simpl; lia|].
  destruct rest1 as [|c2 rest2]; [discriminate|].
  destruct (is_space2 c1 c2); [intros [= <-]; simpl; lia|].
  destruct rest2 as [|c3 rest3]; [discriminate|].
  destruct (is_space3 c1 c2 c3); [intros [= <-]; simpl; lia|discriminate].
Qed.

Lemma strip_space_app (s rest tail : string) :
  strip_space s = Some rest -> strip_space (s ++ tail) = Some (rest ++ tail).
Proof.
  destruct s as [|c1 rest1]; [discriminate|]. cbn [strip_space append].
  destruct (is_space c1); [intros [= <-]; reflexivity|].
  destruct rest1 as [|c2 rest2]; [discriminate|]. cbn [append].
  destruct (is_space2 c1 c2); [intros [= <-]; reflexivity|].
  destruct rest2 as [|c3 rest3]; [discriminate|]. cbn [append].
  destruct (is_space3 c1 c2 c3); [intros [= <-]; reflexivity|discriminate].
Qed.

(** Induction on the length of a string. *)
Lemma string_length_ind (P : string -> Prop) :
  (forall s, (forall r, (String.length r < String.length s)%nat -> P r) -> P s) ->
  forall s, P s.
Proof.
  intros Hstep s.
  assert (Hall : forall n r, (String.length r < n)%nat -> P r).
  { induction n as [|n IH]; intros r Hr; [lia|].
    apply Hstep. intros r' Hr'. apply IH. lia. }
  apply (Hall (S (String.length s))). lia.
Qed.

Lemma trimStart_no_leading_space (s : string) : starts_with_space (trimStart s) = false.
Proof.
  induction s as [s IH] using string_length_ind.
  rewrite trimStart_eq. destruct (strip_space s) as [rest|] eqn:Hs.
  - apply IH. eapply strip_space_length. exact Hs.
  - unfold starts_with_space. rewrite Hs. reflexivity.
Qed.

Lemma trimStart_fixed (s : string) : starts_with_space s = false -> trimStart s = s.
Proof.
  unfold starts_with_space. intros Hs. rewrite trimStart_eq.
  destruct (strip_space s); [discriminate|reflexivity].
Qed.

(** White space before a string does not count for [trimStart]. *)
Lemma trimStart_blank_app (a : string) :
  forall b, is_blank a = true -> trimStart (a ++ b) = trimStart b.
Proof.
  induction a as [a IH] using string_length_ind. intros b. unfold is_blank.
  rewrite (trimStart_eq a). destruct (strip_space a) as [rest|] eqn:Ha.
  - intros Hrest. rewrite (trimStart_eq (a ++ b)), (@strip_space_app a rest b Ha).
    apply IH; [eapply strip_space_length; exact Ha|exact Hrest].
  - destruct a; [reflexivity|discriminate].
Qed.

Lemma trimStart_blank (s : string) : is_blank s = true -> trimStart s = EmptyString.
Proof. unfold is_blank. destruct (trimStart s); [reflexivity|discriminate]. Qed.

(** What [trimEnd] drops is white space. *)
Lemma trimEnd_split (s : string) :
  exists dropped, s = trimEnd s ++ dropped /\ is_blank dropped = true.
Proof.
  induction s as [|c s IH]; [exists EmptyString; split; reflexivity|].
  cbn [trimEnd]. destruct (is_blank (String c s)) eqn:Hb.
  - exists (String c s). split; [reflexivity|exact Hb].
  - destruct IH as (dropped & Heq & Hd). exists dropped.
    split; [|exact Hd]. cbn [append]. rewrite <- Heq. reflexivity.
Qed.

Lemma trimEnd_not_blank (c : ascii) (s : string) :
  is_blank (String c s) = false -> is_blank (String c (trimEnd s)) = false.
Proof.
  intros Hb. destruct (is_blank (String c (trimEnd s))) eqn:Hkept; [|reflexivity].
  destruct (trimEnd_split s) as (dropped & Heq & Hd).
  pose proof (@trimStart_blank_app (String c (trimEnd s)) dropped Hkept) as Happ.
  cbn [append] in Happ. rewrite <- Heq in Happ.
  unfold is_blank in Hb, Hd. rewrite Happ in Hb.
  destruct (trimStart dropped); discriminate.
Qed.

Lemma trimEnd_no_trailing_space (s : string) : ends_with_space (trimEnd s) = false.
Proof.
  induction s as [|c s IH]; [reflexivity|].
  cbn [trimEnd]. destruct (is_blank (String c s)) eqn:Hb; [reflexivity|].
  cbn [ends_with_space]. rewrite IH, orb_false_r.
  unfold one_space.
  destruct (strip_space (String c (trimEnd s))) as [[|d rest]|] eqn:Hone;
    try reflexivity.
  pose proof (@trimEnd_not_blank c s Hb) as Hkept.
  unfold is_blank in Hkept. rewrite trimStart_eq, Hone in Hkept. discriminate.
Qed.

Lemma trimEnd_keeps_head (s : string) :
  starts_with_space s = false -> starts_with_space (trimEnd s) = false.
Proof.
  unfold starts_with_space. intros Hs.
  destruct (strip_space (trimEnd s)) as [rest|] eqn:Hkept; [|reflexivity].
  destruct (trimEnd_split s) as (dropped & Heq & _).
  rewrite Heq, (@strip_space_app (trimEnd s) rest dropped Hkept) in Hs. discriminate.
Qed.

Lemma trimEnd_idempotent (s : string) : trimEnd (trimEnd s) = trimEnd s.
Proof.
  induction s as [|c s IH]; [reflexivity|].
  cbn [trimEnd]. destruct (is_blank (String c s)) eqn:Hb; [reflexivity|].
  cbn [trimEnd]. rewrite (@trimEnd_not_blank c s Hb), IH. reflexivity.
Qed.

Lemma trim_idempotent (s : string) : trim (trim s) = trim s.
Proof.
  unfold trim.
  rewrite (@trimStart_fixed (trimEnd (trimStart s))).
  - apply trimEnd_idempotent.
  - apply trimEnd_keeps_head. apply trimStart_no_leading_space.
Qed.

(** X12.  [readLines] delivers as many lines as the file has, in order,
    each with the white space at its ends removed, where white space is
    what [String.prototype.trim] removes: the ASCII white space and line
    terminators, the no-break space, the byte order mark and the other
    Unicode spaces.  No line of the result starts or ends with a
    white-space character, and trimming it again changes nothing.  A line
    of white space only is kept, as the empty string (it is not dropped,
    so it counts when [main] tests for an empty file). *)
Theorem readLines_trims_every_line (filename : string) (lines : list string)
        (ow : Owner) (k : list string -> Prog unit) (w : World) :
  w_files w filename = Some lines ->
  exists result,
    run ow (bind (readLines filename) k) w = run ow (k result) w
    /\ List.length result = List.length lines
    /\ (forall i line, nth_error lines i = Some line ->
          nth_error result i = Some (trim line)
          /\ (is_blank line = true -> nth_error result i = Some EmptyString))
    /\ Forall (fun s => starts_with_space s = false /\ ends_with_space s = false
                        /\ trim s = s) result.
Proof.
  intros Hfile. exists (map trim lines).
  split; [unfold readLines; cbn [bind run]; rewrite Hfile; reflexivity|].
  split; [apply length_map|]. split.
  - intros i line Hi. split; [apply map_nth_error; exact Hi|].
    intros Hb. rewrite (map_nth_error trim i lines Hi).
    unfold trim. rewrite (@trimStart_blank line Hb). reflexivity.
  - apply Forall_forall. intros s Hs. apply in_map_iff in Hs.
    destruct Hs as (line & <- & _). repeat split.
    + unfold trim. apply trimEnd_keeps_head. apply trimStart_no_leading_space.
    + unfold trim. apply trimEnd_no_trailing_space.
    + apply trim_idempotent.
Qed.

(** ** Further properties: the whole run *)

Lemma called_count_app (l1 l2 : list Pending) :
  called_count (l1 ++ l2) = (called_count l1 + called_count l2)%nat.
Proof. unfold called_count. rewrite filter_app, length_app. reflexivity. Qed.

Lemma clear_listeners_S (n : nat) :
  clear_listeners (S n) = (clear_listeners n ++ [ClearTimer n])%list.
Proof. unfold clear_listeners. rewrite seq_S, map_app. reflexivity. Qed.

Lemma update_nth_app {A : Type} (f : A -> A) (pre : list A) (x : A) (post : list A) :
  update_nth (List.length pre) f (pre ++ x :: post)%list = (pre ++ f x :: post)%list.
Proof. induction pre as [|y pre IH]; simpl; [reflexivity|]. rewrite IH. reflexivity. Qed.

(** Clearing the timers 0 .. n-1 of a list of n timers, one after the
    other, deactivates them all. *)
Lemma deactivate_each (ts pre : list Timer) :
  fold_left (fun l i => update_nth i deactivate l)
            (seq (List.length pre) (List.length ts)) (pre ++ ts)%list
  = (pre ++ map deactivate ts)%list.
Proof.
  revert pre. induction ts as [|x ts IH]; intros pre; [reflexivity|].
  cbn [List.length seq fold_left map].
  rewrite update_nth_app.
  replace (pre ++ deactivate x :: ts)%list with ((pre ++ [deactivate x]) ++ ts)%list
    by (rewrite <- app_assoc; reflexivity).
  replace (S (List.length pre)) with (List.length (pre ++ [deactivate x]))
    by (rewrite length_app; simpl; lia).
  rewrite IH, <- app_assoc. reflexivity.
Qed.

Section RunExtra.
Context `{Platform}.

(** The listeners of the timers run one after the other and clear them;
    then the remaining listeners run. *)
Lemma run_listeners_clear (indices : list nat) (tail : list Handler) :
  forall w, w_exit w = None ->
    run_listeners (map ClearTimer indices ++ tail) w
    = run_listeners tail
        (set_timers (fold_left (fun l i => update_nth i deactivate l) indices (w_timers w)) w).
Proof.
  induction indices as [|i indices IH]; intros w Hex.
  - simpl. destruct w; reflexivity.
  - cbn [map app run_listeners handler_body clearInterval run settle w_exit set_timers].
    rewrite Hex. rewrite IH by exact Hex. cbn [fold_left w_timers set_timers].
    destruct w; reflexivity.
Qed.

(** What SIGINT does to a process of the script: every timer is cleared;
    the process exits with code 0 when [main] has installed its listener,
    goes on when only the listeners of the timers are installed, and
    takes the default action when no listener is. *)
Lemma sigint_effect (tok : string) (t : Z) (w : World) :
  Steady tok w -> w_exit w = None ->
  let cleared := set_timers (map deactivate (w_timers w)) (set_now t w) in
  step t Sigint w =
    match w_listeners w with
    | [] => set_exit (Some 130) (set_now t w)
    | _ :: _ =>
        match w_parked w with
        | Some _ => cleared
        | None => set_exit (Some 0) (add_console [LineShuttingDown] cleared)
        end
    end.
Proof.
  intros (_ & _ & _ & _ & _ & _ & Hphase) Hex. cbn zeta. unfold step. rewrite Hex.
  destruct (w_listeners w) as [|h hs] eqn:Hl; [reflexivity|].
  destruct Hphase as [(Hpark & Hls)|[(Hpark & _ & Hls)|(_ & _ & _ & Hls)]];
    [| |rewrite Hls in Hl; discriminate].
  - rewrite Hpark, Hls. unfold clear_listeners.
    rewrite <- (app_nil_r (map ClearTimer _)).
    rewrite run_listeners_clear by exact Hex.
    cbn [run_listeners w_timers set_now].
    pose proof (deactivate_each (w_timers w) []) as Hd.
    cbn [List.length app] in Hd. rewrite Hd. reflexivity.
  - rewrite Hpark, Hls. unfold clear_listeners.
    rewrite run_listeners_clear by exact Hex.
    cbn [w_timers set_now].
    pose proof (deactivate_each (w_timers w) []) as Hd.
    cbn [List.length app] in Hd. rewrite Hd.
    destruct w; reflexivity.
Qed.

Lemma LoopTimer_deactivate (tok : string) (tm : Timer) :
  LoopTimer tok tm -> LoopTimer tok (deactivate tm).
Proof. intros H0. exact H0. Qed.

Lemma LoopTimer_rearm (tok : string) (t : Z) (tm : Timer) :
  LoopTimer tok tm -> LoopTimer tok (rearm t tm).
Proof. intros H0. exact H0. Qed.

Lemma Forall_map_same {A : Type} (P : A -> Prop) (f : A -> A) (l : list A) :
  (forall x, P x -> P (f x)) -> Forall P l -> Forall P (map f l).
Proof. intros Hf Hl. induction Hl; simpl; constructor; auto. Qed.

(** The first turn of a timer callback of the run: the proxy
    configuration of its line can be built, so the ping is sent. *)
Lemma callback_of_loop (tok : string) (tm : Timer) (w : World) :
  LoopTimer tok tm ->
  exists agent k,
    agent_for (job_proxy (t_job tm)) = Returned agent
    /\ run ODetached (interval_callback (t_job tm)) w
       = awaiting ODetached (ping_request (t_job tm) (w_now w) (w_entropy w) agent) k
           (set_entropy (entropy_after_ids (job_accountInfo (t_job tm)) (w_entropy w)) w)
    /\ PingAwait (mkPending (List.length (w_sent w)) ODetached k).
Proof.
  intros ((_ & _ & _ & Hn) & Hatt & _). unfold attempted in Hatt.
  destruct (agent_for (job_proxy (t_job tm))) as [agent|e] eqn:Hagent; [|discriminate].
  destruct (@callback_sends _ (t_job tm) w agent Hn Hagent) as (k & Hrun & Hrej & Hres).
  exists agent, k. split; [reflexivity|]. split; [exact Hrun|].
  split; [reflexivity|]. intros o w'. cbn [pend_k]. destruct o as [response|e].
  - rewrite Hres. do 2 eexists. split; [reflexivity|].
    split; repeat constructor.
  - rewrite Hrej. do 2 eexists. split; [reflexivity|].
    split; repeat constructor.
Qed.

(** Every turn of the event loop keeps the process steady. *)
Lemma step_Steady (tok : string) (t : Z) (ev : Event) (w : World) :
  Steady tok w -> Steady tok (step t ev w).
Proof.
  intros Hst. destruct (w_exit w) as [c|] eqn:Hex.
  { unfold step. rewrite Hex. exact Hst. }
  destruct ev as [i o|i| |].
  - unfold step. rewrite Hex.
    destruct (take_pending i (w_pending w)) as [[p rest]|] eqn:Ht; [|exact Hst].
    apply take_pending_split in Ht. destruct Ht as (l1 & l2 & Hl & -> & _).
    destruct Hst as (H1 & H2 & H3 & H4 & H5 & H6 & H7).
    rewrite Hl in H1, H2, H7.
    apply Forall_app in H1. destruct H1 as [Hq1 Hq2].
    inversion Hq2 as [|x xs Hp Hq3]; subst x xs.
    assert (Hrest : Forall (fun q => SessionPending tok q \/ PingAwait q) (l1 ++ l2))
      by (apply Forall_app; auto).
    rewrite called_count_app in H2, H7. cbn [app] in H2, H7.
    change (p :: l2) with ([p] ++ l2)%list in H2, H7.
    rewrite called_count_app in H2, H7.
    destruct Hp as [(proxy & Hatt & Hown & Hk)|(Hown & Hk)].
    + assert (Hc : called_count [p] = 1%nat)
        by (unfold called_count, is_called; simpl; rewrite Hown; reflexivity).
      rewrite Hc in H2, H7.
      destruct H7 as [(Hpark & Hls)|[(_ & Hzero & _)|(_ & Hnil & _)]];
        [|lia|destruct l1; discriminate].
      rewrite Hown, Hk.
      destruct (connect_result o) as [a|e] eqn:Hres.
      * unfold Steady, connected. simpl.
        rewrite called_count_app, H2, length_app. simpl.
        repeat split; auto.
        -- lia.
        -- apply Forall_app. split; [exact H3|]. constructor; [|constructor].
           repeat split; try reflexivity; try exact Hatt.
           eapply connect_result_not_nullish. exact Hres.
        -- apply Forall_app. split; [exact H5|]. repeat constructor.
        -- apply Forall_app. split; [exact H6|]. repeat constructor.
        -- left. split; [exact Hpark|].
           rewrite Hls. replace (List.length (w_timers w) + 1)%nat
             with (S (List.length (w_timers w))) by lia.
           rewrite clear_listeners_S. reflexivity.
      * unfold Steady, rejected. simpl.
        rewrite called_count_app, H2.
        repeat split; auto.
        -- lia.
        -- apply Forall_app. split; [exact H5|]. repeat constructor.
        -- apply Forall_app. split; [exact H6|]. repeat constructor.
    + assert (Hc : called_count [p] = 0%nat)
        by (unfold called_count, is_called; simpl; rewrite Hown; reflexivity).
      rewrite Hc in H2, H7. rewrite Hown.
      destruct (Hk o (set_pending (l1 ++ l2) (set_now t w)))
        as (lines & records & -> & Hlines & Hrecords).
      unfold Steady. simpl. rewrite called_count_app.
      repeat split; auto.
      * apply Forall_app. auto.
      * apply Forall_app. split; [exact H6|].
        eapply Forall_impl; [|exact Hrecords]. intros r Hr. apply Hr.
      * destruct H7 as [Hw|[(Hpark & Hzero & Hls)|(_ & Hnil & _)]];
          [left; exact Hw| |destruct l1; discriminate].
        right. left. repeat split; auto; lia.
  - unfold step. rewrite Hex.
    destruct (nth_error (w_timers w) i) as [tm|] eqn:Hnth; [|exact Hst].
    destruct (t_active tm && (t_due tm <=? t)); [|exact Hst].
    destruct Hst as (H1 & H2 & H3 & H4 & H5 & H6 & H7).
    assert (Htm : LoopTimer tok tm).
    { rewrite Forall_forall in H3. apply H3. eapply nth_error_In. exact Hnth. }
    destruct (callback_of_loop (set_now t w) Htm) as (agent & k & _ & -> & Hping).
    unfold Steady, awaiting. simpl.
    rewrite called_count_app, length_update_nth.
    assert (Hc : called_count [mkPending (List.length (w_sent w)) ODetached k] = 0%nat)
      by reflexivity.
    rewrite Hc, Nat.add_0_r.
    repeat split; auto.
    + apply Forall_app. split; [exact H1|]. constructor; [|constructor].
      right. exact Hping.
    + apply Forall_update_nth; auto.
    + destruct H7 as [Hw|[Hw|(_ & _ & Hnil & _)]];
        [left; exact Hw|right; left; exact Hw|].
      rewrite Hnil in Hnth. destruct i; discriminate.
  - unfold step. rewrite Hex.
    destruct (w_parked w) as [[ow k]|] eqn:Hpark; [|exact Hst].
    destruct (w_unsettled w) eqn:Hun; [|exact Hst].
    destruct Hst as (H1 & H2 & H3 & H4 & H5 & H6 & H7).
    destruct H7 as [(Hk & Hls)|[(Hk & _)|(Hk & _)]]; try congruence.
    rewrite Hpark in Hk. injection Hk as -> ->.
    unfold Steady. simpl. rewrite Hls.
    repeat split; auto.
    right. left. repeat split; auto; lia.
  - rewrite (sigint_effect t Hst Hex). cbn zeta.
    destruct Hst as (H1 & H2 & H3 & H4 & H5 & H6 & H7).
    destruct (w_listeners w) as [|h hs] eqn:Hl.
    + unfold Steady. simpl. rewrite Hl. repeat split; auto.
    + destruct (w_parked w) as [pk|] eqn:Hpark.
      * unfold Steady. simpl. rewrite Hl, Hpark, length_map.
        repeat split; auto.
        -- apply Forall_map_same; auto.
        -- destruct H7 as [Hw|[(Hk & _)|(Hk & _)]];
             [left; exact Hw|discriminate|discriminate].
      * unfold Steady. simpl. rewrite Hl, Hpark, length_map.
        repeat split; auto.
        -- apply Forall_map_same; auto.
        -- apply Forall_app. split; [exact H5|]. repeat constructor.
        -- destruct H7 as [(Hk & _)|[Hw|(_ & _ & _ & Hnil)]];
             [congruence|right; left; exact Hw|congruence].
Qed.

Lemma steps_Steady (tok : string) (evs : list (Z * Event)) :
  forall w, Steady tok w -> Steady tok (steps evs w).
Proof.
  induction evs as [|[t ev] evs IH]; intros w Hst; simpl; auto.
  apply IH. apply step_Steady. exact Hst.
Qed.

(** Starting the [connect]s reports rejections only. *)
Lemma launch_keeps_reports (bot : Bot) (token : string) (proxies : list string) :
  forall w,
    Forall (fun l => is_outer_error l = false) (w_console w) ->
    Forall (fun r => is_ping_error r = false) (w_log w) ->
    Forall (fun l => is_outer_error l = false)
           (w_console (fold_left (launch bot token) proxies w))
    /\ Forall (fun r => is_ping_error r = false)
              (w_log (fold_left (launch bot token) proxies w)).
Proof.
  induction proxies as [|proxy proxies IH]; intros w Hc Hl; [split; assumption|].
  cbn [fold_left]. apply IH.
  - destruct (attempted proxy) eqn:Ha.
    + destruct (@launch_attempted _ bot token proxy w Ha) as (agent & p & _ & -> & _).
      exact Hc.
    + rewrite (@launch_not_attempted _ bot token proxy w Ha). simpl.
      apply Forall_app. split; [exact Hc|]. repeat constructor.
  - destruct (attempted proxy) eqn:Ha.
    + destruct (@launch_attempted _ bot token proxy w Ha) as (agent & p & _ & -> & _).
      exact Hl.
    + rewrite (@launch_not_attempted _ bot token proxy w Ha). simpl.
      apply Forall_app. split; [exact Hl|]. repeat constructor.
Qed.

Lemma sessions_called (bot : Bot) (tok : string) (proxies : list string) (ps : list Pending) :
  Forall2 (SessionAwait bot tok) proxies ps -> called_count ps = List.length ps.
Proof.
  induction 1 as [|proxy p proxies ps [Hown _] _ IH]; [reflexivity|].
  unfold called_count in *. simpl. unfold is_called at 1. rewrite Hown. simpl.
  rewrite IH. reflexivity.
Qed.

Lemma sessions_pending (tok : string) (proxies : list string) (ps : list Pending) :
  Forall (fun proxy => attempted proxy = true) proxies ->
  Forall2 (SessionAwait (new_Bot new_Config) tok) proxies ps ->
  Forall (fun p => SessionPending tok p \/ PingAwait p) ps.
Proof.
  intros Hall H2. induction H2 as [|proxy p proxies ps Hp _ IH]; constructor.
  - left. exists proxy. inversion Hall; subst. split; assumption.
  - apply IH. inversion Hall; assumption.
Qed.

(** The first turn of the script leaves the process steady, for the first
    token line, when both files can be read. *)
Lemma boot_Steady (t : Z) (entropy : nat -> byte) (files : string -> option (list string))
      (tokens proxies : list string) :
  files "token.txt" = Some tokens ->
  files "proxy.txt" = Some proxies ->
  Steady (nth 0 (map trim tokens) "") (run OMain script (initial t entropy files)).
Proof.
  intros Htok Hprox. destruct tokens as [|first others].
  { unfold script, main, readLines, initial.
    cbn [bind try_catch run console_log w_files set_console]. rewrite Htok.
    unfold Steady. simpl. repeat split; try solve [repeat constructor].
    all: right; right; repeat split. }
  destruct proxies as [|line lines].
  { unfold script, main, readLines, initial.
    cbn [bind try_catch run console_log w_files set_console]. rewrite Htok.
    cbn [bind try_catch run map List.length Nat.eqb w_files set_console]. rewrite Hprox.
    unfold Steady. simpl. repeat split; try solve [repeat constructor].
    all: right; right; repeat split. }
  rewrite (@script_boot _ t entropy files first others line lines Htok Hprox).
  cbn [map nth].
  set (w0 := add_console [LineHeader] (initial t entropy files)).
  pose proof (launch_all (new_Bot new_Config) (trim first) (trim line :: map trim lines) w0)
    as (ps & H1 & H2 & _ & _ & H5 & _ & H7 & H8 & H9 & H10).
  destruct (@launch_keeps_reports (new_Bot new_Config) (trim first)
              (trim line :: map trim lines) w0) as [Hc Hl];
    [repeat constructor|constructor|].
  cbn zeta in H1, H5, H7, H8, H9, H10.
  set (w' := fold_left (launch (new_Bot new_Config) (trim first))
                       (trim line :: map trim lines) w0) in *.
  change (w_pending w0) with (@nil Pending) in H1.
  change (w_timers w0) with (@nil Timer) in H5.
  change (w_parked w0) with (@None (Owner * Prog unit)) in H7.
  change (w_listeners w0) with (@nil Handler) in H8.
  change (w_unhandled w0) with (@nil Error) in H9.
  change (w_unsettled w0) with 0%nat in H10.
  cbn [app Nat.add] in H1, H10.
  pose proof (sessions_called H2) as Hcalled.
  assert (Hps : Forall (fun p => SessionPending (trim first) p \/ PingAwait p) ps).
  { eapply sessions_pending; [|exact H2].
    apply Forall_forall. intros x Hx. apply filter_In in Hx. apply Hx. }
  unfold finish_main.
  destruct (w_unsettled w') eqn:Hun; unfold Steady; simpl;
    rewrite ?H1, ?H5, ?H7, ?H8, ?H9, ?Hun, ?Hcalled; repeat split; auto.
  all: try solve [right; left; repeat split; auto; lia].
  all: try solve [left; split; reflexivity].
Qed.

(** Every state the process of the script reaches is steady. *)
Lemma reach_Steady (t : Z) (entropy : nat -> byte) (files : string -> option (list string))
      (tokens proxies : list string) (evs : list (Z * Event)) :
  files "token.txt" = Some tokens ->
  files "proxy.txt" = Some proxies ->
  Steady (nth 0 (map trim tokens) "")
         (steps evs (run OMain script (initial t entropy files))).
Proof.
  intros Htok Hprox. apply steps_Steady. eapply boot_Steady; eassumption.
Qed.

Lemma clear_listeners_no_shutdown (n : nat) :
  existsb is_shutdown (clear_listeners n) = false.
Proof.
  unfold clear_listeners. induction (seq 0 n) as [|i l IH]; [reflexivity|exact IH].
Qed.

(** A timer that was cleared does not fire. *)
Lemma cleared_timers_never_fire (t : Z) (i : nat) (w : World) :
  Forall (fun tm => t_active tm = false) (w_timers w) ->
  step t (TimerFires i) w = w.
Proof.
  intros Hall. unfold step. destruct (w_exit w); [reflexivity|].
  destruct (nth_error (w_timers w) i) as [tm|] eqn:Hnth; [|reflexivity].
  rewrite Forall_forall in Hall. rewrite (Hall tm (nth_error_In _ _ Hnth)). reflexivity.
Qed.

Lemma deactivate_all (ts : list Timer) :
  Forall (fun tm => t_active tm = false) (map deactivate ts).
Proof. induction ts; simpl; constructor; auto. Qed.

(** X7.  In every run of the script with readable files, a due tick of a
    live loop always sends its ping: the proxy configuration of the line
    was built when the session was fetched, so it is built again, and the
    failure branch of [sendPing] before the request is not taken.  The
    turn sends exactly one request, the ping of the loop at the time of
    the tick, leaves one more await in flight, and prints and logs
    nothing. *)
Theorem loop_tick_sends_ping (t0 : Z) (entropy : nat -> byte)
        (files : string -> option (list string)) (tokens proxies : list string)
        (evs : list (Z * Event)) (i : nat) (tm : Timer) (t : Z) :
  files "token.txt" = Some tokens ->
  files "proxy.txt" = Some proxies ->
  let w := steps evs (run OMain script (initial t0 entropy files)) in
  w_exit w = None -> nth_error (w_timers w) i = Some tm ->
  t_active tm = true -> t_due tm <= t ->
  let w1 := step t (TimerFires i) w in
  exists agent,
    agent_for (job_proxy (t_job tm)) = Returned agent
    /\ w_sent w1 = (w_sent w ++ [ping_request (t_job tm) t (w_entropy w) agent])%list
    /\ List.length (w_pending w1) = S (List.length (w_pending w))
    /\ w_console w1 = w_console w
    /\ w_log w1 = w_log w.
Proof.
  intros Htok Hprox w Hex Hnth Hact Hdue. cbn zeta.
  pose proof (@reach_Steady t0 entropy files tokens proxies evs Htok Hprox)
    as (_ & _ & H3 & _).
  fold w in H3.
  assert (Htm : LoopTimer (nth 0 (map trim tokens) "") tm).
  { rewrite Forall_forall in H3. apply H3. eapply nth_error_In. exact Hnth. }
  destruct (callback_of_loop (set_now t w) Htm) as (agent & k & Hagent & Hrun & _).
  exists agent. split; [exact Hagent|].
  unfold step. rewrite Hex, Hnth, Hact.
  apply Z.leb_le in Hdue. rewrite Hdue. cbn [andb].
  rewrite Hrun. unfold awaiting. simpl. rewrite length_app. simpl.
  repeat split; auto. lia.
Qed.

(** X10.  A loop pings at most once in 30 seconds: in every run, the
    timer that fired at time [t] is armed again for [t + 30000], the
    retry interval of [Config], and no tick of it is enabled before. *)
Theorem loop_waits_retry_interval (t0 : Z) (entropy : nat -> byte)
        (files : string -> option (list string)) (tokens proxies : list string)
        (evs : list (Z * Event)) (i : nat) (tm : Timer) (t : Z) :
  files "token.txt" = Some tokens ->
  files "proxy.txt" = Some proxies ->
  let w := steps evs (run OMain script (initial t0 entropy files)) in
  w_exit w = None -> nth_error (w_timers w) i = Some tm ->
  t_active tm = true -> t_due tm <= t ->
  let w1 := step t (TimerFires i) w in
  nth_error (w_timers w1) i = Some (mkTimer (t_job tm) 30000 (t + 30000) true)
  /\ forall t', t' < t + 30000 -> step t' (TimerFires i) w1 = w1.
Proof.
  intros Htok Hprox w Hex Hnth Hact Hdue. cbn zeta.
  pose proof (@reach_Steady t0 entropy files tokens proxies evs Htok Hprox)
    as (_ & _ & H3 & _).
  fold w in H3.
  assert (Htm : LoopTimer (nth 0 (map trim tokens) "") tm).
  { rewrite Forall_forall in H3. apply H3. eapply nth_error_In. exact Hnth. }
  destruct (callback_of_loop (set_now t w) Htm) as (agent & k & _ & Hrun & _).
  destruct Htm as (_ & _ & Hdelay).
  assert (Hi : nth_error (w_timers (step t (TimerFires i) w)) i
               = Some (mkTimer (t_job tm) 30000 (t + 30000) true)).
  { unfold step. rewrite Hex, Hnth, Hact.
    pose proof Hdue as Hdue'. apply Z.leb_le in Hdue'. rewrite Hdue'. cbn [andb].
    rewrite Hrun. unfold awaiting. simpl.
    rewrite (nth_error_update_nth (rearm t) _ _ Hnth).
    unfold rearm. rewrite Hdelay, Hact. reflexivity. }
  split; [exact Hi|].
  intros t' Ht'. unfold step at 1.
  destruct (w_exit (step t (TimerFires i) w)); [reflexivity|].
  rewrite Hi. cbn [t_active t_due andb].
  assert (Hlt : (t + 30000 <=? t') = false) by (apply Z.leb_gt; lia).
  rewrite Hlt. reflexivity.
Qed.

(** X8.  SIGINT stops every loop: in every run, whenever the signal
    arrives at a running process, every timer that exists is cleared,
    nothing is sent and no await is dropped; afterwards no tick of any
    timer is enabled, so the loops started so far never ping again. *)
Theorem sigint_stops_every_loop (t0 : Z) (entropy : nat -> byte)
        (files : string -> option (list string)) (tokens proxies : list string)
        (evs : list (Z * Event)) (t : Z) :
  files "token.txt" = Some tokens ->
  files "proxy.txt" = Some proxies ->
  let w := steps evs (run OMain script (initial t0 entropy files)) in
  w_exit w = None ->
  let w' := step t Sigint w in
  w_timers w' = map deactivate (w_timers w)
  /\ w_sent w' = w_sent w
  /\ w_pending w' = w_pending w
  /\ forall t' i, step t' (TimerFires i) w' = w'.
Proof.
  intros Htok Hprox w Hex. cbn zeta.
  pose proof (@reach_Steady t0 entropy files tokens proxies evs Htok Hprox) as Hst.
  fold w in Hst.
  assert (Hts : w_timers (step t Sigint w) = map deactivate (w_timers w)).
  { rewrite (sigint_effect t Hst Hex). cbn zeta.
    destruct Hst as (_ & _ & _ & _ & _ & _ & H7).
    destruct (w_listeners w) as [|h hs] eqn:Hl.
    - assert (Hnil : w_timers w = []).
      { destruct H7 as [(_ & Hls)|[(_ & _ & Hls)|(_ & _ & Hnil & _)]]; auto.
        - destruct (w_timers w); [reflexivity|].
          cbn [List.length] in Hls. rewrite clear_listeners_S in Hls.
          destruct (clear_listeners (List.length l)); discriminate.
        - destruct (clear_listeners (List.length (w_timers w))); discriminate. }
      change (w_timers (set_exit (Some 130) (set_now t w))) with (w_timers w).
      rewrite Hnil. reflexivity.
    - destruct (w_parked w); reflexivity. }
  split; [exact Hts|].
  split; [|split].
  - rewrite (sigint_effect t Hst Hex). cbn zeta.
    destruct (w_listeners w); [reflexivity|]. destruct (w_parked w); reflexivity.
  - rewrite (sigint_effect t Hst Hex). cbn zeta.
    destruct (w_listeners w); [reflexivity|]. destruct (w_parked w); reflexivity.
  - intros t' i. apply cleared_timers_never_fire. rewrite Hts. apply deactivate_all.
Qed.

(** X9.  What SIGINT does to the process depends on how far [main] is.
    Once [main] has installed its own listener the process prints the
    shutdown line and exits with code 0.  Before that, when at least one
    loop has been started, the signal only clears the timers and the
    process goes on; when no loop has been started there is no listener
    and the signal takes its default action.  [main] installs its listener
    only when no session request is unanswered. *)
Theorem sigint_exit_code (t0 : Z) (entropy : nat -> byte)
        (files : string -> option (list string)) (tokens proxies : list string)
        (evs : list (Z * Event)) (t : Z) :
  files "token.txt" = Some tokens ->
  files "proxy.txt" = Some proxies ->
  let w := steps evs (run OMain script (initial t0 entropy files)) in
  w_exit w = None ->
  let w' := step t Sigint w in
  let graceful := existsb is_shutdown (w_listeners w) in
  w_exit w' = (if graceful then Some 0
               else match w_timers w with
                    | [] => Some 130
                    | _ :: _ => None
                    end)
  /\ w_console w' = (w_console w ++ (if graceful then [LineShuttingDown] else []))%list
  /\ ((0 < called_count (w_pending w))%nat -> graceful = false).
Proof.
  intros Htok Hprox w Hex. cbn zeta.
  pose proof (@reach_Steady t0 entropy files tokens proxies evs Htok Hprox) as Hst.
  fold w in Hst.
  rewrite (sigint_effect t Hst Hex). cbn zeta.
  destruct Hst as (_ & _ & _ & _ & _ & _ & H7).
  destruct H7 as [(Hpark & Hls)|[(Hpark & Hzero & Hls)|(Hpark & _ & Hnil & Hls)]].
  - rewrite Hls, Hpark, clear_listeners_no_shutdown.
    destruct (w_timers w) as [|tm ts]; cbn [List.length].
    + simpl. rewrite app_nil_r. auto.
    + rewrite clear_listeners_S.
      destruct (clear_listeners (List.length ts)); simpl; rewrite app_nil_r; auto.
  - rewrite Hls, Hpark, existsb_app. cbn [existsb is_shutdown]. rewrite !orb_true_r.
    destruct (clear_listeners (List.length (w_timers w))); simpl;
      repeat split; auto; lia.
  - rewrite Hls, Hnil. simpl. rewrite app_nil_r. auto.
Qed.

(** X11.  In every run of the script with readable files, at every
    moment: no promise was rejected without a handler, the handler that
    [main] attaches to every [connect] has printed nothing, and the
    handler around [sendPing] in the timer callback has printed and
    logged nothing.  Both are dead code in every run. *)
Theorem outer_handlers_never_run (t0 : Z) (entropy : nat -> byte)
        (files : string -> option (list string)) (tokens proxies : list string)
        (evs : list (Z * Event)) :
  files "token.txt" = Some tokens ->
  files "proxy.txt" = Some proxies ->
  let w := steps evs (run OMain script (initial t0 entropy files)) in
  w_unhandled w = []
  /\ Forall (fun l => is_task_error l = false /\ is_ping_send_error l = false) (w_console w)
  /\ Forall (fun r => is_ping_error r = false) (w_log w).
Proof.
  intros Htok Hprox. cbn zeta.
  pose proof (@reach_Steady t0 entropy files tokens proxies evs Htok Hprox)
    as (_ & _ & _ & H4 & H5 & H6 & _).
  split; [exact H4|]. split; [|exact H6].
  eapply Forall_impl; [|exact H5]. cbn beta. intros l Hl.
  unfold is_outer_error in Hl. apply orb_false_iff in Hl. exact Hl.
Qed.

(** X13.  [main] installs its SIGINT listener in the turn after the last
    session request was answered: when [main] waits for its [connect]s
    and none of their requests is unanswered, the next turn of [main]
    adds the shutdown listener after the listeners of the timers and
    sends nothing; from then on SIGINT ends the process with code 0. *)
Theorem shutdown_listener_installed (t0 : Z) (entropy : nat -> byte)
        (files : string -> option (list string)) (tokens proxies : list string)
        (evs : list (Z * Event)) (t : Z) :
  files "token.txt" = Some tokens ->
  files "proxy.txt" = Some proxies ->
  let w := steps evs (run OMain script (initial t0 entropy files)) in
  w_exit w = None -> w_parked w <> None -> called_count (w_pending w) = 0%nat ->
  let w' := step t AllSettled w in
  w_listeners w' = (w_listeners w ++ [ShutDown])%list
  /\ w_parked w' = None
  /\ w_sent w' = w_sent w
  /\ forall t', w_exit (step t' Sigint w') = Some 0.
Proof.
  intros Htok Hprox w Hex Hpark Hzero. cbn zeta.
  pose proof (@reach_Steady t0 entropy files tokens proxies evs Htok Hprox) as Hst.
  fold w in Hst.
  pose proof (step_Steady t AllSettled Hst) as Hst'.
  destruct Hst as (_ & H2 & _ & _ & _ & _ & H7).
  destruct H7 as [(Hk & Hls)|[(Hk & _)|(Hk & _)]]; try contradiction.
  rewrite Hzero in H2.
  assert (Hstep : step t AllSettled w
                  = set_listeners (w_listeners w ++ [ShutDown])%list
                      (set_parked None (set_now t w))).
  { unfold step. rewrite Hex, Hk, H2. reflexivity. }
  rewrite Hstep in Hst' |- *.
  repeat split.
  intros t'. rewrite (sigint_effect t' Hst' Hex). cbn zeta.
  cbn [w_listeners set_listeners w_parked set_parked set_now].
  destruct (w_listeners w); reflexivity.
Qed.

Lemma rejected_proxies_app (l1 l2 : list LogRecord) :
  rejected_proxies (l1 ++ l2) = (rejected_proxies l1 ++ rejected_proxies l2)%list.
Proof. unfold rejected_proxies. apply flat_map_app. Qed.

Lemma rejected_proxies_none (records : list LogRecord) :
  Forall (fun r => is_ping_error r = false /\ rejected_proxy r = None) records ->
  rejected_proxies records = [].
Proof.
  induction 1 as [|r records [_ Hr] _ IH]; [reflexivity|].
  unfold rejected_proxies in *. simpl. rewrite Hr, IH. reflexivity.
Qed.

Lemma loop_proxies_app (l1 l2 : list Timer) :
  loop_proxies (l1 ++ l2) = (loop_proxies l1 ++ loop_proxies l2)%list.
Proof. unfold loop_proxies. apply map_app. Qed.

Lemma loop_proxies_update_nth (f : Timer -> Timer) (i : nat) (l : list Timer) :
  (forall tm, t_job (f tm) = t_job tm) ->
  loop_proxies (update_nth i f l) = loop_proxies l.
Proof.
  intros Hf. revert i. induction l as [|tm l IH]; intros [|i]; simpl;
    try reflexivity.
  - rewrite Hf. reflexivity.
  - rewrite IH. reflexivity.
Qed.

Lemma loop_proxies_map (f : Timer -> Timer) (l : list Timer) :
  (forall tm, t_job (f tm) = t_job tm) -> loop_proxies (map f l) = loop_proxies l.
Proof.
  intros Hf. induction l as [|tm l IH]; simpl; [reflexivity|].
  rewrite Hf, IH. reflexivity.
Qed.

(** A line that waited gets its loop, or is rejected: the three lists
    together hold the same lines. *)
Lemma ledger_started (T w1 w2 R : list string) (q : string) :
  Permutation (T ++ (w1 ++ q :: w2) ++ R) ((T ++ [q]) ++ (w1 ++ w2) ++ R).
Proof.
  transitivity (q :: T ++ (w1 ++ w2) ++ R).
  - rewrite <- !app_assoc. rewrite (app_assoc T w1).
    rewrite <- app_comm_cons. symmetry.
    rewrite (app_assoc T w1 (w2 ++ R)). apply Permutation_middle.
  - rewrite <- (app_assoc T [q]). cbn [app]. apply Permutation_middle.
Qed.

Lemma ledger_rejected (T w1 w2 R : list string) (q : string) :
  Permutation (T ++ (w1 ++ q :: w2) ++ R) (T ++ (w1 ++ w2) ++ R ++ [q]).
Proof.
  transitivity (q :: T ++ (w1 ++ w2) ++ R).
  - rewrite <- !app_assoc. rewrite (app_assoc T w1).
    rewrite <- app_comm_cons. symmetry.
    rewrite (app_assoc T w1 (w2 ++ R)). apply Permutation_middle.
  - rewrite !app_assoc. apply Permutation_cons_append.
Qed.

Lemma ledger_waits (P W R : list string) (q : string) :
  Permutation ((q :: P) ++ W ++ R) (P ++ (W ++ [q]) ++ R).
Proof.
  cbn [app]. rewrite <- (app_assoc W [q] R). cbn [app].
  rewrite !app_assoc. apply Permutation_middle.
Qed.

Lemma ledger_refused (P W R : list string) (q : string) :
  Permutation ((q :: P) ++ W ++ R) (P ++ W ++ R ++ [q]).
Proof. cbn [app]. rewrite !app_assoc. apply Permutation_cons_append. Qed.

Lemma filter_called_session (tok proxy : string) (p : Pending) :
  SessionAwait (new_Bot new_Config) tok proxy p -> is_called p = true.
Proof. intros [Hown _]. unfold is_called. rewrite Hown. reflexivity. Qed.

Lemma filter_called_ping (p : Pending) : PingAwait p -> is_called p = false.
Proof. intros [Hown _]. unfold is_called. rewrite Hown. reflexivity. Qed.

(** Every turn of the event loop keeps the ledger of the proxy lines. *)
Lemma step_Ledger (tok : string) (lines : list string) (t : Z) (ev : Event) (w : World) :
  Steady tok w -> Ledger tok lines w -> Ledger tok lines (step t ev w).
Proof.
  intros Hst Hled. destruct (w_exit w) as [c|] eqn:Hex.
  { unfold step. rewrite Hex. exact Hled. }
  destruct Hled as (waiting & Hwait & Hperm).
  destruct ev as [i o|i| |].
  - unfold step. rewrite Hex.
    destruct (take_pending i (w_pending w)) as [[p rest]|] eqn:Ht;
      [|exists waiting; split; assumption].
    apply take_pending_split in Ht. destruct Ht as (l1 & l2 & Hl & -> & _).
    destruct Hst as (H1 & _).
    rewrite Hl in H1, Hwait.
    apply Forall_app in H1. destruct H1 as [_ Hq2].
    inversion Hq2 as [|x xs Hp _]; subst x xs.
    rewrite filter_app in Hwait. cbn [filter] in Hwait.
    destruct Hp as [(proxy & _ & Hsession)|Hping].
    + rewrite (filter_called_session Hsession) in Hwait.
      apply Forall2_app_inv_r in Hwait.
      destruct Hwait as (w1 & w2' & Hw1 & Hw2 & ->).
      inversion Hw2 as [|q p' w2 ps' Hq Hw2'']; subst.
      destruct Hq as [Hown Hk]. rewrite Hown, Hk.
      destruct (connect_result o) as [a|e].
      * exists (w1 ++ w2)%list. unfold connected. simpl.
        rewrite filter_app, loop_proxies_app, rejected_proxies_app.
        cbn [loop_proxies map loop_timer t_job job_proxy].
        change (rejected_proxies [session_record a q]) with (@nil string).
        rewrite app_nil_r.
        split; [apply Forall2_app; assumption|].
        etransitivity; [exact Hperm|]. apply ledger_started.
      * exists (w1 ++ w2)%list. unfold rejected. simpl.
        rewrite filter_app, rejected_proxies_app.
        change (rejected_proxies [rejected_record (message e) q]) with [q].
        split; [apply Forall2_app; assumption|].
        etransitivity; [exact Hperm|]. apply ledger_rejected.
    + rewrite (filter_called_ping Hping) in Hwait.
      destruct Hping as [Hown Hk]. rewrite Hown.
      destruct (Hk o (set_pending (l1 ++ l2) (set_now t w)))
        as (lines' & records & -> & _ & Hrecords).
      exists waiting. simpl.
      rewrite filter_app, rejected_proxies_app, (rejected_proxies_none Hrecords), app_nil_r.
      split; assumption.
  - unfold step. rewrite Hex.
    destruct (nth_error (w_timers w) i) as [tm|] eqn:Hnth;
      [|exists waiting; split; assumption].
    destruct (t_active tm && (t_due tm <=? t)); [|exists waiting; split; assumption].
    destruct Hst as (_ & _ & H3 & _).
    assert (Htm : LoopTimer tok tm).
    { rewrite Forall_forall in H3. apply H3. eapply nth_error_In. exact Hnth. }
    destruct (callback_of_loop (set_now t w) Htm) as (agent & k & _ & -> & _).
    exists waiting. unfold awaiting. simpl.
    rewrite filter_app. cbn [filter is_called pend_owner]. rewrite app_nil_r.
    rewrite loop_proxies_update_nth by reflexivity.
    split; assumption.
  - unfold step. rewrite Hex.
    destruct (w_parked w) as [[ow k]|] eqn:Hpark; [|exists waiting; split; assumption].
    destruct (w_unsettled w) eqn:Hun; [|exists waiting; split; assumption].
    destruct Hst as (_ & _ & _ & _ & _ & _ & H7).
    destruct H7 as [(Hk & _)|[(Hk & _)|(Hk & _)]]; try congruence.
    rewrite Hpark in Hk. injection Hk as -> ->.
    exists waiting. split; assumption.
  - rewrite (sigint_effect t Hst Hex). cbn zeta.
    destruct (w_listeners w); [exists waiting; split; assumption|].
    destruct (w_parked w); exists waiting; simpl;
      rewrite loop_proxies_map by reflexivity; split; assumption.
Qed.

Lemma steps_Ledger (tok : string) (lines : list string) (evs : list (Z * Event)) :
  forall w, Steady tok w -> Ledger tok lines w -> Ledger tok lines (steps evs w).
Proof.
  induction evs as [|[t ev] evs IH]; intros w Hst Hled; simpl; auto.
  apply IH; [apply step_Steady; exact Hst|apply step_Ledger; assumption].
Qed.

(** Starting the [connect]s: every line waits for its session answer or
    is rejected at once. *)
Lemma launch_ledger (tok : string) (proxies : list string) :
  forall w waiting0,
    Forall2 (SessionAwait (new_Bot new_Config) tok) waiting0
            (filter is_called (w_pending w)) ->
    exists waiting,
      Forall2 (SessionAwait (new_Bot new_Config) tok) waiting
              (filter is_called
                 (w_pending (fold_left (launch (new_Bot new_Config) tok) proxies w)))
      /\ w_timers (fold_left (launch (new_Bot new_Config) tok) proxies w) = w_timers w
      /\ Permutation (proxies ++ waiting0 ++ rejected_proxies (w_log w))
           (waiting
              ++ rejected_proxies
                   (w_log (fold_left (launch (new_Bot new_Config) tok) proxies w))).
Proof.
  induction proxies as [|proxy proxies IH]; intros w waiting0 Hwait.
  - exists waiting0. split; [exact Hwait|]. split; reflexivity.
  - cbn [fold_left]. destruct (attempted proxy) eqn:Ha.
    + destruct (@launch_attempted _ (new_Bot new_Config) tok proxy w Ha)
        as (agent & p & _ & Hl & _ & Hp).
      destruct (IH (launch (new_Bot new_Config) tok w proxy) (waiting0 ++ [proxy])%list)
        as (waiting & H1 & H2 & H3).
      { rewrite Hl. simpl. rewrite filter_app. cbn [filter].
        rewrite (filter_called_session Hp). apply Forall2_app; [exact Hwait|].
        constructor; [exact Hp|constructor]. }
      exists waiting. split; [exact H1|]. split; [rewrite H2, Hl; reflexivity|].
      etransitivity; [|exact H3]. rewrite Hl. simpl.
      apply ledger_waits.
    + destruct (IH (launch (new_Bot new_Config) tok w proxy) waiting0)
        as (waiting & H1 & H2 & H3).
      { rewrite (@launch_not_attempted _ (new_Bot new_Config) tok proxy w Ha). exact Hwait. }
      exists waiting. split; [exact H1|].
      split; [rewrite H2, (@launch_not_attempted _ (new_Bot new_Config) tok proxy w Ha);
              reflexivity|].
      etransitivity; [|exact H3].
      rewrite (@launch_not_attempted _ (new_Bot new_Config) tok proxy w Ha). simpl.
      rewrite rejected_proxies_app.
      change (rejected_proxies [rejected_record "Session request failed" proxy])
        with [proxy].
      apply ledger_refused.
Qed.

Lemma boot_Ledger (t : Z) (entropy : nat -> byte) (files : string -> option (list string))
      (first : string) (others proxies : list string) :
  files "token.txt" = Some (first :: others) ->
  files "proxy.txt" = Some proxies ->
  Ledger (trim first) (map trim proxies) (run OMain script (initial t entropy files)).
Proof.
  intros Htok Hprox. destruct proxies as [|line lines].
  { unfold script, main, readLines, initial.
    cbn [bind try_catch run console_log w_files set_console]. rewrite Htok.
    cbn [bind try_catch run map List.length Nat.eqb w_files set_console]. rewrite Hprox.
    exists []. simpl. split; constructor. }
  rewrite (@script_boot _ t entropy files first others line lines Htok Hprox).
  set (w0 := add_console [LineHeader] (initial t entropy files)).
  destruct (@launch_ledger (trim first) (map trim (line :: lines)) w0 [])
    as (waiting & H1 & H2 & H3); [constructor|].
  change (rejected_proxies (w_log w0)) with (@nil string) in H3.
  change (w_timers w0) with (@nil Timer) in H2.
  rewrite !app_nil_r in H3.
  set (w' := fold_left (launch (new_Bot new_Config) (trim first))
                       (map trim (line :: lines)) w0) in *.
  exists waiting. unfold finish_main.
  destruct (w_unsettled w'); (split; [exact H1|]).
  - change (Permutation (map trim (line :: lines))
              (loop_proxies (w_timers w') ++ waiting ++ rejected_proxies (w_log w'))).
    rewrite H2. exact H3.
  - change (Permutation (map trim (line :: lines))
              (loop_proxies (w_timers w') ++ waiting ++ rejected_proxies (w_log w'))).
    rewrite H2. exact H3.
Qed.

Lemma NoDup_app_disjoint {A : Type} (l1 l2 : list A) :
  NoDup (l1 ++ l2) -> NoDup l1 /\ forall a, In a l2 -> ~ In a l1.
Proof.
  induction l1 as [|x l1 IH]; intros Hnd; [split; [constructor|intros a _ []]|].
  inversion Hnd as [|y l Hx Hnd']; subst.
  destruct (IH Hnd') as [H1 H2]. split.
  - constructor; [|exact H1]. intros Hin. apply Hx. apply in_or_app. left. exact Hin.
  - intros a Ha [<-|Hin]; [apply Hx; apply in_or_app; right; exact Ha|].
    exact (H2 a Ha Hin).
Qed.

(** X14.  Every proxy line has one fate.  At every moment of every run,
    the lines of the proxy file are, counted with their repetitions,
    exactly: the lines of the loops that were started, the lines whose
    session request is unanswered, and the lines that were rejected.  So
    [connect] starts at most one loop for a line, and a line that was
    rejected, because no request could be built or because its session
    fetch failed, never gets a loop: nothing is retried.  When no line
    occurs twice, no two timers hold the same line and no line that was
    rejected or still waits has a timer. *)
Theorem one_loop_per_session (t0 : Z) (entropy : nat -> byte)
        (files : string -> option (list string)) (first : string)
        (others proxies : list string) (evs : list (Z * Event)) :
  files "token.txt" = Some (first :: others) ->
  files "proxy.txt" = Some proxies ->
  let w := steps evs (run OMain script (initial t0 entropy files)) in
  exists waiting,
    Forall2 (SessionAwait (new_Bot new_Config) (trim first)) waiting
            (filter is_called (w_pending w))
    /\ Permutation (map trim proxies)
         (loop_proxies (w_timers w) ++ waiting ++ rejected_proxies (w_log w))
    /\ (NoDup (map trim proxies) ->
          NoDup (loop_proxies (w_timers w))
          /\ forall proxy,
               In proxy waiting \/ In proxy (rejected_proxies (w_log w)) ->
               ~ In proxy (loop_proxies (w_timers w))).
Proof.
  intros Htok Hprox. cbn zeta.
  destruct (@steps_Ledger (trim first) (map trim proxies) evs
              (run OMain script (initial t0 entropy files)))
    as (waiting & Hwait & Hperm).
  { exact (@boot_Steady t0 entropy files (first :: others) proxies Htok Hprox). }
  { exact (@boot_Ledger t0 entropy files first others proxies Htok Hprox). }
  exists waiting. split; [exact Hwait|]. split; [exact Hperm|].
  intros Hnd. apply (Permutation_NoDup Hperm) in Hnd.
  destruct (NoDup_app_disjoint _ _ Hnd) as [Hloops Hdisjoint].
  split; [exact Hloops|].
  intros proxy Hin. apply Hdisjoint. apply in_or_app. exact Hin.
Qed.

End RunExtra.

(** ** The sample run: instances of the further properties *)

(** The answer to the first session request of the sample run starts the
    loop of the first proxy line, due at 31500 ms. *)
Lemma connect_starts_loop_witness :
  let w0 := initial 1000 Sample.entropy Sample.files in
  let response := JObj [("data", JObj [("data", Sample.account)])] in
  @agent_for NodeUrl.platform "http://1.2.3.4:8080" = Returned (Some Sample.http_agent)
  /\ nullish response = false
  /\ nullish (field response "data") = false
  /\ nullish (field (field response "data") "data") = false
  /\ exists p,
       w_pending (@run OCalled (@connect_task NodeUrl.platform (new_Bot new_Config)
                                  "tok123" "http://1.2.3.4:8080") w0)
         = (w_pending w0 ++ [p])%list
       /\ w_timers (deliver 1500 p (Resolved response) w0)
          = (w_timers w0 ++ [mkTimer Sample.job 30000 31500 true])%list.
Proof.
  cbn zeta.
  split; [reflexivity|]. split; [reflexivity|]. split; [reflexivity|].
  split; [reflexivity|].
  destruct (@connect_starts_loop NodeUrl.platform (new_Bot new_Config) "tok123"
              "http://1.2.3.4:8080" (initial 1000 Sample.entropy Sample.files)
              (Some Sample.http_agent) eq_refl) as (p & Hp & Hk).
  exists p. split; [exact Hp|].
  destruct (Hk 1500 (JObj [("data", JObj [("data", Sample.account)])])
               (initial 1000 Sample.entropy Sample.files)) as (Hstart & _).
  exact (proj1 (Hstart eq_refl eq_refl eq_refl)).
Defined.

(** The first ping of the sample run goes through the proxy
    http://1.2.3.4:8080 and shows "Proxy IP: undefined". *)
Lemma ping_proxy_info_witness :
  nullish (job_accountInfo Sample.job) = false
  /\ @agent_for NodeUrl.platform (job_proxy Sample.job) = Returned (Some Sample.http_agent)
  /\ job_proxy Sample.job <> EmptyString
  /\ exists p,
       w_pending (@run ODetached (@interval_callback NodeUrl.platform Sample.job)
                       (set_now 31500 Sample.in_session))
         = (w_pending (set_now 31500 Sample.in_session) ++ [p])%list
       /\ exists uid duration score,
            w_console (deliver 34500 p (Resolved JNull) Sample.in_session)
            = (w_console Sample.in_session
                 ++ [LinePingSent uid;
                     LineProxyUsed "Proxy IP: undefined" duration score])%list.
Proof.
  split; [reflexivity|]. split; [reflexivity|]. split; [discriminate|].
  destruct (@ping_proxy_info NodeUrl.platform Sample.job (set_now 31500 Sample.in_session)
              (Some Sample.http_agent) eq_refl eq_refl) as (p & Hp & Hk).
  exists p. split; [exact Hp|].
  destruct (Hk 34500 JNull Sample.in_session)
    as (uid & info & ip & duration & score & record & Hcons & _ & _ & Hne & _).
  destruct (Hne ltac:(discriminate)) as [Hinfo _].
  exists uid, duration, score. rewrite <- Hinfo. exact Hcons.
Defined.

(** A loop whose payload holds [uid] u1 and [browser_id] b1 pings with
    these two. *)
Lemma ping_ids_from_server_witness :
  nullish (job_accountInfo SamplePing.job_with_ids) = false
  /\ @agent_for NodeUrl.platform (job_proxy SamplePing.job_with_ids)
     = Returned (Some Sample.http_agent)
  /\ truthy (field (job_accountInfo SamplePing.job_with_ids) "uid") = true
  /\ truthy (field (job_accountInfo SamplePing.job_with_ids) "browser_id") = true
  /\ exists req,
       w_sent (@run ODetached (@interval_callback NodeUrl.platform SamplePing.job_with_ids)
                    (initial 31500 Sample.entropy Sample.files))
         = (w_sent (initial 31500 Sample.entropy Sample.files) ++ [req])%list
       /\ field (req_data req) "id" = JStr "u1"
       /\ field (req_data req) "browser_id" = JStr "b1".
Proof.
  split; [reflexivity|]. split; [reflexivity|]. split; [reflexivity|].
  split; [reflexivity|].
  destruct (@ping_ids_from_server NodeUrl.platform SamplePing.job_with_ids
              (initial 31500 Sample.entropy Sample.files) (Some Sample.http_agent)
              eq_refl eq_refl eq_refl eq_refl) as (req & Hsent & Hid & Hbid & _).
  exists req. split; [exact Hsent|]. split; [exact Hid|exact Hbid].
Defined.

(** A loop whose payload holds no identifier pings with the first eight
    random bytes as [id] and the next eight as [browser_id]. *)
Lemma ping_ids_both_random_witness :
  nullish (job_accountInfo SamplePing.job_anonymous) = false
  /\ @agent_for NodeUrl.platform (job_proxy SamplePing.job_anonymous)
     = Returned (Some Sample.http_agent)
  /\ truthy (field (job_accountInfo SamplePing.job_anonymous) "uid") = false
  /\ truthy (field (job_accountInfo SamplePing.job_anonymous) "browser_id") = false
  /\ exists req,
       w_sent (@run ODetached (@interval_callback NodeUrl.platform SamplePing.job_anonymous)
                    (initial 31500 Sample.entropy Sample.files))
         = (w_sent (initial 31500 Sample.entropy Sample.files) ++ [req])%list
       /\ field (req_data req) "id" = JStr "0001020304050607"
       /\ field (req_data req) "browser_id" = JStr "08090a0b0c0d0e0f".
Proof.
  split; [reflexivity|]. split; [reflexivity|]. split; [reflexivity|].
  split; [reflexivity|].
  destruct (@ping_ids_both_random NodeUrl.platform SamplePing.job_anonymous
              (initial 31500 Sample.entropy Sample.files) (Some Sample.http_agent)
              eq_refl eq_refl eq_refl eq_refl) as (req & Hsent & Hid & Hbid & _).
  exists req. split; [exact Hsent|]. split; [exact Hid|exact Hbid].
Defined.

(** A token file whose first line is a token between a byte order mark
    and a no-break space, and whose second line is blank, yields the
    token and the empty string: a continuation that prints the lines it
    gets, joined, prints these two. *)
Lemma readLines_trims_every_line_witness :
  let marked := String "239" (String "187" (String "191" "tok123"))
                ++ String "194" (String "160" "") in
  let w := initial 1000 Sample.entropy (Sample.files_of [marked; "   "] []) in
  let k := fun lines : list string => console_log (LineRejected (String.concat "|" lines)) in
  w_files w "token.txt" = Some [marked; "   "]
  /\ is_blank "   " = true
  /\ w_console (run OMain (bind (readLines "token.txt") k) w) = [LineRejected "tok123|"].
Proof.
  cbn zeta. split; [reflexivity|]. split; [reflexivity|].
  destruct (@readLines_trims_every_line "token.txt"
              [String "239" (String "187" (String "191" "tok123"))
               ++ String "194" (String "160" ""); "   "]
              OMain
              (fun lines : list string =>
                 console_log (LineRejected (String.concat "|" lines)))
              (initial 1000 Sample.entropy
                 (Sample.files_of
                    [String "239" (String "187" (String "191" "tok123"))
                     ++ String "194" (String "160" ""); "   "] []))
              eq_refl) as (result & Hrun & Hlen & Hnth & _).
  rewrite Hrun.
  destruct (Hnth 0%nat _ eq_refl) as [H0 _].
  destruct (Hnth 1%nat "   " eq_refl) as [_ H1]. specialize (H1 eq_refl).
  destruct result as [|r0 [|r1 [|r2 result]]]; try discriminate Hlen.
  injection H0 as ->. injection H1 as ->. reflexivity.
Defined.

(** The tick of the sample run at 31500 ms sends the ping of the first
    loop and prints nothing. *)
Lemma loop_tick_sends_ping_witness :
  let w := @steps NodeUrl.platform [(1500, Response 0 (Sample.session_ok Sample.account))]
             (@run OMain (@script NodeUrl.platform)
                   (initial 1000 Sample.entropy Sample.files)) in
  Sample.files "token.txt" = Some ["tok123"]
  /\ Sample.files "proxy.txt" = Some ["http://1.2.3.4:8080"; "socks5://5.6.7.8:1080"]
  /\ w_exit w = None
  /\ nth_error (w_timers w) 0 = Some Sample.timer
  /\ t_active Sample.timer = true
  /\ t_due Sample.timer <= 31500
  /\ exists agent,
       w_sent (@step NodeUrl.platform 31500 (TimerFires 0) w)
       = (w_sent w ++ [ping_request (t_job Sample.timer) 31500 (w_entropy w) agent])%list
       /\ w_console (@step NodeUrl.platform 31500 (TimerFires 0) w) = w_console w.
Proof.
  cbn zeta.
  split; [reflexivity|]. split; [reflexivity|]. split; [reflexivity|].
  split; [reflexivity|]. split; [reflexivity|]. split; [discriminate|].
  destruct (@loop_tick_sends_ping NodeUrl.platform 1000 Sample.entropy Sample.files
              ["tok123"] ["http://1.2.3.4:8080"; "socks5://5.6.7.8:1080"]
              [(1500, Response 0 (Sample.session_ok Sample.account))]
              0%nat Sample.timer 31500
              eq_refl eq_refl eq_refl eq_refl eq_refl ltac:(discriminate))
    as (agent & _ & Hsent & _ & Hcons & _).
  exists agent. split; [exact Hsent|exact Hcons].
Defined.

(** After the tick at 31500 ms the timer of the sample run is due at
    61500 ms, and a tick at 61499 ms does nothing. *)
Lemma loop_waits_retry_interval_witness :
  let w := @steps NodeUrl.platform [(1500, Response 0 (Sample.session_ok Sample.account))]
             (@run OMain (@script NodeUrl.platform)
                   (initial 1000 Sample.entropy Sample.files)) in
  Sample.files "token.txt" = Some ["tok123"]
  /\ Sample.files "proxy.txt" = Some ["http://1.2.3.4:8080"; "socks5://5.6.7.8:1080"]
  /\ w_exit w = None
  /\ nth_error (w_timers w) 0 = Some Sample.timer
  /\ t_active Sample.timer = true
  /\ t_due Sample.timer <= 31500
  /\ 61499 < 31500 + 30000
  /\ nth_error (w_timers (@step NodeUrl.platform 31500 (TimerFires 0) w)) 0
     = Some (mkTimer (t_job Sample.timer) 30000 (31500 + 30000) true)
  /\ @step NodeUrl.platform 61499 (TimerFires 0)
           (@step NodeUrl.platform 31500 (TimerFires 0) w)
     = @step NodeUrl.platform 31500 (TimerFires 0) w.
Proof.
  cbn zeta.
  split; [reflexivity|]. split; [reflexivity|]. split; [reflexivity|].
  split; [reflexivity|]. split; [reflexivity|]. split; [discriminate|].
  split; [reflexivity|].
  destruct (@loop_waits_retry_interval NodeUrl.platform 1000 Sample.entropy Sample.files
              ["tok123"] ["http://1.2.3.4:8080"; "socks5://5.6.7.8:1080"]
              [(1500, Response 0 (Sample.session_ok Sample.account))]
              0%nat Sample.timer 31500
              eq_refl eq_refl eq_refl eq_refl eq_refl ltac:(discriminate))
    as (Hi & Hbefore).
  split; [exact Hi|]. exact (Hbefore 61499 eq_refl).
Defined.

(** SIGINT at 2000 ms clears the timer of the sample run, and the tick at
    31500 ms does nothing. *)
Lemma sigint_stops_every_loop_witness :
  let w := @steps NodeUrl.platform [(1500, Response 0 (Sample.session_ok Sample.account))]
             (@run OMain (@script NodeUrl.platform)
                   (initial 1000 Sample.entropy Sample.files)) in
  Sample.files "token.txt" = Some ["tok123"]
  /\ Sample.files "proxy.txt" = Some ["http://1.2.3.4:8080"; "socks5://5.6.7.8:1080"]
  /\ w_exit w = None
  /\ w_timers w = [Sample.timer]
  /\ w_timers (@step NodeUrl.platform 2000 Sigint w) = map deactivate (w_timers w)
  /\ @step NodeUrl.platform 31500 (TimerFires 0) (@step NodeUrl.platform 2000 Sigint w)
     = @step NodeUrl.platform 2000 Sigint w.
Proof.
  cbn zeta.
  split; [reflexivity|]. split; [reflexivity|]. split; [reflexivity|].
  split; [reflexivity|].
  destruct (@sigint_stops_every_loop NodeUrl.platform 1000 Sample.entropy Sample.files
              ["tok123"] ["http://1.2.3.4:8080"; "socks5://5.6.7.8:1080"]
              [(1500, Response 0 (Sample.session_ok Sample.account))] 2000
              eq_refl eq_refl eq_refl)
    as (Hts & _ & _ & Hnever).
  split; [exact Hts|]. exact (Hnever 31500 0%nat).
Defined.

(** In the sample run, with one session request answered and the other
    not, SIGINT does not end the process. *)
Lemma sigint_exit_code_witness :
  let w := @steps NodeUrl.platform [(1500, Response 0 (Sample.session_ok Sample.account))]
             (@run OMain (@script NodeUrl.platform)
                   (initial 1000 Sample.entropy Sample.files)) in
  Sample.files "token.txt" = Some ["tok123"]
  /\ Sample.files "proxy.txt" = Some ["http://1.2.3.4:8080"; "socks5://5.6.7.8:1080"]
  /\ w_exit w = None
  /\ called_count (w_pending w) = 1%nat
  /\ w_exit (@step NodeUrl.platform 2000 Sigint w) = None.
Proof.
  cbn zeta.
  split; [reflexivity|]. split; [reflexivity|]. split; [reflexivity|].
  split; [reflexivity|].
  exact (proj1 (@sigint_exit_code NodeUrl.platform 1000 Sample.entropy Sample.files
                  ["tok123"] ["http://1.2.3.4:8080"; "socks5://5.6.7.8:1080"]
                  [(1500, Response 0 (Sample.session_ok Sample.account))] 2000
                  eq_refl eq_refl eq_refl)).
Defined.

(** In the sample run, after a session answer and a tick, no error is
    unhandled. *)
Lemma outer_handlers_never_run_witness :
  let w := @steps NodeUrl.platform
             [(1500, Response 0 (Sample.session_ok Sample.account)); (31500, TimerFires 0)]
             (@run OMain (@script NodeUrl.platform)
                   (initial 1000 Sample.entropy Sample.files)) in
  Sample.files "token.txt" = Some ["tok123"]
  /\ Sample.files "proxy.txt" = Some ["http://1.2.3.4:8080"; "socks5://5.6.7.8:1080"]
  /\ List.length (w_sent w) = 3%nat
  /\ w_unhandled w = []
  /\ Forall (fun l => is_task_error l = false /\ is_ping_send_error l = false)
            (w_console w).
Proof.
  cbn zeta.
  split; [reflexivity|]. split; [reflexivity|]. split; [reflexivity|].
  destruct (@outer_handlers_never_run NodeUrl.platform 1000 Sample.entropy Sample.files
              ["tok123"] ["http://1.2.3.4:8080"; "socks5://5.6.7.8:1080"]
              [(1500, Response 0 (Sample.session_ok Sample.account)); (31500, TimerFires 0)]
              eq_refl eq_refl) as (Hun & Hcons & _).
  split; [exact Hun|exact Hcons].
Defined.

(** In the sample run, once both session requests are answered, the next
    turn of [main] installs its listener, and SIGINT then ends the process
    with code 0. *)
Lemma shutdown_listener_installed_witness :
  let w := @steps NodeUrl.platform SamplePing.sessions_answered
             (@run OMain (@script NodeUrl.platform)
                   (initial 1000 Sample.entropy Sample.files)) in
  Sample.files "token.txt" = Some ["tok123"]
  /\ Sample.files "proxy.txt" = Some ["http://1.2.3.4:8080"; "socks5://5.6.7.8:1080"]
  /\ w_exit w = None
  /\ w_parked w = Some (OMain, ProcessOnSigint ShutDown (Ret tt))
  /\ called_count (w_pending w) = 0%nat
  /\ w_listeners (@step NodeUrl.platform 1700 AllSettled w)
     = (w_listeners w ++ [ShutDown])%list
  /\ w_exit (@step NodeUrl.platform 3000 Sigint (@step NodeUrl.platform 1700 AllSettled w))
     = Some 0.
Proof.
  cbn zeta.
  split; [reflexivity|]. split; [reflexivity|]. split; [reflexivity|].
  split; [reflexivity|]. split; [reflexivity|].
  assert (Hparked : w_parked (@steps NodeUrl.platform SamplePing.sessions_answered
                                (@run OMain (@script NodeUrl.platform)
                                      (initial 1000 Sample.entropy Sample.files)))
                    = Some (OMain, ProcessOnSigint ShutDown (Ret tt)))
    by reflexivity.
  destruct (@shutdown_listener_installed NodeUrl.platform 1000 Sample.entropy Sample.files
              ["tok123"] ["http://1.2.3.4:8080"; "socks5://5.6.7.8:1080"]
              SamplePing.sessions_answered 1700
              eq_refl eq_refl eq_refl
              (fun E => eq_ind (Some (OMain, ProcessOnSigint ShutDown (Ret tt)))
                               (fun o => match o with Some _ => True | None => False end)
                               I None (eq_trans (eq_sym Hparked) E))
              eq_refl)
    as (Hls & _ & _ & Hexit).
  split; [exact Hls|exact (Hexit 3000)].
Defined.

(** In the sample run, once the first session request is answered and
    the second is rejected, the first line has the only loop and the
    second line is the only rejected one. *)
Lemma one_loop_per_session_witness :
  let w := @steps NodeUrl.platform SamplePing.sessions_answered
             (@run OMain (@script NodeUrl.platform)
                   (initial 1000 Sample.entropy Sample.files)) in
  Sample.files "token.txt" = Some ["tok123"]
  /\ Sample.files "proxy.txt" = Some ["http://1.2.3.4:8080"; "socks5://5.6.7.8:1080"]
  /\ loop_proxies (w_timers w) = ["http://1.2.3.4:8080"]
  /\ rejected_proxies (w_log w) = ["socks5://5.6.7.8:1080"]
  /\ NoDup (loop_proxies (w_timers w))
  /\ ~ In "socks5://5.6.7.8:1080" (loop_proxies (w_timers w)).
Proof.
  cbn zeta.
  split; [reflexivity|]. split; [reflexivity|]. split; [reflexivity|].
  split; [reflexivity|].
  destruct (@one_loop_per_session NodeUrl.platform 1000 Sample.entropy Sample.files
              "tok123" [] ["http://1.2.3.4:8080"; "socks5://5.6.7.8:1080"]
              SamplePing.sessions_answered eq_refl eq_refl)
    as (waiting & _ & _ & Hnd).
  assert (Hlines : NoDup (map trim ["http://1.2.3.4:8080"; "socks5://5.6.7.8:1080"])).
  { constructor; [|constructor; [|constructor]].
    - intros [Heq|[]]. discriminate Heq.
    - intros []. }
  destruct (Hnd Hlines) as [Hloops Hnot].
  split; [exact Hloops|]. apply Hnot. right.
  assert (Hr : rejected_proxies
                 (w_log (@steps NodeUrl.platform SamplePing.sessions_answered
                           (@run OMain (@script NodeUrl.platform)
                                 (initial 1000 Sample.entropy Sample.files))))
               = ["socks5://5.6.7.8:1080"]) by reflexivity.
  rewrite Hr. left. reflexivity.
Defined.
